(** * Journal guide: the two Flask applications of the repository

    [src/app.py] (module [App] below) keeps users and journals in SQLAlchemy
    models; [src/author_informatinons/app.py] (module [AuthorInfo]) keeps them
    in an SQLite file and talks SQL.  Both serve the same routes.

    The handlers are embedded as pure functions: the database is a value that
    goes in and comes out, the clock reading ([datetime.utcnow()]) and the
    salt of the password hash are arguments, an uncaught Python exception is
    the response [abort 500] with the database as it was.

    Python strings are Rocq strings whose characters are read as code points
    0..255.  The library functions the handlers call ([int], [float],
    [datetime.isoformat], [json.dumps], [json.loads], SQL's [LIKE]) are
    written out on that domain. *)

From Stdlib Require Import ZArith List String Ascii Bool Lia SpecFloat Sorted Permutation.
Import ListNotations.

Open Scope string_scope.
Open Scope list_scope.
Open Scope Z_scope.

(** ** Python values the handlers rely on *)

Module Py.

Definition chars (s : string) : list ascii := list_ascii_of_string s.
Definition str (l : list ascii) : string := string_of_list_ascii l.

Definition ord (c : ascii) : Z := Z.of_nat (nat_of_ascii c).
Definition chr (n : Z) : ascii := ascii_of_nat (Z.to_nat n).

(** [bool(x)] of a value that is [None] or a string: [None] and [''] are
    false. *)
Definition truthy (x : option string) : bool :=
  match x with
  | Some (String _ _) => true
  | _ => false
  end.

(** [x or None]. *)
Definition or_None (x : option string) : option string :=
  if truthy x then x else None.

(** [not s] for a string. *)
Definition is_empty (s : string) : bool :=
  match s with
  | EmptyString => true
  | String _ _ => false
  end.

(** The blanks [int] and [float] skip at both ends of a string: C's
    [isspace] (tab, line feed, vertical tab, form feed, carriage return,
    space) and, of the code points above 127, the two that are spaces of
    Unicode (next line, no-break space). *)
Definition is_space (c : ascii) : bool :=
  let n := ord c in
  ((9 <=? n) && (n <=? 13)) || (n =? 32) || (n =? 133) || (n =? 160).

Definition is_digit (c : ascii) : bool :=
  let n := ord c in (48 <=? n) && (n <=? 57).

Definition digit_val (c : ascii) : Z := ord c - 48.

Fixpoint lstrip (l : list ascii) : list ascii :=
  match l with
  | c :: l' => if is_space c then lstrip l' else l
  | [] => []
  end.

Definition strip (l : list ascii) : list ascii :=
  rev (lstrip (rev (lstrip l))).

(** Digits with single underscores between them ([1_000]); [prev] says
    whether the character before was a digit. *)
Fixpoint int_digits (l : list ascii) (prev : bool) (acc : Z) : option Z :=
  match l with
  | [] => if prev then Some acc else None
  | c :: l' =>
      if is_digit c then int_digits l' true (10 * acc + digit_val c)
      else if Ascii.eqb c "_" && prev then int_digits l' false acc
      else None
  end.

(** [int(s)] in base ten: [None] is [ValueError].  The interpreter's cap on
    the number of digits is not part of the model. *)
Definition int (s : string) : option Z :=
  match strip (chars s) with
  | "+"%char :: r => int_digits r false 0
  | "-"%char :: r => option_map Z.opp (int_digits r false 0)
  | l => int_digits l false 0
  end.

(** *** [float]: binary64 values as [spec_float] *)

Definition prec : Z := 53.
Definition emax : Z := 1024.

Definition float := spec_float.
Definition zero : float := S754_zero false.
Definition nan : float := S754_nan.

(** The double nearest to [m * 10^e] (ties to even), [m] read from [nd]
    decimal digits.  Far outside the range of doubles the answer is known
    without computing the power. *)
Definition float_of_decimal (neg : bool) (m : Z) (nd : Z) (e : Z) : float :=
  match m with
  | Zpos p =>
      if 0 <=? e then
        if 400 <? e then S754_infinity neg
        else binary_normalize prec emax (if neg then - (m * 10 ^ e) else m * 10 ^ e) 0 neg
      else if nd + e <? -400 then S754_zero neg
      else SFdiv prec emax (S754_finite neg p 0)
                           (S754_finite false (Z.to_pos (10 ^ (- e))) 0)
  | _ => S754_zero neg
  end.

(** Underscores of a numeric literal: each stands between two digits; the
    literal is read without them. *)
Fixpoint drop_underscores (l : list ascii) (prev : option ascii) : option (list ascii) :=
  match l with
  | [] =>
      match prev with
      | Some "_"%char => None
      | _ => Some []
      end
  | c :: l' =>
      if Ascii.eqb c "_" then
        match prev with
        | Some p => if is_digit p then drop_underscores l' (Some c) else None
        | None => None
        end
      else
        match prev with
        | Some "_"%char =>
            if is_digit c then option_map (cons c) (drop_underscores l' (Some c)) else None
        | _ => option_map (cons c) (drop_underscores l' (Some c))
        end
  end.

(** A run of digits: its value continued from [acc], how many there were,
    and what follows. *)
Fixpoint take_digits (l : list ascii) (acc : Z) (n : Z) : Z * Z * list ascii :=
  match l with
  | c :: l' => if is_digit c then take_digits l' (10 * acc + digit_val c) (n + 1) else (acc, n, l)
  | [] => (acc, n, [])
  end.

Definition lower (c : ascii) : ascii :=
  let n := ord c in if (65 <=? n) && (n <=? 90) then chr (n + 32) else c.

(** The exponent part: nothing, or [e] / [E], a sign and digits up to the
    end of the literal. *)
Definition float_exponent (l : list ascii) : option Z :=
  match l with
  | [] => Some 0
  | c :: r =>
      if Ascii.eqb (lower c) "e" then
        let '(neg, r') :=
          match r with
          | "+"%char :: r' => (false, r')
          | "-"%char :: r' => (true, r')
          | _ => (false, r)
          end in
        match take_digits r' 0 0 with
        | (x, n, []) => if 0 <? n then Some (if neg then - x else x) else None
        | _ => None
        end
      else None
  end.

(** The unsigned part of a literal: [inf], [infinity], [nan] in any case, or
    digits with an optional point and exponent. *)
Definition float_unsigned (neg : bool) (l : list ascii) : option float :=
  let name := str (map lower l) in
  if String.eqb name "inf" || String.eqb name "infinity" then Some (S754_infinity neg)
  else if String.eqb name "nan" then Some S754_nan
  else
    let '(m1, n1, r1) := take_digits l 0 0 in
    let '(m2, n2, r2) :=
      match r1 with
      | "."%char :: r => take_digits r m1 0
      | _ => (m1, 0, r1)
      end in
    if (n1 + n2 =? 0) then None
    else
      match float_exponent r2 with
      | Some x => Some (float_of_decimal neg m2 (n1 + n2) (x - n2))
      | None => None
      end.

(** [float(s)]: [None] is [ValueError]. *)
Definition float_of_str (s : string) : option float :=
  match drop_underscores (strip (chars s)) None with
  | Some ("+"%char :: r) => float_unsigned false r
  | Some ("-"%char :: r) => float_unsigned true r
  | Some l => float_unsigned false l
  | None => None
  end.

(** [x >= 0] and [x < 0] for a float [x]: both false on nan. *)
Definition ge0 (x : float) : bool := SFleb zero x.
Definition lt0 (x : float) : bool := SFltb x zero.

End Py.

(** ** [datetime]: naive datetimes, [isoformat] and [fromisoformat] *)

Module Datetime.

Record datetime := {
  year : Z; month : Z; day : Z;
  hour : Z; minute : Z; second : Z; microsecond : Z
}.

Definition is_leap (y : Z) : bool :=
  ((y mod 4 =? 0) && negb (y mod 100 =? 0)) || (y mod 400 =? 0).

Definition days_in_month (y m : Z) : Z :=
  if m =? 2 then (if is_leap y then 29 else 28)
  else if (m =? 4) || (m =? 6) || (m =? 9) || (m =? 11) then 30
  else 31.

Definition between (lo x hi : Z) : bool := (lo <=? x) && (x <=? hi).

(** The values the [datetime] constructor accepts; [utcnow()] returns only
    such values. *)
Definition valid (d : datetime) : bool :=
  between 1 (year d) 9999 && between 1 (month d) 12 &&
  between 1 (day d) (days_in_month (year d) (month d)) &&
  between 0 (hour d) 23 && between 0 (minute d) 59 && between 0 (second d) 59 &&
  between 0 (microsecond d) 999999.

(** Comparison of naive datetimes is field by field, the year first; on
    valid values that is the order of [key]. *)
Definition key (d : datetime) : Z :=
  (((((year d * 13 + month d) * 32 + day d) * 24 + hour d) * 60 + minute d) * 60
   + second d) * 1000000 + microsecond d.

Definition le (a b : datetime) : Prop := key a <= key b.
Definition leb (a b : datetime) : bool := key a <=? key b.

Definition digit (n : Z) : ascii := Py.chr (48 + n mod 10).

Definition pad2 (n : Z) : list ascii := [digit (n / 10); digit n].
Definition pad4 (n : Z) : list ascii :=
  [digit (n / 1000); digit (n / 100); digit (n / 10); digit n].
Definition pad6 (n : Z) : list ascii :=
  [digit (n / 100000); digit (n / 10000); digit (n / 1000);
   digit (n / 100); digit (n / 10); digit n].

(** [d.isoformat()]: [YYYY-MM-DDTHH:MM:SS], and [.ffffff] after it when the
    microsecond is not 0. *)
Definition isoformat (d : datetime) : string :=
  Py.str (pad4 (year d) ++ "-"%char :: pad2 (month d) ++ "-"%char :: pad2 (day d)
          ++ "T"%char :: pad2 (hour d) ++ ":"%char :: pad2 (minute d)
          ++ ":"%char :: pad2 (second d)
          ++ (if microsecond d =? 0 then [] else "."%char :: pad6 (microsecond d))).

(** A field of [w] digits at the head of [l]. *)
Definition field (w : nat) (l : list ascii) : option (Z * list ascii) :=
  let d := firstn w l in
  if (Nat.eqb (List.length d) w) && forallb Py.is_digit d
  then Some (fold_left (fun a c => 10 * a + Py.digit_val c) d 0, skipn w l)
  else None.

Definition sep (c : ascii) (l : list ascii) : option (list ascii) :=
  match l with
  | x :: r => if Ascii.eqb x c then Some r else None
  | [] => None
  end.

Definition bind {A B} (x : option A) (f : A -> option B) : option B :=
  match x with
  | Some a => f a
  | None => None
  end.

Notation "'do' x <- a ; b" := (bind a (fun x => b))
  (at level 10, x pattern, a at level 100, b at level 200).

(** [datetime.fromisoformat(s)] on the two layouts [isoformat] writes for a
    naive datetime; [None] is [ValueError].  Python reads further layouts
    (a date alone, other separators, offsets), which the handlers never
    store: here they count as failures. *)
Definition fromisoformat (s : string) : option datetime :=
  do (y, l) <- field 4 (Py.chars s);
  do l <- sep "-" l;
  do (mo, l) <- field 2 l;
  do l <- sep "-" l;
  do (d, l) <- field 2 l;
  do l <- sep "T" l;
  do (h, l) <- field 2 l;
  do l <- sep ":" l;
  do (mi, l) <- field 2 l;
  do l <- sep ":" l;
  do (sec, l) <- field 2 l;
  do us <- match l with
           | [] => Some 0
           | _ => do l <- sep "." l;
                  do (us, l) <- field 6 l;
                  match l with [] => Some us | _ => None end
           end;
  let r := {| year := y; month := mo; day := d; hour := h; minute := mi;
              second := sec; microsecond := us |} in
  if valid r then Some r else None.

End Datetime.

(** ** [json]: the documents the handlers store

    Both applications store [update_history] and [comments] as the
    [json.dumps] of a list of dicts whose keys and values are strings.
    That is the fragment of JSON written out here; [loads] answers [None]
    for a text that is not JSON and for a document outside the fragment
    (numbers, literals, other nestings, escapes of code points above 255). *)

Module Json.

(** A Python dict with string keys and values, in insertion order. *)
Definition dict := list (string * string).

(** [d.get(k)]. *)
Fixpoint get (k : string) (d : dict) : option string :=
  match d with
  | [] => None
  | (k', v) :: d' => if String.eqb k k' then Some v else get k d'
  end.

(** [d[k] = v]: a key already there keeps its place. *)
Fixpoint set (k v : string) (d : dict) : dict :=
  match d with
  | [] => [(k, v)]
  | (k', v') :: d' => if String.eqb k k' then (k, v) :: d' else (k', v') :: set k v d'
  end.

Definition dquote : ascii := Py.chr 34.
Definition backslash : ascii := Py.chr 92.

Definition hex (n : Z) : ascii := if n <? 10 then Py.chr (48 + n) else Py.chr (87 + n).

(** One character of a string as [json.dumps] writes it ([ensure_ascii] is
    on by default). *)
Definition escape (c : ascii) : list ascii :=
  let n := Py.ord c in
  if n =? 34 then [backslash; dquote]
  else if n =? 92 then [backslash; backslash]
  else if n =? 10 then [backslash; "n"%char]
  else if n =? 13 then [backslash; "r"%char]
  else if n =? 9 then [backslash; "t"%char]
  else if n =? 8 then [backslash; "b"%char]
  else if n =? 12 then [backslash; "f"%char]
  else if (n <? 32) || (126 <? n)
       then [backslash; "u"%char; "0"%char; "0"%char; hex (n / 16); hex (n mod 16)]
  else [c].

Definition dumps_str (s : string) : list ascii :=
  dquote :: flat_map escape (Py.chars s) ++ [dquote].

Definition dumps_member (kv : string * string) : list ascii :=
  dumps_str (fst kv) ++ Py.chars ": " ++ dumps_str (snd kv).

(** [', '.join(items)]. *)
Fixpoint join (items : list (list ascii)) : list ascii :=
  match items with
  | [] => []
  | [x] => x
  | x :: rest => x ++ Py.chars ", " ++ join rest
  end.

Definition dumps_dict (d : dict) : list ascii :=
  "{"%char :: join (map dumps_member d) ++ ["}"%char].

(** [json.dumps(l)] for a list of dicts. *)
Definition dumps (l : list dict) : string :=
  Py.str ("["%char :: join (map dumps_dict l) ++ ["]"%char]).

Inductive token :=
| TLBracket | TRBracket | TLBrace | TRBrace | TColon | TComma
| TStr (s : string).

(** Where the scanner stands: between tokens, inside a string (the
    characters so far, last first), after a backslash, or inside [\uXXXX]
    with [k] hex digits of value [v] read. *)
Inductive mode :=
| Out
| In (acc : list ascii)
| Esc (acc : list ascii)
| Uni (acc : list ascii) (k : nat) (v : Z).

Definition is_ws (c : ascii) : bool :=
  let n := Py.ord c in (n =? 32) || (n =? 9) || (n =? 10) || (n =? 13).

Definition punct (c : ascii) : option token :=
  let n := Py.ord c in
  if n =? 91 then Some TLBracket
  else if n =? 93 then Some TRBracket
  else if n =? 123 then Some TLBrace
  else if n =? 125 then Some TRBrace
  else if n =? 58 then Some TColon
  else if n =? 44 then Some TComma
  else None.

Definition hexval (c : ascii) : option Z :=
  let n := Py.ord c in
  if Datetime.between 48 n 57 then Some (n - 48)
  else if Datetime.between 97 n 102 then Some (n - 87)
  else if Datetime.between 65 n 70 then Some (n - 55)
  else None.

(** The character a one-letter escape stands for. *)
Definition unescape (c : ascii) : option ascii :=
  let n := Py.ord c in
  if (n =? 34) || (n =? 92) || (n =? 47) then Some c
  else if n =? 98 then Some (Py.chr 8)
  else if n =? 102 then Some (Py.chr 12)
  else if n =? 110 then Some (Py.chr 10)
  else if n =? 114 then Some (Py.chr 13)
  else if n =? 116 then Some (Py.chr 9)
  else None.

Fixpoint lex (l : list ascii) (m : mode) : option (list token) :=
  match l with
  | [] =>
      match m with
      | Out => Some []
      | _ => None
      end
  | c :: l' =>
      match m with
      | Out =>
          if is_ws c then lex l' Out
          else if Py.ord c =? 34 then lex l' (In [])
          else
            match punct c with
            | Some t => option_map (cons t) (lex l' Out)
            | None => None
            end
      | In acc =>
          if Py.ord c =? 34 then option_map (cons (TStr (Py.str (rev acc)))) (lex l' Out)
          else if Py.ord c =? 92 then lex l' (Esc acc)
          else if Py.ord c <? 32 then None
          else lex l' (In (c :: acc))
      | Esc acc =>
          if Py.ord c =? 117 then lex l' (Uni acc 0 0)
          else
            match unescape c with
            | Some x => lex l' (In (x :: acc))
            | None => None
            end
      | Uni acc k v =>
          match hexval c with
          | Some h =>
              let v' := 16 * v + h in
              if Nat.eqb k 3
              then (if v' <? 256 then lex l' (In (Py.chr v' :: acc)) else None)
              else lex l' (Uni acc (S k) v')
          | None => None
          end
      end
  end.

(** Where the parser stands in [[ {k: v, ...}, ... ]]; [acc] holds the dicts
    already closed, [d] the members of the open one. *)
Inductive state :=
| Start
| ArrFirst
| ArrNext (acc : list dict)
| ArrAfter (acc : list dict)
| ObjFirst (acc : list dict)
| ObjKey (acc : list dict) (d : dict)
| ObjColon (acc : list dict) (d : dict) (k : string)
| ObjVal (acc : list dict) (d : dict) (k : string)
| ObjAfter (acc : list dict) (d : dict)
| Done (acc : list dict).

Definition step (st : state) (t : token) : option state :=
  match st, t with
  | Start, TLBracket => Some ArrFirst
  | ArrFirst, TRBracket => Some (Done [])
  | ArrFirst, TLBrace => Some (ObjFirst [])
  | ArrNext acc, TLBrace => Some (ObjFirst acc)
  | ArrAfter acc, TComma => Some (ArrNext acc)
  | ArrAfter acc, TRBracket => Some (Done acc)
  | ObjFirst acc, TRBrace => Some (ArrAfter (acc ++ [[]]))
  | ObjFirst acc, TStr k => Some (ObjColon acc [] k)
  | ObjKey acc d, TStr k => Some (ObjColon acc d k)
  | ObjColon acc d k, TColon => Some (ObjVal acc d k)
  | ObjVal acc d k, TStr v => Some (ObjAfter acc (set k v d))
  | ObjAfter acc d, TComma => Some (ObjKey acc d)
  | ObjAfter acc d, TRBrace => Some (ArrAfter (acc ++ [d]))
  | _, _ => None
  end.

Fixpoint run (ts : list token) (st : state) : option (list dict) :=
  match ts with
  | [] =>
      match st with
      | Done acc => Some acc
      | _ => None
      end
  | t :: ts' =>
      match step st t with
      | Some st' => run ts' st'
      | None => None
      end
  end.

(** Scanning [l] from mode [m] and parsing its tokens from state [st]. *)
Definition feed (l : list ascii) (m : mode) (st : state) : option (list dict) :=
  match lex l m with
  | Some ts => run ts st
  | None => None
  end.

(** [json.loads(s)] on the fragment. *)
Definition loads (s : string) : option (list dict) := feed (Py.chars s) Out Start.

(** The keys of a dict are distinct. *)
Definition distinct_keys (d : dict) : Prop := NoDup (map fst d).

(** A state that takes a key as [ObjKey acc d] does. *)
Definition awaits_key (st : state) (acc : list dict) (d : dict) : Prop :=
  forall k, step st (TStr k) = Some (ObjColon acc d k).

(** The dicts a parser state holds. *)
Definition state_dicts (st : state) : list dict :=
  match st with
  | Start | ArrFirst => []
  | ArrNext acc | ArrAfter acc | ObjFirst acc | Done acc => acc
  | ObjKey acc d | ObjColon acc d _ | ObjVal acc d _ | ObjAfter acc d => d :: acc
  end.

End Json.

(** ** Flask: requests and responses *)

Module Flask.

(** [request.form] and [request.args]: a MultiDict, the pairs in the order
    they were sent. *)
Definition MultiDict := list (string * string).

(** [m.get(k)]: the first value sent for [k], or [None]. *)
Fixpoint get (k : string) (m : MultiDict) : option string :=
  match m with
  | [] => None
  | (k', v) :: m' => if String.eqb k k' then Some v else get k m'
  end.

Inductive method := GET | POST.

Record request := { method_ : method; form : MultiDict; args : MultiDict }.

Definition post (f : MultiDict) : request :=
  {| method_ := POST; form := f; args := [] |}.

(** The routes [url_for] is asked for. *)
Inductive endpoint :=
| index
| login
| journals_list
| journal_detail_page (journal_id : Z).

(** What a view returns: a redirect, a rendered template with its context,
    or an error status (400 for a missing form key, 404, 500 for an
    uncaught exception). *)
Inductive response (C : Type) :=
| redirect (target : endpoint)
| render_template (name : string) (context : C)
| abort (code : Z).

Arguments redirect {C} target.
Arguments render_template {C} name context.
Arguments abort {C} code.

(** A handled request: the database after it, the messages flashed, the
    response. *)
Record outcome (D C : Type) := {
  db_after : D;
  flashed : list string;
  resp : response C
}.

Arguments db_after {D C} o.
Arguments flashed {D C} o.
Arguments resp {D C} o.

Definition reply {D C} (d : D) (msgs : list string) (r : response C) : outcome D C :=
  {| db_after := d; flashed := msgs; resp := r |}.

(** [@login_required]: without a logged-in user the view is not run. *)
Definition login_required {U D C} (view : U -> D -> outcome D C)
    (g_user : option U) (d : D) : outcome D C :=
  match g_user with
  | None => reply d [] (redirect login)
  | Some u => view u d
  end.

(** The session cookie: [user_id] is the only key the applications keep in
    it, so a session is that id or nothing. *)
Definition session := option Z.

(** What [login] and [logout] return: the session after the request, the
    messages flashed, the response.  They do not write to the database. *)
Record session_outcome (C : Type) := {
  session_after : session;
  messages : list string;
  answer : response C
}.

Arguments session_after {C} _.
Arguments messages {C} _.
Arguments answer {C} _.

End Flask.

(** ** What the database engine does for both applications *)

Module Sql.

Section OrderBy.

Context {A : Type}.

(** [before y x]: [y] sorts strictly before [x]. *)
Variable before : A -> A -> bool.

Fixpoint insert (x : A) (l : list A) : list A :=
  match l with
  | [] => [x]
  | y :: r => if before y x then y :: insert x r else x :: y :: r
  end.

(** [ORDER BY]: rows with equal keys stay in table order (the engine
    promises no order among them). *)
Fixpoint order_by (l : list A) : list A :=
  match l with
  | [] => []
  | x :: r => insert x (order_by r)
  end.

(** What holds between a row and the next one of the output: the next one
    does not sort strictly before it. *)
Definition in_order (a b : A) : Prop := before b a = false.

End OrderBy.

(** [max(key) + 1] over a table, and at least [floor + 1]. *)
Definition next_key (floor : Z) (keys : list Z) : Z :=
  fold_right Z.max floor keys + 1.

(** SQLite's [s LIKE p]: [%] is any run of characters, [_] any one, ASCII
    letters match in either case.  This is the engine's LIKE on texts and
    patterns without a NUL character (the engine reads both up to the first
    NUL) and for a pattern within [max_like_pattern_length] bytes (a longer
    one is refused, "LIKE or GLOB pattern too complex"); see [nul_free] and
    [utf8_length]. *)
Fixpoint like (p s : list ascii) : bool :=
  match p with
  | [] =>
      match s with
      | [] => true
      | _ => false
      end
  | c :: p' =>
      if Ascii.eqb c "%" then
        (fix star (s : list ascii) : bool :=
           like p' s || match s with
                        | [] => false
                        | _ :: s' => star s'
                        end) s
      else
        match s with
        | [] => false
        | x :: s' =>
            (Ascii.eqb c "_" || Ascii.eqb (Py.lower c) (Py.lower x)) && like p' s'
        end
  end.

(** No character of the text is NUL. *)
Definition nul_free (s : string) : bool :=
  forallb (fun c => negb (Py.ord c =? 0)) (Py.chars s).

(** The bytes of a text in UTF-8, for characters up to 255. *)
Definition utf8_length (s : string) : Z :=
  fold_right (fun c n => (if Py.ord c <? 128 then 1 else 2) + n) 0 (Py.chars s).

(** SQLITE_MAX_LIKE_PATTERN_LENGTH. *)
Definition max_like_pattern_length : Z := 50000.

(** A value of a numeric column of SQLite: NULL, a 64-bit integer or a
    double. *)
Inductive num :=
| Null
| Integer (n : Z)
| Real (x : Py.float).

Definition int64_max : Z := 9223372036854775807.
Definition int64_min : Z := -9223372036854775808.

(** What a column declared REAL or INTEGER holds: NULL, a 64-bit integer, a
    double, or a text. *)
Inductive cell :=
| CNull
| CInteger (n : Z)
| CReal (x : Py.float)
| CText (s : string).

Inductive column_type := REAL | INTEGER.

(** A parameter bound to such a column: [None] is stored as NULL, a [str]
    is stored as the type affinity of the column makes of it. *)
Definition bind (affinity : string -> cell) (x : option string) : cell :=
  match x with
  | Some s => affinity s
  | None => CNull
  end.

Definition real_of_int (n : Z) : Py.float := binary_normalize Py.prec Py.emax n 0 false.

(** The integer a double is equal to, if it is one. *)
Definition int_of_real (x : Py.float) : option Z :=
  match x with
  | S754_zero _ => Some 0
  | S754_finite s m e =>
      let v := if 0 <=? e then Some (Zpos m * 2 ^ e)
               else if Zpos m mod 2 ^ (- e) =? 0 then Some (Zpos m / 2 ^ (- e))
               else None in
      option_map (fun n => if s then - n else n) v
  | _ => None
  end.

(** INTEGER affinity: a double that is an integer strictly inside the
    64-bit range is stored as that integer. *)
Definition integer_affinity (v : num) : num :=
  match v with
  | Real x =>
      match int_of_real x with
      | Some n => if (int64_min <? n) && (n <? int64_max) then Integer n else v
      | None => v
      end
  | _ => v
  end.

(** [v + 1] stored into an INTEGER column: NULL stays NULL, an integer
    addition that overflows 64 bits is done on doubles. *)
Definition add1 (v : num) : num :=
  match v with
  | Null => Null
  | Integer n =>
      if n <? int64_max then Integer (n + 1)
      else integer_affinity (Real (SFadd Py.prec Py.emax (real_of_int n) (real_of_int 1)))
  | Real x => integer_affinity (Real (SFadd Py.prec Py.emax x (real_of_int 1)))
  end.

End Sql.

(** ** [src/app.py]: the SQLAlchemy application *)

Module App.

Import Flask.

(** [class User(db.Model)]. *)
Record User := {
  user_id : Z;
  username : string;
  password_hash : string;
  role : string
}.

(** [class Journal(db.Model)]: a column that is not [nullable=False] holds
    [None] or a value.  The widths of the String columns are the backend's
    business and not checked here; what the backend does with the numbers
    bound to the Float and Integer columns is a parameter of [submit]. *)
Record Journal := {
  journal_id : Z;
  journal_name : string;
  issn : option string;
  publisher : option string;
  impact_factor : option Py.float;
  formatting_requirements : option string;
  font_specifications : option string;
  word_count_limit : option Z;
  reference_style : option string;
  reference_count_limit : option Z;
  submission_url : option string;
  official_guidelines_url : string;
  notes : option string;
  created_at : Datetime.datetime;
  last_updated : Datetime.datetime;
  update_history : option string;
  flags_count : option Z;
  comments : option string
}.

(** The two tables, rows in insertion order. *)
Record db := { users : list User; journals : list Journal }.

(** What the templates are given. *)
Inductive context :=
| NoContext
| JournalList (journals : list Journal)
| JournalDetail (journal : Journal) (update_history_list comments_list : list Json.dict).

Definition result := outcome db context.

(** [User.query.get(user_id)]. *)
Definition get_user (uid : Z) (d : db) : option User :=
  find (fun u => user_id u =? uid) (users d).

(** [User.query.filter_by(username=username).first()]. *)
Definition user_by_name (name : string) (d : db) : option User :=
  find (fun u => String.eqb (username u) name) (users d).

(** [Journal.query.get(journal_id)]. *)
Definition get_journal (jid : Z) (d : db) : option Journal :=
  find (fun j => journal_id j =? jid) (journals d).

(** The primary key the backend gives a new row: above every key of the
    table. *)
Definition new_user_id (d : db) : Z := Sql.next_key 0 (map user_id (users d)).
Definition new_journal_id (d : db) : Z := Sql.next_key 0 (map journal_id (journals d)).

(** [load_logged_in_user]: [session.get('user_id')] resolved to [g.user]. *)
Definition load_logged_in_user (session_user_id : option Z) (d : db) : option User :=
  match session_user_id with
  | Some uid => if uid =? 0 then None else get_user uid d
  | None => None
  end.

Section Handlers.

(** [werkzeug.security.generate_password_hash]: the hash of a password under
    a salt drawn at the call. *)
Variable generate_password_hash : string -> string -> string.

Definition register (salt : string) (g_user : option User) (req : request) (d : db)
  : result :=
  match g_user with
  | Some _ => reply d [] (redirect journals_list)
  | None =>
      match method_ req with
      | POST =>
          match get "username" (form req), get "password" (form req) with
          | Some username, Some password =>
              let error :=
                if Py.is_empty username then Some "Username is required."
                else if Py.is_empty password then Some "Password is required."
                else
                  match user_by_name username d with
                  | Some _ => Some ("User " ++ username ++ " is already registered.")%string
                  | None => None
                  end in
              match error with
              | None =>
                  let new_user :=
                    {| user_id := new_user_id d; username := username;
                       password_hash := generate_password_hash salt password;
                       role := "user" |} in
                  reply {| users := users d ++ [new_user]; journals := journals d |}
                        ["Registration successful! Please log in."]
                        (redirect login)
              | Some e => reply d [e] (render_template "register.html" NoContext)
              end
          | _, _ => reply d [] (abort 400)
          end
      | GET => reply d [] (render_template "register.html" NoContext)
      end
  end.

End Handlers.

(** [Journal.query.order_by(Journal.last_updated.desc()).all()]. *)
Definition newest_first (l : list Journal) : list Journal :=
  Sql.order_by
    (fun y x => negb (Datetime.leb (last_updated y) (last_updated x))) l.

Definition journals_list_view (g_user : option User) (d : db) : result :=
  login_required
    (fun _ d => reply d [] (render_template "journals.html"
                                            (JournalList (newest_first (journals d)))))
    g_user d.

(** [x or '[]'] for a text column. *)
Definition or_empty_list (x : option string) : string :=
  if Py.truthy x then match x with Some s => s | None => "[]" end else "[]".

Definition journal_detail (g_user : option User) (jid : Z) (d : db) : result :=
  login_required
    (fun _ d =>
       match get_journal jid d with
       | None => reply d [] (abort 404)
       | Some journal =>
           match Json.loads (or_empty_list (update_history journal)),
                 Json.loads (or_empty_list (comments journal)) with
           | Some update_history_list, Some comments_list =>
               reply d [] (render_template "journal_detail.html"
                             (JournalDetail journal update_history_list comments_list))
           | _, _ => reply d [] (abort 500)
           end
       end)
    g_user d.

(** [f(raw) if raw else None]; the outer [None] is the exception [f]
    raises. *)
Definition parse_if_present {A} (f : string -> option A) (raw : option string)
  : option (option A) :=
  match raw with
  | Some s => if Py.truthy raw then option_map Some (f s) else Some None
  | None => Some None
  end.

(** The dict [submit] starts the history with. *)
Definition creation_entry (now : Datetime.datetime) (author : string) : Json.dict :=
  [("timestamp", Datetime.isoformat now); ("author", author);
   ("changes", "Initial creation.")].

(** [new_journal = Journal(...)] as it is read back, given the two columns
    that may not be NULL and the three numbers as their columns hold them;
    [created] and [updated] are the readings of the clock the column
    defaults take when the row is flushed. *)
Definition new_journal (created updated : Datetime.datetime) (jid : Z)
    (form_data : MultiDict) (name url : string)
    (impact : option Py.float) (words refs : option Z) (initial_history : string)
  : Journal :=
  {| journal_id := jid;
     journal_name := name;
     issn := get "issn" form_data;
     publisher := get "publisher" form_data;
     impact_factor := impact;
     formatting_requirements := get "formatting_requirements" form_data;
     font_specifications := get "font_specifications" form_data;
     word_count_limit := words;
     reference_style := get "reference_style" form_data;
     reference_count_limit := refs;
     submission_url := get "submission_url" form_data;
     official_guidelines_url := url;
     notes := get "notes" form_data;
     created_at := created;
     last_updated := updated;
     update_history := Some initial_history;
     flags_count := Some 0;
     comments := Some (Json.dumps []) |}.

Section Backend.

(** The database behind [DATABASE_URL] is not part of the source.  What its
    Float and Integer columns do with a number bound at the commit is a
    parameter: [None] when the commit raises (an integer the column cannot
    hold), otherwise what a later read of the column returns, a value or
    NULL (SQLite reads NULL where a NaN was bound). *)
Variable column_float : Py.float -> option (option Py.float).
Variable column_integer : Z -> option (option Z).

(** A nullable column at the commit: [None] is stored as NULL. *)
Definition flush {A} (column : A -> option (option A)) (x : option A)
  : option (option A) :=
  match x with
  | Some v => column v
  | None => Some None
  end.

(** [submit]: [now] is the view's own reading of the clock.  A [ValueError]
    of [float] or [int], a number the backend refuses at the commit and the
    IntegrityError of a NULL [journal_name] or [official_guidelines_url] are
    uncaught. *)
Definition submit (now created updated : Datetime.datetime)
    (g_user : option User) (req : request) (d : db) : result :=
  login_required
    (fun user d =>
       match method_ req with
       | POST =>
           let form_data := form req in
           let initial_history :=
             Json.dumps [creation_entry now (username user)] in
           match parse_if_present Py.float_of_str (get "impact_factor" form_data),
                 parse_if_present Py.int (get "word_count_limit" form_data),
                 parse_if_present Py.int (get "reference_count_limit" form_data) with
           | Some impact, Some words, Some refs =>
               match get "journal_name" form_data,
                     get "official_guidelines_url" form_data with
               | Some name, Some url =>
                   match flush column_float impact, flush column_integer words,
                         flush column_integer refs with
                   | Some impact', Some words', Some refs' =>
                       reply {| users := users d;
                                journals :=
                                  journals d
                                  ++ [new_journal created updated (new_journal_id d)
                                        form_data name url impact' words' refs'
                                        initial_history] |}
                             ["New journal successfully submitted!"]
                             (redirect journals_list)
                   | _, _, _ => reply d [] (abort 500)
                   end
               | _, _ => reply d [] (abort 500)
               end
           | _, _, _ => reply d [] (abort 500)
           end
       | GET => reply d [] (render_template "submit.html" NoContext)
       end)
    g_user d.

End Backend.

Definition delete_journal (g_user : option User) (jid : Z) (d : db) : result :=
  login_required
    (fun user d =>
       if negb (String.eqb (role user) "admin") then
         reply d ["You do not have permission to delete."]
               (redirect (journal_detail_page jid))
       else
         match get_journal jid d with
         | None => reply d [] (abort 404)
         | Some journal_to_delete =>
             reply {| users := users d;
                      journals := filter (fun j => negb (journal_id j =? jid)) (journals d) |}
                   ["Journal entry successfully deleted."]
                   (redirect journals_list)
         end)
    g_user d.

Section Sessions.

Variable generate_password_hash : string -> string -> string.

(** [werkzeug.security.check_password_hash pwhash password]. *)
Variable check_password_hash : string -> string -> bool.

Definition index (g_user : option User) : response context :=
  match g_user with
  | None => redirect Flask.login
  | Some _ => redirect journals_list
  end.

Definition login (g_user : option User) (req : request) (s : session) (d : db)
  : session_outcome context :=
  match g_user with
  | Some _ => {| session_after := s; messages := []; answer := redirect journals_list |}
  | None =>
      match method_ req with
      | POST =>
          match get "username" (form req), get "password" (form req) with
          | Some username, Some password =>
              match user_by_name username d with
              | None =>
                  {| session_after := s; messages := ["Incorrect username."];
                     answer := render_template "login.html" NoContext |}
              | Some user =>
                  if check_password_hash (password_hash user) password then
                    {| session_after := Some (user_id user); messages := [];
                       answer := redirect journals_list |}
                  else
                    {| session_after := s; messages := ["Incorrect password."];
                       answer := render_template "login.html" NoContext |}
              end
          | _, _ => {| session_after := s; messages := []; answer := abort 400 |}
          end
      | GET =>
          {| session_after := s; messages := [];
             answer := render_template "login.html" NoContext |}
      end
  end.

Definition logout (s : session) : session_outcome context :=
  {| session_after := None; messages := []; answer := redirect Flask.login |}.

(** The start-up block under [if __name__ == '__main__']: the admin user is
    created unless a user of that name exists. *)
Definition main (salt : string) (d : db) : db :=
  match user_by_name "admin" d with
  | Some _ => d
  | None =>
      {| users := users d
                  ++ [{| user_id := new_user_id d; username := "admin";
                         password_hash := generate_password_hash salt "admin123";
                         role := "admin" |}];
         journals := journals d |}
  end.

End Sessions.

End App.

(** ** [src/author_informatinons/app.py]: the SQLite application *)

Module AuthorInfo.

Import Flask.

(** A row of [users]. *)
Record user_row := {
  id : Z;
  username : string;
  password_hash : string;
  role : string
}.

(** A row of [journals], as [init_db] declares the table.  A nullable TEXT
    column holds [None] (NULL) or a text.  [impact_factor] is declared REAL,
    [word_count_limit] and [reference_count_limit] INTEGER: they hold a
    cell.  [created_at] and [last_updated] are TEXT. *)
Record journal_row := {
  journal_id : Z;
  journal_name : string;
  issn : option string;
  publisher : option string;
  impact_factor : Sql.cell;
  formatting_requirements : option string;
  font_specifications : option string;
  word_count_limit : Sql.cell;
  reference_style : option string;
  reference_count_limit : Sql.cell;
  submission_url : option string;
  official_guidelines_url : string;
  notes : option string;
  created_at : string;
  last_updated : string;
  update_history : option string;
  flags_count : Sql.num;
  comments : option string
}.

(** The database file: the two tables in rowid order, and for each the
    largest rowid ever given (both are AUTOINCREMENT). *)
Record db := {
  users : list user_row;
  journals : list journal_row;
  users_seq : Z;
  journals_seq : Z
}.

Definition with_journals (d : db) (js : list journal_row) : db :=
  {| users := users d; journals := js;
     users_seq := users_seq d; journals_seq := journals_seq d |}.

(** A value of a decoded entry: [journal_detail] replaces the text under
    ['timestamp'] by the datetime it reads from it. *)
Inductive value :=
| VStr (s : string)
| VDatetime (t : Datetime.datetime).

Definition entry := list (string * value).

(** What [SELECT id, journal_name, impact_factor] returns for a row. *)
Definition summary : Type := Z * string * Sql.cell.

Definition summarize (j : journal_row) : summary :=
  (journal_id j, journal_name j, impact_factor j).

(** The [journal] dict [journal_detail] hands to the template: the row, with
    [update_history] and [comments] decoded. *)
Record detail := {
  row : journal_row;
  update_history_list : list entry;
  comments_list : list entry
}.

Inductive context :=
| NoContext
| JournalList (journals : list summary)
| JournalDetail (journal : detail).

Definition result := outcome db context.

(** [SELECT ... FROM users WHERE id = ?] and [... WHERE username = ?],
    [fetchone()]. *)
Definition user_by_id (uid : Z) (d : db) : option user_row :=
  find (fun u => id u =? uid) (users d).

Definition user_by_name (name : string) (d : db) : option user_row :=
  find (fun u => String.eqb (username u) name) (users d).

(** [SELECT ... FROM journals WHERE id = ?], [fetchone()].  Here and in
    the UPDATE and the DELETE below the id is one the sqlite3 module can
    bind, from [Sql.int64_min] to [Sql.int64_max]: for any other the binding
    raises OverflowError before the statement runs, and the view that
    issues it answers with status 500. *)
Definition journal_by_id (jid : Z) (d : db) : option journal_row :=
  find (fun j => journal_id j =? jid) (journals d).

(** [UPDATE journals SET ... WHERE id = ?]. *)
Definition update_where_id (jid : Z) (f : journal_row -> journal_row) (d : db) : db :=
  with_journals d (map (fun j => if journal_id j =? jid then f j else j) (journals d)).

(** [DELETE FROM journals WHERE id = ?]. *)
Definition delete_where_id (jid : Z) (d : db) : db :=
  with_journals d (filter (fun j => negb (journal_id j =? jid)) (journals d)).

Definition new_user_id (d : db) : Z := Sql.next_key (users_seq d) (map id (users d)).
Definition new_journal_id (d : db) : Z :=
  Sql.next_key (journals_seq d) (map journal_id (journals d)).

(** [ORDER BY last_updated DESC] on the TEXT column: texts compare
    character by character. *)
Definition newest_first (l : list journal_row) : list journal_row :=
  Sql.order_by (fun y x => negb (String.leb (last_updated y) (last_updated x))) l.

Definition load_logged_in_user (session_user_id : option Z) (d : db) : option user_row :=
  match session_user_id with
  | Some uid => if uid =? 0 then None else user_by_id uid d
  | None => None
  end.

Section Handlers.

(** [werkzeug.security.generate_password_hash], the salt made explicit. *)
Variable generate_password_hash : string -> string -> string.

(** The engine's [impact_factor >= ?] for a stored column value and the
    double bound to [?] (false on NULL). *)
Variable impact_factor_ge : Sql.cell -> Py.float -> bool.

(** The type affinity of the engine's columns: what a column declared REAL
    or INTEGER stores when a text is bound to it, the number the engine
    reads the text as (5 is stored as 5.0 in a REAL column, 007 as 7 in an
    INTEGER one) or, when it reads none, the text. *)
Variable column_affinity : Sql.column_type -> string -> Sql.cell.

Definition register (salt : string) (g_user : option user_row) (req : request) (d : db)
  : result :=
  match g_user with
  | Some _ => reply d [] (redirect index)
  | None =>
      match method_ req with
      | POST =>
          match get "username" (form req), get "password" (form req) with
          | Some username, Some password =>
              let error :=
                if Py.is_empty username then Some "Username is required."
                else if Py.is_empty password then Some "Password is required."
                else
                  match user_by_name username d with
                  | Some _ => Some ("User " ++ username ++ " is already registered.")%string
                  | None => None
                  end in
              match error with
              | None =>
                  let new_user :=
                    {| id := new_user_id d; username := username;
                       password_hash := generate_password_hash salt password;
                       role := "user" |} in
                  reply {| users := users d ++ [new_user]; journals := journals d;
                           users_seq := new_user_id d; journals_seq := journals_seq d |}
                        ["Registration successful! Please log in."]
                        (redirect login)
              | Some e => reply d [e] (render_template "register.html" NoContext)
              end
          | _, _ => reply d [] (abort 400)
          end
      | GET => reply d [] (render_template "register.html" NoContext)
      end
  end.

Definition journals_list_view (g_user : option user_row) (d : db) : result :=
  login_required
    (fun _ d => reply d [] (render_template "journals.html"
                              (JournalList (map summarize (newest_first (journals d))))))
    g_user d.

(** [x or '[]'] for a text column. *)
Definition or_empty_list (x : option string) : string :=
  if Py.truthy x then match x with Some s => s | None => "[]" end else "[]".

(** [record['timestamp'] = datetime.fromisoformat(record['timestamp'])]:
    [None] is the [KeyError] of a missing key or the [ValueError] of a text
    that is no timestamp. *)
Definition with_timestamp (record : Json.dict) : option entry :=
  match Json.get "timestamp" record with
  | Some s =>
      match Datetime.fromisoformat s with
      | Some t =>
          Some (map (fun kv => if String.eqb (fst kv) "timestamp"
                               then (fst kv, VDatetime t) else (fst kv, VStr (snd kv)))
                    record)
      | None => None
      end
  | None => None
  end.

Fixpoint with_timestamps (l : list Json.dict) : option (list entry) :=
  match l with
  | [] => Some []
  | r :: l' =>
      match with_timestamp r, with_timestamps l' with
      | Some e, Some es => Some (e :: es)
      | _, _ => None
      end
  end.

(** One of the two columns as the template receives it. *)
Definition decode_column (x : option string) : option (list entry) :=
  match Json.loads (or_empty_list x) with
  | Some l => with_timestamps l
  | None => None
  end.

Definition journal_detail (g_user : option user_row) (jid : Z) (d : db) : result :=
  login_required
    (fun _ d =>
       match journal_by_id jid d with
       | None => reply d [] (abort 404)
       | Some journal_raw =>
           match Json.loads (or_empty_list (update_history journal_raw)),
                 Json.loads (or_empty_list (comments journal_raw)) with
           | Some history, Some comments =>
               match with_timestamps history, with_timestamps comments with
               | Some history', Some comments' =>
                   reply d [] (render_template "journal_detail.html"
                                 (JournalDetail {| row := journal_raw;
                                                   update_history_list := history';
                                                   comments_list := comments' |}))
               | _, _ => reply d [] (abort 500)
               end
           | _, _ => reply d [] (abort 500)
           end
       end)
    g_user d.

(** The query [search] builds: the name pattern and the impact-factor
    bound, each there or not. *)
Record query := { name_like : option string; min_impact_factor : option Py.float }.

Definition search_query (req : request) : query :=
  let query_name := get "journal_name" (args req) in
  let query_if := get "impact_factor" (args req) in
  {| name_like :=
       match query_name with
       | Some n => if Py.truthy query_name then Some ("%" ++ n ++ "%")%string else None
       | None => None
       end;
     min_impact_factor :=
       match query_if with
       | Some q =>
           if Py.truthy query_if then
             match Py.float_of_str q with
             | Some x => if Py.ge0 x then Some x else None
             | None => None
             end
           else None
       | None => None
       end |}.

(** [SELECT ... WHERE 1=1 [AND journal_name LIKE ?] [AND impact_factor >= ?]
    ORDER BY last_updated DESC], before the projection, on the domain of
    [Sql.like]. *)
Definition select_rows (q : query) (d : db) : list journal_row :=
  newest_first
    (filter (fun j =>
               match name_like q with
               | Some p => Sql.like (Py.chars p) (Py.chars (journal_name j))
               | None => true
               end
               && match min_impact_factor q with
                  | Some x => impact_factor_ge (impact_factor j) x
                  | None => true
                  end)
            (journals d)).

Definition search (g_user : option user_row) (req : request) (d : db) : result :=
  login_required
    (fun _ d => reply d [] (render_template "journals.html"
                              (JournalList (map summarize (select_rows (search_query req) d)))))
    g_user d.

(** The dict [submit] starts the history with, and the one [add_comment]
    appends. *)
Definition creation_entry (now : Datetime.datetime) (author : string) : Json.dict :=
  [("timestamp", Datetime.isoformat now); ("author", author);
   ("changes", "Initial creation.")].

Definition comment_entry (now : Datetime.datetime) (author text : string) : Json.dict :=
  [("author", author); ("text", text); ("timestamp", Datetime.isoformat now)].

(** The row [INSERT INTO journals (...) VALUES (...)] adds: the sixteen
    values [submit] binds, the three numeric ones as the affinity of their
    columns stores them, [flags_count] by its DEFAULT. *)
Definition inserted_row (now : Datetime.datetime) (jid : Z) (form_data : MultiDict)
    (name url : string) (initial_history : string) : journal_row :=
  {| journal_id := jid;
     journal_name := name;
     issn := get "issn" form_data;
     publisher := get "publisher" form_data;
     impact_factor :=
       Sql.bind (column_affinity Sql.REAL) (Py.or_None (get "impact_factor" form_data));
     formatting_requirements := get "formatting_requirements" form_data;
     font_specifications := get "font_specifications" form_data;
     word_count_limit :=
       Sql.bind (column_affinity Sql.INTEGER)
                (Py.or_None (get "word_count_limit" form_data));
     reference_style := get "reference_style" form_data;
     reference_count_limit :=
       Sql.bind (column_affinity Sql.INTEGER)
                (Py.or_None (get "reference_count_limit" form_data));
     submission_url := get "submission_url" form_data;
     official_guidelines_url := url;
     notes := get "notes" form_data;
     created_at := Datetime.isoformat now;
     last_updated := Datetime.isoformat now;
     update_history := Some initial_history;
     flags_count := Sql.Integer 0;
     comments := Some (Json.dumps []) |}.

(** [submit]: a NULL bound to [journal_name] or [official_guidelines_url]
    is an IntegrityError, uncaught. *)
Definition submit (now : Datetime.datetime) (g_user : option user_row) (req : request)
    (d : db) : result :=
  login_required
    (fun user d =>
       match method_ req with
       | POST =>
           let form_data := form req in
           let initial_history :=
             Json.dumps [creation_entry now (username user)] in
           match get "journal_name" form_data, get "official_guidelines_url" form_data with
           | Some name, Some url =>
               reply {| users := users d;
                        journals :=
                          journals d
                          ++ [inserted_row now (new_journal_id d) form_data name url
                                initial_history];
                        users_seq := users_seq d;
                        journals_seq := new_journal_id d |}
                     ["New journal successfully submitted!"]
                     (redirect journals_list)
           | _, _ => reply d [] (abort 500)
           end
       | GET => reply d [] (render_template "submit.html" NoContext)
       end)
    g_user d.

Definition delete_journal (g_user : option user_row) (jid : Z) (d : db) : result :=
  login_required
    (fun user d =>
       if negb (String.eqb (role user) "admin") then
         reply d ["You do not have permission to delete."]
               (redirect (journal_detail_page jid))
       else
         reply (delete_where_id jid d)
               ["Journal entry successfully deleted."]
               (redirect journals_list))
    g_user d.

(** [UPDATE journals SET flags_count = flags_count + 1] on one row. *)
Definition bump_flags (j : journal_row) : journal_row :=
  {| journal_id := journal_id j;
     journal_name := journal_name j;
     issn := issn j;
     publisher := publisher j;
     impact_factor := impact_factor j;
     formatting_requirements := formatting_requirements j;
     font_specifications := font_specifications j;
     word_count_limit := word_count_limit j;
     reference_style := reference_style j;
     reference_count_limit := reference_count_limit j;
     submission_url := submission_url j;
     official_guidelines_url := official_guidelines_url j;
     notes := notes j;
     created_at := created_at j;
     last_updated := last_updated j;
     update_history := update_history j;
     flags_count := Sql.add1 (flags_count j);
     comments := comments j |}.

Definition flag_journal (g_user : option user_row) (jid : Z) (d : db) : result :=
  login_required
    (fun _ d => reply (update_where_id jid bump_flags d) []
                      (redirect (journal_detail_page jid)))
    g_user d.

(** [UPDATE journals SET comments = ?, last_updated = ?] on one row. *)
Definition set_comments (c t : string) (j : journal_row) : journal_row :=
  {| journal_id := journal_id j;
     journal_name := journal_name j;
     issn := issn j;
     publisher := publisher j;
     impact_factor := impact_factor j;
     formatting_requirements := formatting_requirements j;
     font_specifications := font_specifications j;
     word_count_limit := word_count_limit j;
     reference_style := reference_style j;
     reference_count_limit := reference_count_limit j;
     submission_url := submission_url j;
     official_guidelines_url := official_guidelines_url j;
     notes := notes j;
     created_at := created_at j;
     last_updated := t;
     update_history := update_history j;
     flags_count := flags_count j;
     comments := Some c |}.

Definition add_comment (now : Datetime.datetime) (g_user : option user_row) (jid : Z)
    (req : request) (d : db) : result :=
  login_required
    (fun user d =>
       let comment_text := get "comment_text" (form req) in
       match comment_text with
       | Some text =>
           if Py.truthy comment_text then
             match journal_by_id jid d with
             | Some journal =>
                 match Json.loads (or_empty_list (comments journal)) with
                 | Some comments =>
                     let comments' :=
                       comments ++ [comment_entry now (username user) text] in
                     reply (update_where_id jid
                              (set_comments (Json.dumps comments') (Datetime.isoformat now)) d)
                           [] (redirect (journal_detail_page jid))
                 | None => reply d [] (abort 500)
                 end
             | None => reply d [] (redirect (journal_detail_page jid))
             end
           else reply d [] (redirect (journal_detail_page jid))
       | None => reply d [] (redirect (journal_detail_page jid))
       end)
    g_user d.

(** One request: the clock reading its view takes, [g.user], and the route
    with its arguments. *)
Inductive route :=
| Register (salt : string) (req : request)
| JournalsList
| Detail (jid : Z)
| Search (req : request)
| Submit (req : request)
| Delete (jid : Z)
| Flag (jid : Z)
| Comment (jid : Z) (req : request).

Record call := { clock : Datetime.datetime; g_user : option user_row; what : route }.

Definition handle (c : call) (d : db) : result :=
  match what c with
  | Register salt req => register salt (g_user c) req d
  | JournalsList => journals_list_view (g_user c) d
  | Detail jid => journal_detail (g_user c) jid d
  | Search req => search (g_user c) req d
  | Submit req => submit (clock c) (g_user c) req d
  | Delete jid => delete_journal (g_user c) jid d
  | Flag jid => flag_journal (g_user c) jid d
  | Comment jid req => add_comment (clock c) (g_user c) jid req d
  end.

(** The database after a sequence of requests. *)
Definition serve (calls : list call) (d : db) : db :=
  fold_left (fun d c => db_after (handle c d)) calls d.

End Handlers.

(** A comment as a request: who, when, what text; and a flag as a
    request. *)
Definition comment_call (jid : Z) (c : Datetime.datetime * user_row * string) : call :=
  let '(now, user, text) := c in
  {| clock := now; g_user := Some user;
     what := Comment jid (post [("comment_text", text)]) |}.

Definition flag_call (jid : Z) (c : Datetime.datetime * user_row) : call :=
  {| clock := fst c; g_user := Some (snd c); what := Flag jid |}.

(** The dict stored for such a comment, and the entry the journal page
    shows for it. *)
Definition stored_comment (c : Datetime.datetime * user_row * string) : Json.dict :=
  let '(now, user, text) := c in comment_entry now (username user) text.

Definition shown_comment (c : Datetime.datetime * user_row * string) : entry :=
  let '(now, user, text) := c in
  [("author", VStr (username user)); ("text", VStr text); ("timestamp", VDatetime now)].

(** The request without the query argument [k]. *)
Definition without_arg (k : string) (req : request) : request :=
  {| method_ := method_ req; form := form req;
     args := filter (fun kv => negb (String.eqb k (fst kv))) (args req) |}.

Section Sessions.

Variable generate_password_hash : string -> string -> string.

(** [werkzeug.security.check_password_hash pwhash password]. *)
Variable check_password_hash : string -> string -> bool.

Definition index (g_user : option user_row) : response context :=
  match g_user with
  | Some _ => redirect journals_list
  | None => redirect Flask.login
  end.

Definition login (g_user : option user_row) (req : request) (s : session) (d : db)
  : session_outcome context :=
  match g_user with
  | Some _ => {| session_after := s; messages := []; answer := redirect Flask.index |}
  | None =>
      match method_ req with
      | POST =>
          match get "username" (form req), get "password" (form req) with
          | Some username, Some password =>
              match user_by_name username d with
              | None =>
                  {| session_after := s; messages := ["Incorrect username."];
                     answer := render_template "login.html" NoContext |}
              | Some user =>
                  if check_password_hash (password_hash user) password then
                    {| session_after := Some (id user); messages := [];
                       answer := redirect Flask.index |}
                  else
                    {| session_after := s; messages := ["Incorrect password."];
                       answer := render_template "login.html" NoContext |}
              end
          | _, _ => {| session_after := s; messages := []; answer := abort 400 |}
          end
      | GET =>
          {| session_after := s; messages := [];
             answer := render_template "login.html" NoContext |}
      end
  end.

Definition logout (s : session) : session_outcome context :=
  {| session_after := None; messages := []; answer := redirect Flask.login |}.

(** One turn of the loop of [init_db]: the user is inserted unless a row
    of that username exists. *)
Definition seed_user (d : db) (u : string * string * string) : db :=
  let '(username, pwd_hash, role) := u in
  match user_by_name username d with
  | Some _ => d
  | None =>
      {| users := users d
                  ++ [{| id := new_user_id d; username := username;
                         password_hash := pwd_hash; role := role |}];
         journals := journals d;
         users_seq := new_user_id d;
         journals_seq := journals_seq d |}
  end.

(** [init_db]: the tables are kept as they are ([CREATE TABLE IF NOT
    EXISTS]); the three users are hashed first, each under its own salt,
    then inserted in turn. *)
Definition init_db (salt1 salt2 salt3 : string) (d : db) : db :=
  let users_to_add :=
    [("admin", generate_password_hash salt1 "admin123", "admin");
     ("user1", generate_password_hash salt2 "user123", "user");
     ("user2", generate_password_hash salt3 "user123", "user")] in
  fold_left seed_user users_to_add d.

End Sessions.

(** The database file before [init_db] has put anything into it. *)
Definition empty_db : db :=
  {| users := []; journals := []; users_seq := 0; journals_seq := 0 |}.

(** A row whose two JSON columns decode, with timestamps the journal page
    can read, and whose [last_updated] is the ISO text of a valid
    datetime. *)
Definition row_renders (j : journal_row) : Prop :=
  decode_column (update_history j) <> None /\
  decode_column (comments j) <> None /\
  exists t, Datetime.valid t = true /\ last_updated j = Datetime.isoformat t.

(** The keys of the table are distinct and none is above the AUTOINCREMENT
    counter. *)
Definition keys_ok (d : db) : Prop :=
  NoDup (map journal_id (journals d)) /\
  Forall (fun j => journal_id j <= journals_seq d) (journals d).

End AuthorInfo.

(** ** Sample data for the worked instances *)

Module Sample.

Definition t0 : Datetime.datetime :=
  {| Datetime.year := 2024; Datetime.month := 1; Datetime.day := 15;
     Datetime.hour := 10; Datetime.minute := 0; Datetime.second := 0;
     Datetime.microsecond := 0 |}.

Definition t1 : Datetime.datetime :=
  {| Datetime.year := 2024; Datetime.month := 1; Datetime.day := 15;
     Datetime.hour := 10; Datetime.minute := 5; Datetime.second := 30;
     Datetime.microsecond := 250000 |}.

Definition t2 : Datetime.datetime :=
  {| Datetime.year := 2024; Datetime.month := 2; Datetime.day := 1;
     Datetime.hour := 8; Datetime.minute := 0; Datetime.second := 0;
     Datetime.microsecond := 0 |}.

(** A stand-in for the password hash. *)
Definition hash (salt password : string) : string := (salt ++ "$" ++ password)%string.

(** A stand-in for [check_password_hash]: it accepts the hashes [hash]
    makes under the salt [salt]. *)
Definition check (pwhash password : string) : bool :=
  String.eqb pwhash (hash "salt" password).

(** A stand-in for the engine's [impact_factor >= ?]: a number compares
    as a number, a text is above every number, NULL is not comparable. *)
Definition ge (stored : Sql.cell) (x : Py.float) : bool :=
  match stored with
  | Sql.CInteger n => SFleb x (Sql.real_of_int n)
  | Sql.CReal y => SFleb x y
  | Sql.CText _ => true
  | Sql.CNull => false
  end.

(** A stand-in for the type affinity of the engine's columns, right for
    the texts of the instances below (plain decimal numbers and words): a
    text that [int] reads is stored as that integer, as a double in a REAL
    column; one that only [float] reads, as that double; any other text as
    it is. *)
Definition affinity (t : Sql.column_type) (s : string) : Sql.cell :=
  match Py.int s with
  | Some n =>
      match t with
      | Sql.REAL => Sql.CReal (Sql.real_of_int n)
      | Sql.INTEGER => Sql.CInteger n
      end
  | None =>
      match Py.float_of_str s with
      | Some x => Sql.CReal x
      | None => Sql.CText s
      end
  end.

(** Stand-ins for the backend of [src/app.py], after SQLite: a NaN is read
    back as NULL, an integer outside 64 bits is refused. *)
Definition column_float (x : Py.float) : option (option Py.float) :=
  match x with
  | S754_nan => Some None
  | _ => Some (Some x)
  end.

Definition column_integer (n : Z) : option (option Z) :=
  if (Sql.int64_min <=? n) && (n <=? Sql.int64_max) then Some (Some n) else None.

(** A reading of the clock one hour before [t0]. *)
Definition t_early : Datetime.datetime :=
  {| Datetime.year := 2024; Datetime.month := 1; Datetime.day := 15;
     Datetime.hour := 9; Datetime.minute := 0; Datetime.second := 0;
     Datetime.microsecond := 0 |}.

Definition alice : App.User :=
  {| App.user_id := 1; App.username := "alice"; App.password_hash := "h1";
     App.role := "user" |}.

Definition admin : App.User :=
  {| App.user_id := 2; App.username := "admin"; App.password_hash := "h2";
     App.role := "admin" |}.

Definition app_db : App.db := {| App.users := [alice; admin]; App.journals := [] |}.

Definition bob : AuthorInfo.user_row :=
  {| AuthorInfo.id := 2; AuthorInfo.username := "user1"; AuthorInfo.password_hash := "h1";
     AuthorInfo.role := "user" |}.

Definition root : AuthorInfo.user_row :=
  {| AuthorInfo.id := 1; AuthorInfo.username := "admin"; AuthorInfo.password_hash := "h0";
     AuthorInfo.role := "admin" |}.

Definition sqlite_db : AuthorInfo.db :=
  {| AuthorInfo.users := [root; bob]; AuthorInfo.journals := [];
     AuthorInfo.users_seq := 2; AuthorInfo.journals_seq := 0 |}.

(** The form of the spec's example, one with an impact factor, and one
    with negative numbers. *)
Definition cell_form : Flask.MultiDict :=
  [("journal_name", "Cell"); ("official_guidelines_url", "http://x")].

Definition cell_form_5 : Flask.MultiDict :=
  [("journal_name", "Cell"); ("official_guidelines_url", "http://x");
   ("impact_factor", "5")].

Definition negative_form : Flask.MultiDict :=
  [("journal_name", "Cell"); ("official_guidelines_url", "http://x");
   ("impact_factor", "-1.5"); ("word_count_limit", "-5")].

Definition text_form : Flask.MultiDict :=
  [("journal_name", "Cell"); ("official_guidelines_url", "http://x");
   ("impact_factor", "abc"); ("word_count_limit", "-5")].

(** The databases after alice, respectively user1, submitted [cell_form]. *)
Definition app_db1 : App.db :=
  Flask.db_after
    (App.submit column_float column_integer t0 t0 t0 (Some alice) (Flask.post cell_form)
       app_db).

Definition sqlite_db1 : AuthorInfo.db :=
  Flask.db_after (AuthorInfo.submit affinity t0 (Some bob) (Flask.post cell_form) sqlite_db).

(** Rows written by another program, with NULL in [update_history],
    [comments] and [flags_count]. *)
Definition legacy_journal : App.Journal :=
  {| App.journal_id := 7; App.journal_name := "Nature"; App.issn := None;
     App.publisher := None; App.impact_factor := None;
     App.formatting_requirements := None; App.font_specifications := None;
     App.word_count_limit := None; App.reference_style := None;
     App.reference_count_limit := None; App.submission_url := None;
     App.official_guidelines_url := "http://n"; App.notes := None;
     App.created_at := t0; App.last_updated := t0;
     App.update_history := None; App.flags_count := None; App.comments := None |}.

Definition legacy_row : AuthorInfo.journal_row :=
  {| AuthorInfo.journal_id := 7; AuthorInfo.journal_name := "Nature";
     AuthorInfo.issn := None; AuthorInfo.publisher := None;
     AuthorInfo.impact_factor := Sql.CNull; AuthorInfo.formatting_requirements := None;
     AuthorInfo.font_specifications := None; AuthorInfo.word_count_limit := Sql.CNull;
     AuthorInfo.reference_style := None; AuthorInfo.reference_count_limit := Sql.CNull;
     AuthorInfo.submission_url := None; AuthorInfo.official_guidelines_url := "http://n";
     AuthorInfo.notes := None; AuthorInfo.created_at := "2024-01-15T10:00:00";
     AuthorInfo.last_updated := "2024-01-15T10:00:00";
     AuthorInfo.update_history := None; AuthorInfo.flags_count := Sql.Null;
     AuthorInfo.comments := None |}.

Definition app_legacy : App.db :=
  {| App.users := [alice; admin]; App.journals := [legacy_journal] |}.

Definition sqlite_legacy : AuthorInfo.db :=
  {| AuthorInfo.users := [root; bob]; AuthorInfo.journals := [legacy_row];
     AuthorInfo.users_seq := 2; AuthorInfo.journals_seq := 7 |}.

(** A search for "nat" with the impact-factor bound -1. *)
Definition negative_search : Flask.request :=
  {| Flask.method_ := Flask.GET; Flask.form := [];
     Flask.args := [("journal_name", "nat"); ("impact_factor", "-1")] |}.

(** Two comments, and a mixed sequence of requests, all after [t0]. *)
Definition two_comments : list (Datetime.datetime * AuthorInfo.user_row * string) :=
  [(t1, bob, "first"); (t2, root, "second")].

Definition later_calls : list AuthorInfo.call :=
  [AuthorInfo.comment_call 1 (t1, bob, "first");
   AuthorInfo.flag_call 1 (t1, root);
   {| AuthorInfo.clock := t2; AuthorInfo.g_user := Some bob;
      AuthorInfo.what := AuthorInfo.Search negative_search |}].

End Sample.

Example int_examples :
  Py.int " 12_000 " = Some 12000 /\ Py.int "-5" = Some (-5) /\ Py.int "007" = Some 7 /\
  Py.int "1__0" = None /\ Py.int "- 5" = None /\ Py.int "" = None /\ Py.int "1.5" = None.
Proof. repeat split; reflexivity. Qed.

Example float_examples :
  Py.float_of_str "0.1" = Some (S754_finite false 7205759403792794 (-56)) /\
  Py.float_of_str "-1" = Some (S754_finite true 4503599627370496 (-52)) /\
  Py.float_of_str "1e400" = Some (S754_infinity false) /\
  Py.float_of_str "-1e-400" = Some (S754_zero true) /\
  Py.float_of_str "NaN" = Some S754_nan /\
  Py.float_of_str "1_0.5" = Some (S754_finite false 5910974510923776 (-49)) /\
  Py.float_of_str "." = None /\ Py.float_of_str "1e" = None /\ Py.float_of_str "abc" = None.
Proof. repeat split; vm_compute; reflexivity. Qed.

Example like_examples :
  Sql.like (Py.chars "%nat%") (Py.chars "Nature Communications") = true /\
  Sql.like (Py.chars "%nat%") (Py.chars "Science") = false /\
  Sql.like (Py.chars "%a_u%") (Py.chars "Nature") = true /\
  Sql.like (Py.chars "%%") (Py.chars "") = true.
Proof. repeat split; reflexivity. Qed.

Example add1_examples :
  Sql.add1 (Sql.Integer 0) = Sql.Integer 1 /\ Sql.add1 Sql.Null = Sql.Null /\
  Sql.add1 (Sql.Integer Sql.int64_max) = Sql.Real (S754_finite false 4503599627370496 11) /\
  Sql.add1 (Sql.Real (S754_finite false 4503599627370496 11))
  = Sql.Real (S754_finite false 4503599627370496 11).
Proof. repeat split; vm_compute; reflexivity. Qed.

Example isoformat_examples :
  let d := {| Datetime.year := 2024; Datetime.month := 2; Datetime.day := 29;
              Datetime.hour := 9; Datetime.minute := 5; Datetime.second := 0;
              Datetime.microsecond := 1200 |} in
  Datetime.isoformat d = "2024-02-29T09:05:00.001200" /\
  Datetime.fromisoformat "2024-02-29T09:05:00.001200" = Some d /\
  Datetime.fromisoformat "2023-02-29T09:05:00" = None /\
  Datetime.fromisoformat "2024-02-29 09:05:00" = None.
Proof. repeat split; reflexivity. Qed.

Example dumps_examples :
  Json.dumps [] = "[]" /\
  Json.dumps [[("timestamp", "t"); ("author", "al"); ("changes", "Initial creation.")]]
  = Py.str ([Py.chr 91; Py.chr 123] ++ Json.dumps_str "timestamp" ++ Py.chars ": "
            ++ Json.dumps_str "t" ++ Py.chars ", " ++ Json.dumps_str "author"
            ++ Py.chars ": " ++ Json.dumps_str "al" ++ Py.chars ", "
            ++ Json.dumps_str "changes" ++ Py.chars ": "
            ++ Json.dumps_str "Initial creation." ++ [Py.chr 125; Py.chr 93]) /\
  Json.loads "[]" = Some [] /\ Json.loads " [ { } , {} ] " = Some [[]; []] /\
  Json.loads "[{},]" = None /\ Json.loads "" = None /\ Json.loads "[1]" = None /\
  Json.loads (Json.dumps [[("a", "x"); ("b", String (Py.chr 10) (String (Py.chr 233) "q"))]; []])
  = Some [[("a", "x"); ("b", String (Py.chr 10) (String (Py.chr 233) "q"))]; []].
Proof. repeat split; vm_compute; reflexivity. Qed.

(** * Properties *)

(** ** Characters and digits *)

Lemma ord_chr (n : Z) : 0 <= n < 256 -> Py.ord (Py.chr n) = n.
Proof.
  intros H. unfold Py.ord, Py.chr.
  rewrite nat_ascii_embedding by lia. lia.
Qed.

Lemma chr_ord (c : ascii) : Py.chr (Py.ord c) = c.
Proof.
  unfold Py.ord, Py.chr. rewrite Nat2Z.id. apply ascii_nat_embedding.
Qed.

Lemma ord_range (c : ascii) : 0 <= Py.ord c < 256.
Proof.
  unfold Py.ord. pose proof (nat_ascii_bounded c). lia.
Qed.

Lemma chars_str (l : list ascii) : Py.chars (Py.str l) = l.
Proof. apply list_ascii_of_string_of_list_ascii. Qed.

Lemma str_chars (s : string) : Py.str (Py.chars s) = s.
Proof. apply string_of_list_ascii_of_string. Qed.

Lemma is_digit_digit (n : Z) : Py.is_digit (Datetime.digit n) = true.
Proof.
  unfold Py.is_digit, Datetime.digit.
  pose proof (Z.mod_pos_bound n 10 ltac:(lia)).
  rewrite ord_chr by lia.
  apply andb_true_intro; split; apply Z.leb_le; lia.
Qed.

Lemma digit_val_digit (n : Z) : Py.digit_val (Datetime.digit n) = n mod 10.
Proof.
  unfold Py.digit_val, Datetime.digit.
  pose proof (Z.mod_pos_bound n 10 ltac:(lia)).
  rewrite ord_chr by lia. lia.
Qed.

(** ** [fromisoformat] reads back what [isoformat] writes *)

Lemma field_pad2 (n : Z) (rest : list ascii) :
  0 <= n < 100 -> Datetime.field 2 (Datetime.pad2 n ++ rest) = Some (n, rest).
Proof.
  intros H. unfold Datetime.field, Datetime.pad2.
  cbn [firstn skipn app List.length Nat.eqb forallb fold_left andb].
  rewrite !is_digit_digit. cbn [andb]. rewrite !digit_val_digit.
  f_equal. f_equal. Z.to_euclidean_division_equations. lia.
Qed.

Lemma field_pad4 (n : Z) (rest : list ascii) :
  0 <= n < 10000 -> Datetime.field 4 (Datetime.pad4 n ++ rest) = Some (n, rest).
Proof.
  intros H. unfold Datetime.field, Datetime.pad4.
  cbn [firstn skipn app List.length Nat.eqb forallb fold_left andb].
  rewrite !is_digit_digit. cbn [andb]. rewrite !digit_val_digit.
  f_equal. f_equal. Z.to_euclidean_division_equations. lia.
Qed.

Lemma field_pad6 (n : Z) (rest : list ascii) :
  0 <= n < 1000000 -> Datetime.field 6 (Datetime.pad6 n ++ rest) = Some (n, rest).
Proof.
  intros H. unfold Datetime.field, Datetime.pad6.
  cbn [firstn skipn app List.length Nat.eqb forallb fold_left andb].
  rewrite !is_digit_digit. cbn [andb]. rewrite !digit_val_digit.
  f_equal. f_equal. Z.to_euclidean_division_equations. lia.
Qed.

Lemma valid_bounds (d : Datetime.datetime) :
  Datetime.valid d = true ->
  1 <= Datetime.year d <= 9999 /\ 1 <= Datetime.month d <= 12 /\
  1 <= Datetime.day d <= 31 /\ 0 <= Datetime.hour d <= 23 /\
  0 <= Datetime.minute d <= 59 /\ 0 <= Datetime.second d <= 59 /\
  0 <= Datetime.microsecond d <= 999999.
Proof.
  unfold Datetime.valid, Datetime.between. intros H.
  repeat (apply andb_prop in H; destruct H as [H ?]).
  repeat match goal with
         | X : (_ <=? _) = true |- _ => apply Z.leb_le in X
         end.
  assert (Datetime.days_in_month (Datetime.year d) (Datetime.month d) <= 31).
  { unfold Datetime.days_in_month.
    repeat match goal with |- context [if ?b then _ else _] => destruct b end; lia. }
  lia.
Qed.

Lemma fromisoformat_isoformat (d : Datetime.datetime) :
  Datetime.valid d = true -> Datetime.fromisoformat (Datetime.isoformat d) = Some d.
Proof.
  intros Hv. pose proof (valid_bounds d Hv) as B.
  unfold Datetime.fromisoformat, Datetime.isoformat.
  rewrite chars_str.
  rewrite field_pad4 by lia. cbn [Datetime.bind Datetime.sep Ascii.eqb Bool.eqb].
  rewrite field_pad2 by lia. cbn [Datetime.bind Datetime.sep Ascii.eqb Bool.eqb].
  rewrite field_pad2 by lia. cbn [Datetime.bind Datetime.sep Ascii.eqb Bool.eqb].
  rewrite field_pad2 by lia. cbn [Datetime.bind Datetime.sep Ascii.eqb Bool.eqb].
  rewrite field_pad2 by lia. cbn [Datetime.bind Datetime.sep Ascii.eqb Bool.eqb].
  destruct (Z.eqb_spec (Datetime.microsecond d) 0) as [E | E].
  - rewrite field_pad2 by lia. cbn [Datetime.bind].
    rewrite <- E. destruct d; cbn in *. rewrite Hv. reflexivity.
  - rewrite field_pad2 by lia. cbn [Datetime.bind Datetime.sep Ascii.eqb Bool.eqb].
    rewrite <- (app_nil_r (Datetime.pad6 (Datetime.microsecond d))).
    rewrite field_pad6 by lia. cbn [Datetime.bind].
    destruct d; cbn in *. rewrite Hv. reflexivity.
Qed.

(** ** ISO texts compare as their datetimes do *)

Lemma compare_str_cons (c c' : ascii) (l l' : list ascii) :
  String.compare (Py.str (c :: l)) (Py.str (c' :: l'))
  = match Ascii.compare c c' with
    | Eq => String.compare (Py.str l) (Py.str l')
    | Lt => Lt
    | Gt => Gt
    end.
Proof. reflexivity. Qed.

Lemma compare_digit (a b : Z) :
  Ascii.compare (Datetime.digit a) (Datetime.digit b) = (a mod 10 ?= b mod 10).
Proof.
  pose proof (Z.mod_pos_bound a 10 ltac:(lia)).
  pose proof (Z.mod_pos_bound b 10 ltac:(lia)).
  unfold Ascii.compare, Datetime.digit, Py.chr, ascii_of_nat.
  rewrite !N_ascii_embedding by lia.
  rewrite !Z_nat_N, Z2N.inj_compare by lia.
  apply Z.add_compare_mono_l.
Qed.

Ltac digit_step x y :=
  rewrite compare_str_cons, compare_digit;
  match goal with
  | |- context [?a mod 10 ?= ?b mod 10] =>
      destruct (Z.compare_spec (a mod 10) (b mod 10));
      [ | destruct (Z.compare_spec x y); try reflexivity; exfalso;
          Z.to_euclidean_division_equations; lia
        | destruct (Z.compare_spec x y); try reflexivity; exfalso;
          Z.to_euclidean_division_equations; lia ]
  end.

Ltac digit_last x y :=
  destruct (Z.compare_spec x y); try reflexivity; exfalso;
  Z.to_euclidean_division_equations; lia.

Lemma compare_pad2 (x y : Z) (r1 r2 : list ascii) :
  0 <= x < 100 -> 0 <= y < 100 ->
  String.compare (Py.str (Datetime.pad2 x ++ r1)) (Py.str (Datetime.pad2 y ++ r2))
  = match x ?= y with
    | Eq => String.compare (Py.str r1) (Py.str r2)
    | Lt => Lt
    | Gt => Gt
    end.
Proof.
  intros Hx Hy. unfold Datetime.pad2. cbn [app].
  digit_step x y. digit_step x y. digit_last x y.
Qed.

Lemma compare_pad4 (x y : Z) (r1 r2 : list ascii) :
  0 <= x < 10000 -> 0 <= y < 10000 ->
  String.compare (Py.str (Datetime.pad4 x ++ r1)) (Py.str (Datetime.pad4 y ++ r2))
  = match x ?= y with
    | Eq => String.compare (Py.str r1) (Py.str r2)
    | Lt => Lt
    | Gt => Gt
    end.
Proof.
  intros Hx Hy. unfold Datetime.pad4. cbn [app].
  digit_step x y. digit_step x y. digit_step x y. digit_step x y. digit_last x y.
Qed.

Lemma compare_pad6 (x y : Z) (r1 r2 : list ascii) :
  0 <= x < 1000000 -> 0 <= y < 1000000 ->
  String.compare (Py.str (Datetime.pad6 x ++ r1)) (Py.str (Datetime.pad6 y ++ r2))
  = match x ?= y with
    | Eq => String.compare (Py.str r1) (Py.str r2)
    | Lt => Lt
    | Gt => Gt
    end.
Proof.
  intros Hx Hy. unfold Datetime.pad6. cbn [app].
  digit_step x y. digit_step x y. digit_step x y. digit_step x y.
  digit_step x y. digit_step x y. digit_last x y.
Qed.

Lemma isoformat_mono (a b : Datetime.datetime) :
  Datetime.valid a = true -> Datetime.valid b = true -> Datetime.le a b ->
  String.leb (Datetime.isoformat a) (Datetime.isoformat b) = true.
Proof.
  intros Va Vb L.
  pose proof (valid_bounds a Va) as Ba. pose proof (valid_bounds b Vb) as Bb.
  unfold Datetime.le, Datetime.key in L.
  unfold String.leb, Datetime.isoformat.
  rewrite compare_pad4 by lia.
  destruct (Z.compare_spec (Datetime.year a) (Datetime.year b)); [| reflexivity | lia].
  rewrite compare_str_cons. cbn [Ascii.compare N_of_ascii N_of_digits N.compare
    N.add N.mul Pos.compare Pos.compare_cont Pos.add Pos.mul Pos.succ].
  rewrite compare_pad2 by lia.
  destruct (Z.compare_spec (Datetime.month a) (Datetime.month b)); [| reflexivity | lia].
  rewrite compare_str_cons. cbn [Ascii.compare N_of_ascii N_of_digits N.compare
    N.add N.mul Pos.compare Pos.compare_cont Pos.add Pos.mul Pos.succ].
  rewrite compare_pad2 by lia.
  destruct (Z.compare_spec (Datetime.day a) (Datetime.day b)); [| reflexivity | lia].
  rewrite compare_str_cons. cbn [Ascii.compare N_of_ascii N_of_digits N.compare
    N.add N.mul Pos.compare Pos.compare_cont Pos.add Pos.mul Pos.succ].
  rewrite compare_pad2 by lia.
  destruct (Z.compare_spec (Datetime.hour a) (Datetime.hour b)); [| reflexivity | lia].
  rewrite compare_str_cons. cbn [Ascii.compare N_of_ascii N_of_digits N.compare
    N.add N.mul Pos.compare Pos.compare_cont Pos.add Pos.mul Pos.succ].
  rewrite compare_pad2 by lia.
  destruct (Z.compare_spec (Datetime.minute a) (Datetime.minute b)); [| reflexivity | lia].
  rewrite compare_str_cons. cbn [Ascii.compare N_of_ascii N_of_digits N.compare
    N.add N.mul Pos.compare Pos.compare_cont Pos.add Pos.mul Pos.succ].
  rewrite compare_pad2 by lia.
  destruct (Z.compare_spec (Datetime.second a) (Datetime.second b)); [| reflexivity | lia].
  destruct (Z.eqb_spec (Datetime.microsecond a) 0) as [Ea | Ea];
    destruct (Z.eqb_spec (Datetime.microsecond b) 0) as [Eb | Eb].
  - reflexivity.
  - reflexivity.
  - exfalso. lia.
  - rewrite compare_str_cons. cbn [Ascii.compare N_of_ascii N_of_digits N.compare
      N.add N.mul Pos.compare Pos.compare_cont Pos.add Pos.mul Pos.succ].
    rewrite <- (app_nil_r (Datetime.pad6 (Datetime.microsecond a))).
    rewrite <- (app_nil_r (Datetime.pad6 (Datetime.microsecond b))).
    rewrite compare_pad6 by lia.
    destruct (Z.compare_spec (Datetime.microsecond a) (Datetime.microsecond b));
      [reflexivity | reflexivity | lia].
Qed.

(** ** [json.loads] reads back what [json.dumps] writes *)

Lemma lex_escape (c : ascii) (rest acc : list ascii) :
  Json.lex (Json.escape c ++ rest) (Json.In acc) = Json.lex rest (Json.In (c :: acc)).
Proof.
  destruct c as [b0 b1 b2 b3 b4 b5 b6 b7].
  destruct b0, b1, b2, b3, b4, b5, b6, b7; reflexivity.
Qed.

Lemma lex_escaped (cs rest acc : list ascii) :
  Json.lex (flat_map Json.escape cs ++ Json.dquote :: rest) (Json.In acc)
  = option_map (cons (Json.TStr (Py.str (rev acc ++ cs)))) (Json.lex rest Json.Out).
Proof.
  revert acc. induction cs as [| c cs IH]; intros acc.
  - rewrite app_nil_r. reflexivity.
  - cbn [flat_map]. rewrite <- app_assoc, lex_escape, IH.
    cbn [rev]. rewrite <- app_assoc. reflexivity.
Qed.

Lemma lex_dumps_str (s : string) (rest : list ascii) :
  Json.lex (Json.dumps_str s ++ rest) Json.Out
  = option_map (cons (Json.TStr s)) (Json.lex rest Json.Out).
Proof.
  unfold Json.dumps_str.
  change (Json.lex ((Json.dquote :: flat_map Json.escape (Py.chars s) ++ [Json.dquote]) ++ rest)
            Json.Out)
    with (Json.lex ((flat_map Json.escape (Py.chars s) ++ [Json.dquote]) ++ rest)
            (Json.In [])).
  rewrite <- app_assoc. cbn [app].
  rewrite lex_escaped. cbn [rev app]. rewrite str_chars. reflexivity.
Qed.

Lemma feed_token (l rest : list ascii) (m : Json.mode) (t : Json.token) (st : Json.state) :
  Json.lex l m = option_map (cons t) (Json.lex rest Json.Out) ->
  Json.feed l m st
  = match Json.step st t with
    | Some st' => Json.feed rest Json.Out st'
    | None => None
    end.
Proof.
  intros H. unfold Json.feed. rewrite H.
  destruct (Json.lex rest Json.Out) as [ts |]; cbn [option_map Json.run].
  - reflexivity.
  - destruct (Json.step st t); reflexivity.
Qed.

Lemma feed_str (s : string) (rest : list ascii) (st : Json.state) :
  Json.feed (Json.dumps_str s ++ rest) Json.Out st
  = match Json.step st (Json.TStr s) with
    | Some st' => Json.feed rest Json.Out st'
    | None => None
    end.
Proof. apply feed_token, lex_dumps_str. Qed.

Lemma set_fresh (k v : string) (d : Json.dict) :
  ~ In k (map fst d) -> Json.set k v d = d ++ [(k, v)].
Proof.
  induction d as [| [k' v'] d IH]; intros H.
  - reflexivity.
  - cbn [Json.set]. destruct (String.eqb_spec k k') as [-> | N].
    + exfalso. apply H. left. reflexivity.
    + cbn [app]. f_equal. apply IH. intros I. apply H. right. exact I.
Qed.

Lemma feed_space (rest : list ascii) (st : Json.state) :
  Json.feed (" "%char :: rest) Json.Out st = Json.feed rest Json.Out st.
Proof. reflexivity. Qed.

Lemma feed_colon (rest : list ascii) (st : Json.state) :
  Json.feed (":"%char :: rest) Json.Out st
  = match Json.step st Json.TColon with
    | Some st' => Json.feed rest Json.Out st'
    | None => None
    end.
Proof. apply feed_token. reflexivity. Qed.

Lemma feed_comma (rest : list ascii) (st : Json.state) :
  Json.feed (","%char :: rest) Json.Out st
  = match Json.step st Json.TComma with
    | Some st' => Json.feed rest Json.Out st'
    | None => None
    end.
Proof. apply feed_token. reflexivity. Qed.

Lemma feed_lbrace (rest : list ascii) (st : Json.state) :
  Json.feed ("{"%char :: rest) Json.Out st
  = match Json.step st Json.TLBrace with
    | Some st' => Json.feed rest Json.Out st'
    | None => None
    end.
Proof. apply feed_token. reflexivity. Qed.

Lemma feed_rbrace (rest : list ascii) (st : Json.state) :
  Json.feed ("}"%char :: rest) Json.Out st
  = match Json.step st Json.TRBrace with
    | Some st' => Json.feed rest Json.Out st'
    | None => None
    end.
Proof. apply feed_token. reflexivity. Qed.

Lemma feed_lbracket (rest : list ascii) (st : Json.state) :
  Json.feed ("["%char :: rest) Json.Out st
  = match Json.step st Json.TLBracket with
    | Some st' => Json.feed rest Json.Out st'
    | None => None
    end.
Proof. apply feed_token. reflexivity. Qed.

Lemma feed_rbracket (rest : list ascii) (st : Json.state) :
  Json.feed ("]"%char :: rest) Json.Out st
  = match Json.step st Json.TRBracket with
    | Some st' => Json.feed rest Json.Out st'
    | None => None
    end.
Proof. apply feed_token. reflexivity. Qed.

Lemma feed_member (kv : string * string) (rest : list ascii) (st : Json.state)
    (acc : list Json.dict) (d : Json.dict) :
  Json.awaits_key st acc d ->
  Json.feed (Json.dumps_member kv ++ rest) Json.Out st
  = Json.feed rest Json.Out (Json.ObjAfter acc (Json.set (fst kv) (snd kv) d)).
Proof.
  intros H. unfold Json.dumps_member.
  rewrite <- !app_assoc. rewrite feed_str, H.
  cbn [Py.chars list_ascii_of_string app].
  rewrite feed_colon. cbn [Json.step]. rewrite feed_space.
  rewrite feed_str. reflexivity.
Qed.

Lemma feed_members (d : Json.dict) : forall (d0 : Json.dict) (st : Json.state)
    (acc : list Json.dict) (rest : list ascii),
  d <> [] -> Json.awaits_key st acc d0 -> Json.distinct_keys (d0 ++ d) ->
  Json.feed (Json.join (map Json.dumps_member d) ++ "}"%char :: rest) Json.Out st
  = Json.feed rest Json.Out (Json.ArrAfter (acc ++ [d0 ++ d])).
Proof.
  induction d as [| kv d IH]; intros d0 st acc rest Hne Hst Hnd; [congruence |].
  assert (Hfresh : ~ In (fst kv) (map fst d0)).
  { unfold Json.distinct_keys in Hnd. rewrite map_app in Hnd. cbn [map] in Hnd.
    apply NoDup_remove_2 in Hnd. intros I. apply Hnd. apply in_or_app. left. exact I. }
  destruct d as [| kv' d].
  - cbn [map Json.join]. rewrite (feed_member kv _ st acc d0 Hst).
    rewrite feed_rbrace. cbn [Json.step]. rewrite set_fresh by exact Hfresh.
    destruct kv; reflexivity.
  - change (Json.join (map Json.dumps_member (kv :: kv' :: d)))
      with (Json.dumps_member kv ++ Py.chars ", " ++ Json.join (map Json.dumps_member (kv' :: d))).
    rewrite <- !app_assoc. rewrite (feed_member kv _ st acc d0 Hst).
    cbn [Py.chars list_ascii_of_string app].
    rewrite feed_comma. cbn [Json.step]. rewrite feed_space.
    rewrite set_fresh by exact Hfresh.
    rewrite (IH (d0 ++ [(fst kv, snd kv)]) (Json.ObjKey acc (d0 ++ [(fst kv, snd kv)])) acc rest).
    + rewrite <- app_assoc. destruct kv; reflexivity.
    + discriminate.
    + intros k. reflexivity.
    + rewrite <- app_assoc. destruct kv; exact Hnd.
Qed.

Lemma feed_dict (d : Json.dict) (rest : list ascii) (st : Json.state) (acc : list Json.dict) :
  Json.distinct_keys d ->
  Json.step st Json.TLBrace = Some (Json.ObjFirst acc) ->
  Json.feed (Json.dumps_dict d ++ rest) Json.Out st
  = Json.feed rest Json.Out (Json.ArrAfter (acc ++ [d])).
Proof.
  intros Hnd Hst. unfold Json.dumps_dict.
  cbn [app]. rewrite feed_lbrace, Hst. rewrite <- app_assoc. cbn [app].
  destruct d as [| kv d].
  - cbn [map Json.join app]. rewrite feed_rbrace. reflexivity.
  - apply (feed_members (kv :: d) [] (Json.ObjFirst acc) acc rest).
    + discriminate.
    + intros k. reflexivity.
    + exact Hnd.
Qed.

Lemma feed_elements (l : list Json.dict) : forall (acc : list Json.dict) (st : Json.state)
    (rest : list ascii),
  l <> [] -> Forall Json.distinct_keys l ->
  Json.step st Json.TLBrace = Some (Json.ObjFirst acc) ->
  Json.feed (Json.join (map Json.dumps_dict l) ++ "]"%char :: rest) Json.Out st
  = Json.feed rest Json.Out (Json.Done (acc ++ l)).
Proof.
  induction l as [| d l IH]; intros acc st rest Hne Hall Hst; [congruence |].
  inversion Hall as [| ? ? Hd Hl]; subst.
  destruct l as [| d' l].
  - cbn [map Json.join]. rewrite (feed_dict d _ st acc Hd Hst).
    rewrite feed_rbracket. reflexivity.
  - change (Json.join (map Json.dumps_dict (d :: d' :: l)))
      with (Json.dumps_dict d ++ Py.chars ", " ++ Json.join (map Json.dumps_dict (d' :: l))).
    rewrite <- !app_assoc. rewrite (feed_dict d _ st acc Hd Hst).
    cbn [Py.chars list_ascii_of_string app].
    rewrite feed_comma. cbn [Json.step]. rewrite feed_space.
    rewrite (IH (acc ++ [d]) (Json.ArrNext (acc ++ [d])) rest).
    + rewrite <- app_assoc. reflexivity.
    + discriminate.
    + exact Hl.
    + reflexivity.
Qed.

Lemma loads_dumps (l : list Json.dict) :
  Forall Json.distinct_keys l -> Json.loads (Json.dumps l) = Some l.
Proof.
  intros Hall. unfold Json.loads, Json.dumps. rewrite chars_str.
  rewrite feed_lbracket. cbn [Json.step].
  destruct l as [| d l].
  - reflexivity.
  - rewrite (feed_elements (d :: l) [] Json.ArrFirst []).
    + reflexivity.
    + discriminate.
    + exact Hall.
    + reflexivity.
Qed.

(** What [loads] returns are dicts: their keys are distinct. *)

Lemma set_keys (k v : string) (d : Json.dict) (k' : string) :
  In k' (map fst (Json.set k v d)) <-> k' = k \/ In k' (map fst d).
Proof.
  induction d as [| [k0 v0] d IH]; cbn [Json.set map fst In].
  - intuition congruence.
  - destruct (String.eqb_spec k k0) as [-> | N]; cbn [map fst In].
    + intuition congruence.
    + rewrite IH. intuition congruence.
Qed.

Lemma set_distinct (k v : string) (d : Json.dict) :
  Json.distinct_keys d -> Json.distinct_keys (Json.set k v d).
Proof.
  unfold Json.distinct_keys.
  induction d as [| [k0 v0] d IH]; cbn [Json.set map fst]; intros H.
  - constructor; [intros [] | constructor].
  - inversion H as [| ? ? Hn Hd]; subst.
    destruct (String.eqb_spec k k0) as [-> | N]; cbn [map fst].
    + constructor; assumption.
    + constructor.
      * rewrite set_keys. intros [E | I]; [congruence | contradiction].
      * apply IH. exact Hd.
Qed.

Lemma step_distinct (st st' : Json.state) (t : Json.token) :
  Json.step st t = Some st' ->
  Forall Json.distinct_keys (Json.state_dicts st) ->
  Forall Json.distinct_keys (Json.state_dicts st').
Proof.
  assert (E : Json.distinct_keys []) by constructor.
  destruct st, t; cbn [Json.step Json.state_dicts]; intros H Hall;
    inversion H; subst; cbn [Json.state_dicts]; try assumption;
    try (inversion Hall; subst).
  all: repeat match goal with
         | |- Forall _ (_ ++ _) => apply Forall_app; split
         | |- Forall _ (_ :: _) => constructor
         | |- Forall _ [] => constructor
         | |- Json.distinct_keys (Json.set _ _ _) => apply set_distinct
         end; try assumption.
Qed.

Lemma run_distinct (ts : list Json.token) : forall (st : Json.state) (l : list Json.dict),
  Json.run ts st = Some l ->
  Forall Json.distinct_keys (Json.state_dicts st) ->
  Forall Json.distinct_keys l.
Proof.
  induction ts as [| t ts IH]; intros st l H Hall; cbn [Json.run] in H.
  - destruct st; try discriminate. inversion H; subst. exact Hall.
  - destruct (Json.step st t) as [st' |] eqn:E; [| discriminate].
    apply (IH st' l H). exact (step_distinct st st' t E Hall).
Qed.

Lemma loads_distinct (s : string) (l : list Json.dict) :
  Json.loads s = Some l -> Forall Json.distinct_keys l.
Proof.
  unfold Json.loads, Json.feed. intros H.
  destruct (Json.lex (Py.chars s) Json.Out) as [ts |]; [| discriminate].
  apply (run_distinct ts Json.Start l H). constructor.
Qed.

(** ** Tables: lookups, fresh keys, [ORDER BY] *)

Lemma find_app {A} (f : A -> bool) (l l' : list A) :
  find f (l ++ l') = match find f l with
                     | Some x => Some x
                     | None => find f l'
                     end.
Proof.
  induction l as [| x l IH]; cbn [app find].
  - reflexivity.
  - destruct (f x); [reflexivity | exact IH].
Qed.

Lemma find_all_false {A} (f : A -> bool) (l : list A) :
  (forall x, In x l -> f x = false) -> find f l = None.
Proof.
  induction l as [| x l IH]; intros H; cbn [find].
  - reflexivity.
  - rewrite (H x (or_introl eq_refl)). apply IH. intros y I. apply H. right. exact I.
Qed.

Lemma find_map_update {A} (p : A -> bool) (f : A -> A) (l : list A) :
  (forall x, p (f x) = p x) ->
  find p (map (fun x => if p x then f x else x) l) = option_map f (find p l).
Proof.
  intros H. induction l as [| x l IH]; cbn [map find option_map].
  - reflexivity.
  - destruct (p x) eqn:E.
    + rewrite H, E. reflexivity.
    + rewrite E. exact IH.
Qed.

Lemma find_map_other {A} (p q : A -> bool) (f : A -> A) (l : list A) :
  (forall x, q (f x) = q x) -> (forall x, p x = true -> q x = true -> False) ->
  find q (map (fun x => if p x then f x else x) l) = find q l.
Proof.
  intros Hf Hpq. induction l as [| x l IH]; cbn [map find].
  - reflexivity.
  - destruct (p x) eqn:E.
    + rewrite Hf. destruct (q x) eqn:Q.
      * exfalso. exact (Hpq x E Q).
      * exact IH.
    + destruct (q x); [reflexivity | exact IH].
Qed.

Lemma filter_all_true {A} (f : A -> bool) (l : list A) :
  (forall x, In x l -> f x = true) -> filter f l = l.
Proof.
  induction l as [| x l IH]; intros H; cbn [filter].
  - reflexivity.
  - rewrite (H x (or_introl eq_refl)). f_equal. apply IH.
    intros y I. apply H. right. exact I.
Qed.

Lemma find_some_in_false {A} (f : A -> bool) (l : list A) :
  find f l = None -> forall x, In x l -> f x = false.
Proof. intros H x I. exact (find_none f l H x I). Qed.

Lemma next_key_above (floor : Z) (keys : list Z) (k : Z) :
  In k keys -> k < Sql.next_key floor keys.
Proof.
  unfold Sql.next_key. induction keys as [| k0 keys IH]; cbn [In fold_right].
  - intros [].
  - intros [-> | I]; [lia |]. specialize (IH I). lia.
Qed.

Section OrderByFacts.

Context {A : Type}.
Variable before : A -> A -> bool.
Hypothesis before_asym : forall a b, before a b = true -> before b a = false.

Lemma insert_in_order (x : A) (l : list A) :
  Sorted (Sql.in_order before) l -> Sorted (Sql.in_order before) (Sql.insert before x l).
Proof.
  induction l as [| y r IH]; intros H; cbn [Sql.insert].
  - repeat constructor.
  - inversion H as [| ? ? Hr Hy]; subst.
    destruct (before y x) eqn:E.
    + constructor; [exact (IH Hr) |].
      destruct r as [| z r]; cbn [Sql.insert].
      * constructor. exact (before_asym y x E).
      * destruct (before z x); constructor.
        -- inversion Hy; assumption.
        -- exact (before_asym y x E).
    + constructor; [exact H |]. constructor. exact E.
Qed.

Lemma order_by_in_order (l : list A) : Sorted (Sql.in_order before) (Sql.order_by before l).
Proof.
  induction l as [| x l IH]; cbn [Sql.order_by].
  - constructor.
  - apply insert_in_order. exact IH.
Qed.

Lemma insert_In (x y : A) (l : list A) :
  In y (Sql.insert before x l) <-> y = x \/ In y l.
Proof.
  induction l as [| z r IH]; cbn [Sql.insert In].
  - intuition.
  - destruct (before z x); cbn [In]; [rewrite IH |]; intuition.
Qed.

Lemma order_by_In (y : A) (l : list A) : In y (Sql.order_by before l) <-> In y l.
Proof.
  induction l as [| x l IH]; cbn [Sql.order_by In].
  - reflexivity.
  - rewrite insert_In, IH. intuition.
Qed.

End OrderByFacts.

(** ** Deleting a journal *)

Lemma not_admin (r : string) : r <> "admin" -> negb (String.eqb r "admin") = true.
Proof.
  intros H. destruct (String.eqb_spec r "admin") as [E | E]; [contradiction | reflexivity].
Qed.

(** C5: a requester whose role is not admin is refused by [delete_journal]
    in both applications: the message of the refusal is flashed, the
    response leads back to the journal's page, and the database is the one
    before the call, so the journal is found as before and its page is the
    same. *)
Theorem delete_by_non_admin_is_refused :
  (forall (user : App.User) (jid : Z) (d : App.db),
     App.role user <> "admin" ->
     let r := App.delete_journal (Some user) jid d in
     Flask.resp r = Flask.redirect (Flask.journal_detail_page jid) /\
     Flask.flashed r = ["You do not have permission to delete."] /\
     Flask.db_after r = d /\
     App.get_journal jid (Flask.db_after r) = App.get_journal jid d /\
     forall viewer, App.journal_detail viewer jid (Flask.db_after r)
                    = App.journal_detail viewer jid d) /\
  (forall (user : AuthorInfo.user_row) (jid : Z) (d : AuthorInfo.db),
     AuthorInfo.role user <> "admin" ->
     let r := AuthorInfo.delete_journal (Some user) jid d in
     Flask.resp r = Flask.redirect (Flask.journal_detail_page jid) /\
     Flask.flashed r = ["You do not have permission to delete."] /\
     Flask.db_after r = d /\
     AuthorInfo.journal_by_id jid (Flask.db_after r) = AuthorInfo.journal_by_id jid d /\
     forall viewer, AuthorInfo.journal_detail viewer jid (Flask.db_after r)
                    = AuthorInfo.journal_detail viewer jid d).
Proof.
  split; intros user jid d H r; subst r.
  - unfold App.delete_journal, Flask.login_required.
    rewrite (not_admin _ H). cbn. repeat split.
  - unfold AuthorInfo.delete_journal, Flask.login_required.
    rewrite (not_admin _ H). cbn. repeat split.
Qed.

Lemma app_delete_missing_is_404 (user : App.User) (jid : Z) (d : App.db) :
  App.role user = "admin" -> App.get_journal jid d = None ->
  App.delete_journal (Some user) jid d = Flask.reply d [] (Flask.abort 404).
Proof.
  intros Hr Hj. unfold App.delete_journal, Flask.login_required.
  rewrite Hr, Hj. reflexivity.
Qed.

Lemma delete_where_id_missing (jid : Z) (d : AuthorInfo.db) :
  AuthorInfo.journal_by_id jid d = None -> AuthorInfo.delete_where_id jid d = d.
Proof.
  intros H. unfold AuthorInfo.delete_where_id, AuthorInfo.with_journals.
  rewrite filter_all_true.
  - destruct d; reflexivity.
  - intros x I. unfold AuthorInfo.journal_by_id in H.
    rewrite (find_none _ _ H x I). reflexivity.
Qed.

(** C6 (what the SQLite application does): for an admin and an id that no
    row of [journals] has, [delete_journal] of
    [src/author_informatinons/app.py] runs its DELETE on no row, flashes
    that the entry was deleted and redirects to the list; it answers no
    404.  The database is unchanged. *)
Theorem authorinfo_delete_of_missing_id_reports_success
    (user : AuthorInfo.user_row) (jid : Z) (d : AuthorInfo.db) :
  AuthorInfo.role user = "admin" -> AuthorInfo.journal_by_id jid d = None ->
  AuthorInfo.delete_journal (Some user) jid d
  = Flask.reply d ["Journal entry successfully deleted."]
                (Flask.redirect Flask.journals_list).
Proof.
  intros Hr Hj. unfold AuthorInfo.delete_journal, Flask.login_required.
  rewrite Hr. cbn [String.eqb Ascii.eqb Bool.eqb negb andb].
  rewrite (delete_where_id_missing jid d Hj). reflexivity.
Qed.

(** ** Registration *)

Lemma nonempty_not_is_empty (s : string) : s <> "" -> Py.is_empty s = false.
Proof. destruct s; [congruence | reflexivity]. Qed.

Lemma app_register_twice (hash : string -> string -> string) (salt1 salt2 : string)
    (form1 form2 : Flask.MultiDict) (u p1 p2 : string) (d : App.db) :
  Flask.get "username" form1 = Some u -> Flask.get "password" form1 = Some p1 ->
  Flask.get "username" form2 = Some u -> Flask.get "password" form2 = Some p2 ->
  u <> "" -> p1 <> "" -> p2 <> "" ->
  let first := App.register hash salt1 None (Flask.post form1) d in
  let second := App.register hash salt2 None (Flask.post form2) (Flask.db_after first) in
  Flask.resp second = Flask.render_template "register.html" App.NoContext /\
  Flask.flashed second = [("User " ++ u ++ " is already registered.")%string] /\
  Flask.db_after second = Flask.db_after first /\
  (App.user_by_name u d = None ->
   App.user_by_name u (Flask.db_after second)
   = Some {| App.user_id := App.new_user_id d; App.username := u;
             App.password_hash := hash salt1 p1; App.role := "user" |}).
Proof.
  intros U1 P1 U2 P2 Hu Hp1 Hp2 first second. subst first second.
  unfold App.register. cbn [Flask.post Flask.method_ Flask.form].
  rewrite U1, P1, U2, P2.
  rewrite (nonempty_not_is_empty u Hu), (nonempty_not_is_empty p1 Hp1),
    (nonempty_not_is_empty p2 Hp2).
  destruct (App.user_by_name u d) as [usr |] eqn:E.
  - cbn [Flask.reply Flask.db_after]. rewrite E. cbn. repeat split. discriminate.
  - cbn [Flask.reply Flask.db_after].
    assert (F : App.user_by_name u
                  {| App.users := App.users d ++
                       [{| App.user_id := App.new_user_id d; App.username := u;
                           App.password_hash := hash salt1 p1; App.role := "user" |}];
                     App.journals := App.journals d |}
                = Some {| App.user_id := App.new_user_id d; App.username := u;
                          App.password_hash := hash salt1 p1; App.role := "user" |}).
    { unfold App.user_by_name in *. cbn [App.users]. rewrite find_app, E.
      cbn [find App.username]. rewrite String.eqb_refl. reflexivity. }
    rewrite F. cbn [Flask.reply Flask.db_after Flask.resp Flask.flashed].
    repeat split. intros _. exact F.
Qed.

Lemma authorinfo_register_twice (hash : string -> string -> string) (salt1 salt2 : string)
    (form1 form2 : Flask.MultiDict) (u p1 p2 : string) (d : AuthorInfo.db) :
  Flask.get "username" form1 = Some u -> Flask.get "password" form1 = Some p1 ->
  Flask.get "username" form2 = Some u -> Flask.get "password" form2 = Some p2 ->
  u <> "" -> p1 <> "" -> p2 <> "" ->
  let first := AuthorInfo.register hash salt1 None (Flask.post form1) d in
  let second :=
    AuthorInfo.register hash salt2 None (Flask.post form2) (Flask.db_after first) in
  Flask.resp second = Flask.render_template "register.html" AuthorInfo.NoContext /\
  Flask.flashed second = [("User " ++ u ++ " is already registered.")%string] /\
  Flask.db_after second = Flask.db_after first /\
  (AuthorInfo.user_by_name u d = None ->
   AuthorInfo.user_by_name u (Flask.db_after second)
   = Some {| AuthorInfo.id := AuthorInfo.new_user_id d; AuthorInfo.username := u;
             AuthorInfo.password_hash := hash salt1 p1; AuthorInfo.role := "user" |}).
Proof.
  intros U1 P1 U2 P2 Hu Hp1 Hp2 first second. subst first second.
  unfold AuthorInfo.register. cbn [Flask.post Flask.method_ Flask.form].
  rewrite U1, P1, U2, P2.
  rewrite (nonempty_not_is_empty u Hu), (nonempty_not_is_empty p1 Hp1),
    (nonempty_not_is_empty p2 Hp2).
  destruct (AuthorInfo.user_by_name u d) as [usr |] eqn:E.
  - cbn [Flask.reply Flask.db_after]. rewrite E. cbn. repeat split. discriminate.
  - cbn [Flask.reply Flask.db_after].
    match goal with
    | |- context [AuthorInfo.user_by_name u ?D] =>
        assert (F : AuthorInfo.user_by_name u D
                    = Some {| AuthorInfo.id := AuthorInfo.new_user_id d;
                              AuthorInfo.username := u;
                              AuthorInfo.password_hash := hash salt1 p1;
                              AuthorInfo.role := "user" |})
    end.
    { unfold AuthorInfo.user_by_name in *. cbn [AuthorInfo.users]. rewrite find_app, E.
      cbn [find AuthorInfo.username]. rewrite String.eqb_refl. reflexivity. }
    rewrite F. cbn [Flask.reply Flask.db_after Flask.resp Flask.flashed].
    repeat split. intros _. exact F.
Qed.

(** C8: in both applications, when two registrations name the same
    username and both fill in username and password, the second one is
    answered with the register page and the message that the user is
    already registered, and leaves the database as the first one left it:
    the row the first one stored (its password hash, its role [user]) is
    still the row found under that name. *)
Theorem second_registration_of_a_username_conflicts
    (hash : string -> string -> string) (salt1 salt2 : string)
    (form1 form2 : Flask.MultiDict) (u p1 p2 : string) :
  Flask.get "username" form1 = Some u -> Flask.get "password" form1 = Some p1 ->
  Flask.get "username" form2 = Some u -> Flask.get "password" form2 = Some p2 ->
  u <> "" -> p1 <> "" -> p2 <> "" ->
  (forall d : App.db,
     let first := App.register hash salt1 None (Flask.post form1) d in
     let second := App.register hash salt2 None (Flask.post form2) (Flask.db_after first) in
     Flask.resp second = Flask.render_template "register.html" App.NoContext /\
     Flask.flashed second = [("User " ++ u ++ " is already registered.")%string] /\
     Flask.db_after second = Flask.db_after first /\
     (App.user_by_name u d = None ->
      App.user_by_name u (Flask.db_after second)
      = Some {| App.user_id := App.new_user_id d; App.username := u;
                App.password_hash := hash salt1 p1; App.role := "user" |})) /\
  (forall d : AuthorInfo.db,
     let first := AuthorInfo.register hash salt1 None (Flask.post form1) d in
     let second :=
       AuthorInfo.register hash salt2 None (Flask.post form2) (Flask.db_after first) in
     Flask.resp second = Flask.render_template "register.html" AuthorInfo.NoContext /\
     Flask.flashed second = [("User " ++ u ++ " is already registered.")%string] /\
     Flask.db_after second = Flask.db_after first /\
     (AuthorInfo.user_by_name u d = None ->
      AuthorInfo.user_by_name u (Flask.db_after second)
      = Some {| AuthorInfo.id := AuthorInfo.new_user_id d; AuthorInfo.username := u;
                AuthorInfo.password_hash := hash salt1 p1; AuthorInfo.role := "user" |})).
Proof.
  intros U1 P1 U2 P2 Hu Hp1 Hp2. split; intros d.
  - exact (app_register_twice hash salt1 salt2 form1 form2 u p1 p2 d U1 P1 U2 P2 Hu Hp1 Hp2).
  - exact (authorinfo_register_twice hash salt1 salt2 form1 form2 u p1 p2 d
             U1 P1 U2 P2 Hu Hp1 Hp2).
Qed.

(** ** Submitting a journal *)

Lemma truthy_dumps (l : list Json.dict) : Py.truthy (Some (Json.dumps l)) = true.
Proof. reflexivity. Qed.

Lemma loads_no_column : Json.loads "[]" = Some [].
Proof. reflexivity. Qed.

Lemma dumps_nil : Json.dumps [] = "[]".
Proof. reflexivity. Qed.

Lemma app_creation_entry_distinct (now : Datetime.datetime) (author : string) :
  Json.distinct_keys (App.creation_entry now author).
Proof.
  unfold Json.distinct_keys, App.creation_entry. cbn [map fst].
  repeat constructor; cbn [In]; intuition discriminate.
Qed.

Lemma creation_entry_distinct (now : Datetime.datetime) (author : string) :
  Json.distinct_keys (AuthorInfo.creation_entry now author).
Proof.
  unfold Json.distinct_keys, AuthorInfo.creation_entry. cbn [map fst].
  repeat constructor; cbn [In]; intuition discriminate.
Qed.

Lemma comment_entry_distinct (now : Datetime.datetime) (author text : string) :
  Json.distinct_keys (AuthorInfo.comment_entry now author text).
Proof.
  unfold Json.distinct_keys, AuthorInfo.comment_entry. cbn [map fst].
  repeat constructor; cbn [In]; intuition discriminate.
Qed.

Lemma app_get_appended (d : App.db) (j : App.Journal) :
  App.journal_id j = App.new_journal_id d ->
  App.get_journal (App.new_journal_id d)
    {| App.users := App.users d; App.journals := App.journals d ++ [j] |} = Some j.
Proof.
  intros E. unfold App.get_journal. cbn [App.journals].
  rewrite find_app, find_all_false.
  - cbn [find]. rewrite E, Z.eqb_refl. reflexivity.
  - intros x I. apply Z.eqb_neq.
    pose proof (next_key_above 0 (map App.journal_id (App.journals d)) (App.journal_id x)
                  (in_map App.journal_id _ _ I)).
    unfold App.new_journal_id. lia.
Qed.

Lemma get_appended (d : AuthorInfo.db) (j : AuthorInfo.journal_row) (u s : Z) :
  AuthorInfo.journal_id j = AuthorInfo.new_journal_id d ->
  AuthorInfo.journal_by_id (AuthorInfo.new_journal_id d)
    {| AuthorInfo.users := AuthorInfo.users d;
       AuthorInfo.journals := AuthorInfo.journals d ++ [j];
       AuthorInfo.users_seq := u; AuthorInfo.journals_seq := s |} = Some j.
Proof.
  intros E. unfold AuthorInfo.journal_by_id. cbn [AuthorInfo.journals].
  rewrite find_app, find_all_false.
  - cbn [find]. rewrite E, Z.eqb_refl. reflexivity.
  - intros x I. apply Z.eqb_neq.
    pose proof (next_key_above (AuthorInfo.journals_seq d)
                  (map AuthorInfo.journal_id (AuthorInfo.journals d))
                  (AuthorInfo.journal_id x) (in_map AuthorInfo.journal_id _ _ I)).
    unfold AuthorInfo.new_journal_id. lia.
Qed.

(** What a successful [submit] of [src/app.py] was given and did. *)
Lemma app_submit_created (column_float : Py.float -> option (option Py.float))
    (column_integer : Z -> option (option Z))
    (now created updated : Datetime.datetime) (user : App.User)
    (req : Flask.request) (d : App.db) :
  Flask.resp (App.submit column_float column_integer now created updated (Some user) req d)
  = Flask.redirect Flask.journals_list ->
  exists name url impact words refs impact' words' refs',
    Flask.method_ req = Flask.POST /\
    Flask.get "journal_name" (Flask.form req) = Some name /\
    Flask.get "official_guidelines_url" (Flask.form req) = Some url /\
    App.parse_if_present Py.float_of_str (Flask.get "impact_factor" (Flask.form req))
    = Some impact /\
    App.parse_if_present Py.int (Flask.get "word_count_limit" (Flask.form req))
    = Some words /\
    App.parse_if_present Py.int (Flask.get "reference_count_limit" (Flask.form req))
    = Some refs /\
    App.flush column_float impact = Some impact' /\
    App.flush column_integer words = Some words' /\
    App.flush column_integer refs = Some refs' /\
    App.submit column_float column_integer now created updated (Some user) req d
    = Flask.reply
        {| App.users := App.users d;
           App.journals :=
             App.journals d
             ++ [App.new_journal created updated (App.new_journal_id d) (Flask.form req)
                   name url impact' words' refs'
                   (Json.dumps [App.creation_entry now (App.username user)])] |}
        ["New journal successfully submitted!"]
        (Flask.redirect Flask.journals_list).
Proof.
  unfold App.submit, Flask.login_required.
  destruct (Flask.method_ req); [cbn; discriminate |].
  destruct (App.parse_if_present Py.float_of_str _) as [impact |]; [| cbn; discriminate].
  destruct (App.parse_if_present Py.int (Flask.get "word_count_limit" _)) as [words |];
    [| cbn; discriminate].
  destruct (App.parse_if_present Py.int (Flask.get "reference_count_limit" _)) as [refs |];
    [| cbn; discriminate].
  destruct (Flask.get "journal_name" _) as [name |]; [| cbn; discriminate].
  destruct (Flask.get "official_guidelines_url" _) as [url |]; [| cbn; discriminate].
  destruct (App.flush column_float impact) as [impact' |] eqn:I; [| cbn; discriminate].
  destruct (App.flush column_integer words) as [words' |] eqn:W; [| cbn; discriminate].
  destruct (App.flush column_integer refs) as [refs' |] eqn:R; [| cbn; discriminate].
  intros _. exists name, url, impact, words, refs, impact', words', refs'.
  repeat split; assumption.
Qed.

(** What a successful [submit] of the SQLite application was given and
    did. *)
Lemma submit_created (affinity : Sql.column_type -> string -> Sql.cell)
    (now : Datetime.datetime) (user : AuthorInfo.user_row)
    (req : Flask.request) (d : AuthorInfo.db) :
  Flask.resp (AuthorInfo.submit affinity now (Some user) req d)
  = Flask.redirect Flask.journals_list ->
  exists name url,
    Flask.method_ req = Flask.POST /\
    Flask.get "journal_name" (Flask.form req) = Some name /\
    Flask.get "official_guidelines_url" (Flask.form req) = Some url /\
    AuthorInfo.submit affinity now (Some user) req d
    = Flask.reply
        {| AuthorInfo.users := AuthorInfo.users d;
           AuthorInfo.journals :=
             AuthorInfo.journals d
             ++ [AuthorInfo.inserted_row affinity now (AuthorInfo.new_journal_id d) (Flask.form req)
                   name url
                   (Json.dumps [AuthorInfo.creation_entry now (AuthorInfo.username user)])];
           AuthorInfo.users_seq := AuthorInfo.users_seq d;
           AuthorInfo.journals_seq := AuthorInfo.new_journal_id d |}
        ["New journal successfully submitted!"]
        (Flask.redirect Flask.journals_list).
Proof.
  unfold AuthorInfo.submit, Flask.login_required.
  destruct (Flask.method_ req); [cbn; discriminate |].
  destruct (Flask.get "journal_name" _) as [name |]; [| cbn; discriminate].
  destruct (Flask.get "official_guidelines_url" _) as [url |]; [| cbn; discriminate].
  intros _. exists name, url. repeat split.
Qed.

(** When [submit] does store a journal. *)
Lemma app_submit_succeeds (column_float : Py.float -> option (option Py.float))
    (column_integer : Z -> option (option Z))
    (now created updated : Datetime.datetime) (user : App.User)
    (req : Flask.request) (d : App.db) (name url : string)
    (impact impact' : option Py.float) (words refs words' refs' : option Z) :
  Flask.method_ req = Flask.POST ->
  Flask.get "journal_name" (Flask.form req) = Some name ->
  Flask.get "official_guidelines_url" (Flask.form req) = Some url ->
  App.parse_if_present Py.float_of_str (Flask.get "impact_factor" (Flask.form req))
  = Some impact ->
  App.parse_if_present Py.int (Flask.get "word_count_limit" (Flask.form req))
  = Some words ->
  App.parse_if_present Py.int (Flask.get "reference_count_limit" (Flask.form req))
  = Some refs ->
  App.flush column_float impact = Some impact' ->
  App.flush column_integer words = Some words' ->
  App.flush column_integer refs = Some refs' ->
  Flask.resp (App.submit column_float column_integer now created updated (Some user) req d)
  = Flask.redirect Flask.journals_list.
Proof.
  intros M N U I W R I' W' R'. unfold App.submit, Flask.login_required.
  rewrite M, I, W, R, N, U, I', W', R'. reflexivity.
Qed.

Lemma submit_succeeds (affinity : Sql.column_type -> string -> Sql.cell)
    (now : Datetime.datetime) (user : AuthorInfo.user_row)
    (req : Flask.request) (d : AuthorInfo.db) (name url : string) :
  Flask.method_ req = Flask.POST ->
  Flask.get "journal_name" (Flask.form req) = Some name ->
  Flask.get "official_guidelines_url" (Flask.form req) = Some url ->
  Flask.resp (AuthorInfo.submit affinity now (Some user) req d)
  = Flask.redirect Flask.journals_list.
Proof.
  intros M N U. unfold AuthorInfo.submit, Flask.login_required.
  rewrite M, N, U. reflexivity.
Qed.

Lemma with_timestamp_creation_entry (now : Datetime.datetime) (author : string) :
  Datetime.valid now = true ->
  AuthorInfo.with_timestamp (AuthorInfo.creation_entry now author)
  = Some [("timestamp", AuthorInfo.VDatetime now); ("author", AuthorInfo.VStr author);
          ("changes", AuthorInfo.VStr "Initial creation.")].
Proof.
  intros V. unfold AuthorInfo.with_timestamp, AuthorInfo.creation_entry.
  cbn [Json.get String.eqb Ascii.eqb Bool.eqb].
  rewrite (fromisoformat_isoformat now V). reflexivity.
Qed.

Lemma with_timestamp_comment_entry (now : Datetime.datetime) (author text : string) :
  Datetime.valid now = true ->
  AuthorInfo.with_timestamp (AuthorInfo.comment_entry now author text)
  = Some [("author", AuthorInfo.VStr author); ("text", AuthorInfo.VStr text);
          ("timestamp", AuthorInfo.VDatetime now)].
Proof.
  intros V. unfold AuthorInfo.with_timestamp, AuthorInfo.comment_entry.
  cbn [Json.get String.eqb Ascii.eqb Bool.eqb].
  rewrite (fromisoformat_isoformat now V). reflexivity.
Qed.

(** C2: in both applications, when [submit] has stored a journal, the
    page of the new journal shows a history of exactly one entry, whose
    description is "Initial creation.", whose author is the user who
    submitted and whose timestamp is the clock reading [submit] took; it
    shows no comment; and the row's [flags_count] is 0.  (In the SQLite
    application the page holds the timestamp as the datetime read back from
    its ISO text, and the row's [created_at] and [last_updated] are that
    text.) *)
Theorem create_then_get_shows_initial_history :
  (forall (column_float : Py.float -> option (option Py.float))
          (column_integer : Z -> option (option Z))
          (now created updated : Datetime.datetime) (user viewer : App.User)
          (req : Flask.request) (d : App.db),
     let r := App.submit column_float column_integer now created updated (Some user) req d in
     Flask.resp r = Flask.redirect Flask.journals_list ->
     exists j,
       App.get_journal (App.new_journal_id d) (Flask.db_after r) = Some j /\
       App.flags_count j = Some 0 /\
       App.journal_detail (Some viewer) (App.new_journal_id d) (Flask.db_after r)
       = Flask.reply (Flask.db_after r) []
           (Flask.render_template "journal_detail.html"
              (App.JournalDetail j
                 [[("timestamp", Datetime.isoformat now); ("author", App.username user);
                   ("changes", "Initial creation.")]]
                 []))) /\
  (forall (affinity : Sql.column_type -> string -> Sql.cell)
          (now : Datetime.datetime) (user viewer : AuthorInfo.user_row)
          (req : Flask.request) (d : AuthorInfo.db),
     Datetime.valid now = true ->
     let r := AuthorInfo.submit affinity now (Some user) req d in
     Flask.resp r = Flask.redirect Flask.journals_list ->
     exists j,
       AuthorInfo.journal_by_id (AuthorInfo.new_journal_id d) (Flask.db_after r) = Some j /\
       AuthorInfo.flags_count j = Sql.Integer 0 /\
       AuthorInfo.created_at j = Datetime.isoformat now /\
       AuthorInfo.last_updated j = Datetime.isoformat now /\
       AuthorInfo.journal_detail (Some viewer) (AuthorInfo.new_journal_id d) (Flask.db_after r)
       = Flask.reply (Flask.db_after r) []
           (Flask.render_template "journal_detail.html"
              (AuthorInfo.JournalDetail
                 {| AuthorInfo.row := j;
                    AuthorInfo.update_history_list :=
                      [[("timestamp", AuthorInfo.VDatetime now);
                        ("author", AuthorInfo.VStr (AuthorInfo.username user));
                        ("changes", AuthorInfo.VStr "Initial creation.")]];
                    AuthorInfo.comments_list := [] |}))).
Proof.
  split.
  - intros column_float column_integer now created updated user viewer req d r H. subst r.
    destruct (app_submit_created column_float column_integer now created updated user req d H)
      as (name & url & _ & _ & _ & impact & words & refs
          & _ & _ & _ & _ & _ & _ & _ & _ & _ & E).
    rewrite E. cbn [Flask.reply Flask.db_after].
    eexists. split; [apply app_get_appended; reflexivity |].
    split; [reflexivity |].
    unfold App.journal_detail, Flask.login_required.
    rewrite app_get_appended by reflexivity.
    cbn [App.new_journal App.update_history App.comments].
    unfold App.or_empty_list. rewrite !truthy_dumps.
    rewrite !loads_dumps.
    + reflexivity.
    + constructor.
    + constructor; [apply app_creation_entry_distinct | constructor].
  - intros affinity now user viewer req d V r H. subst r.
    destruct (submit_created affinity now user req d H) as (name & url & _ & _ & _ & E).
    rewrite E. cbn [Flask.reply Flask.db_after].
    eexists. split; [apply get_appended; reflexivity |].
    split; [reflexivity |]. split; [reflexivity |]. split; [reflexivity |].
    unfold AuthorInfo.journal_detail, Flask.login_required.
    rewrite get_appended by reflexivity.
    cbn [AuthorInfo.inserted_row AuthorInfo.update_history AuthorInfo.comments].
    unfold AuthorInfo.or_empty_list. rewrite !truthy_dumps.
    rewrite !loads_dumps.
    + cbn [AuthorInfo.with_timestamps].
      rewrite (with_timestamp_creation_entry now _ V). reflexivity.
    + constructor.
    + constructor; [apply creation_entry_distinct | constructor].
Qed.

(** *** The numeric fields of a submission *)

Lemma parse_if_present_unset {A} (f : string -> option A) (raw : option string)
    (stored : option A) :
  App.parse_if_present f raw = Some stored -> Py.truthy raw = false -> stored = None.
Proof.
  unfold App.parse_if_present. intros H T. destruct raw as [s |].
  - rewrite T in H. congruence.
  - congruence.
Qed.

Lemma parse_if_present_set {A} (f : string -> option A) (raw : option string)
    (stored : option A) (s : string) :
  App.parse_if_present f raw = Some stored -> raw = Some s -> s <> "" ->
  exists x, f s = Some x /\ stored = Some x.
Proof.
  unfold App.parse_if_present. intros H -> N.
  destruct s as [| c s]; [congruence |]. cbn [Py.truthy] in H.
  destruct (f (String c s)) as [x |]; cbn [option_map] in H; [| discriminate].
  exists x. split; congruence.
Qed.

Lemma parse_if_present_error {A} (f : string -> option A) (s : string) :
  s <> "" -> f s = None -> App.parse_if_present f (Some s) = None.
Proof.
  intros N E. unfold App.parse_if_present.
  destruct s as [| c s]; [congruence |]. cbn [Py.truthy]. rewrite E. reflexivity.
Qed.

Lemma or_None_unset (raw : option string) : Py.truthy raw = false -> Py.or_None raw = None.
Proof. unfold Py.or_None. intros ->. reflexivity. Qed.

Lemma or_None_set (s : string) : s <> "" -> Py.or_None (Some s) = Some s.
Proof. destruct s; [congruence | reflexivity]. Qed.

Lemma parse_if_present_read {A} (f : string -> option A) (s : string) (x : A) :
  s <> "" -> f s = Some x -> App.parse_if_present f (Some s) = Some (Some x).
Proof.
  intros N E. unfold App.parse_if_present.
  destruct s as [| c s]; [congruence |]. cbn [Py.truthy]. rewrite E. reflexivity.
Qed.

Lemma flush_unset {A} (column : A -> option (option A)) (parsed stored : option A) :
  parsed = None -> App.flush column parsed = Some stored -> stored = None.
Proof. intros -> H. cbn in H. congruence. Qed.

Lemma flush_set {A} (column : A -> option (option A)) (parsed stored : option A) (x : A) :
  parsed = Some x -> App.flush column parsed = Some stored -> column x = Some stored.
Proof. intros -> H. exact H. Qed.

(** C1 (as the claim states it, refuted): [submit] of [src/app.py] stores
    the impact factor -1.5 and the word-count limit -5 it is sent (the
    backend standing in holds both as they are), and the one of the SQLite
    application binds the texts [abc] and [-5] unread; the columns, by the
    stand-in for their affinity, then hold the text [abc] and the integer
    -5.  Neither view checks that a number is non-negative, and the second
    checks nothing. *)
Lemma create_accepts_negative_numbers :
  (let r := App.submit Sample.column_float Sample.column_integer Sample.t0 Sample.t0
              Sample.t0 (Some Sample.alice) (Flask.post Sample.negative_form)
              Sample.app_db in
   Flask.resp r = Flask.redirect Flask.journals_list /\
   exists j, App.get_journal 1 (Flask.db_after r) = Some j /\
             App.word_count_limit j = Some (-5) /\ -5 < 0 /\
             exists x, App.impact_factor j = Some x /\ Py.lt0 x = true) /\
  (let r := AuthorInfo.submit Sample.affinity Sample.t0 (Some Sample.bob)
              (Flask.post Sample.text_form) Sample.sqlite_db in
   Flask.resp r = Flask.redirect Flask.journals_list /\
   exists j, AuthorInfo.journal_by_id 1 (Flask.db_after r) = Some j /\
             AuthorInfo.impact_factor j = Sql.CText "abc" /\
             Py.float_of_str "abc" = None /\
             AuthorInfo.word_count_limit j = Sql.CInteger (-5) /\ -5 < 0).
Proof.
  split.
  - split; [reflexivity |]. eexists. split; [reflexivity |].
    split; [reflexivity |]. split; [lia |]. eexists. split; vm_compute; reflexivity.
  - split; [reflexivity |]. eexists. split; [reflexivity |].
    repeat split; try reflexivity; lia.
Qed.

(** C1 (amended): when a submission stores a journal, each of
    [impact_factor], [word_count_limit] and [reference_count_limit] that is
    absent from the form or empty is stored as NULL ([None]), not as 0.
    One that is sent non-empty is read by [src/app.py] with [float] (impact
    factor) or [int] (the two limits), whatever its sign, and the journal
    holds what the backend's column returns for the number read; a text
    they cannot read, or a number the backend refuses at the commit, makes
    a POST by a logged-in user end in status 500 with nothing stored.  The
    SQLite application binds the text that was sent, unread, whatever its
    sign, and the journal holds what the affinity of the REAL or INTEGER
    column makes of that text. *)
Theorem create_stores_numbers_as_parsed_or_unset :
  (forall (column_float : Py.float -> option (option Py.float))
          (column_integer : Z -> option (option Z))
          (now created updated : Datetime.datetime) (user : App.User)
          (req : Flask.request) (d : App.db),
     let r := App.submit column_float column_integer now created updated (Some user) req d in
     let f := Flask.form req in
     (Flask.resp r = Flask.redirect Flask.journals_list ->
      exists j,
        App.get_journal (App.new_journal_id d) (Flask.db_after r) = Some j /\
        (Py.truthy (Flask.get "impact_factor" f) = false -> App.impact_factor j = None) /\
        (Py.truthy (Flask.get "word_count_limit" f) = false ->
         App.word_count_limit j = None) /\
        (Py.truthy (Flask.get "reference_count_limit" f) = false ->
         App.reference_count_limit j = None) /\
        (forall s, Flask.get "impact_factor" f = Some s -> s <> "" ->
                   exists x, Py.float_of_str s = Some x /\
                             column_float x = Some (App.impact_factor j)) /\
        (forall s, Flask.get "word_count_limit" f = Some s -> s <> "" ->
                   exists n, Py.int s = Some n /\
                             column_integer n = Some (App.word_count_limit j)) /\
        (forall s, Flask.get "reference_count_limit" f = Some s -> s <> "" ->
                   exists n, Py.int s = Some n /\
                             column_integer n = Some (App.reference_count_limit j))) /\
     (Flask.method_ req = Flask.POST ->
      (exists s, Flask.get "impact_factor" f = Some s /\ s <> "" /\
                 (Py.float_of_str s = None \/
                  exists x, Py.float_of_str s = Some x /\ column_float x = None)) \/
      (exists s, Flask.get "word_count_limit" f = Some s /\ s <> "" /\
                 (Py.int s = None \/
                  exists n, Py.int s = Some n /\ column_integer n = None)) \/
      (exists s, Flask.get "reference_count_limit" f = Some s /\ s <> "" /\
                 (Py.int s = None \/
                  exists n, Py.int s = Some n /\ column_integer n = None)) ->
      r = Flask.reply d [] (Flask.abort 500))) /\
  (forall (affinity : Sql.column_type -> string -> Sql.cell)
          (now : Datetime.datetime) (user : AuthorInfo.user_row)
          (req : Flask.request) (d : AuthorInfo.db),
     let r := AuthorInfo.submit affinity now (Some user) req d in
     let f := Flask.form req in
     Flask.resp r = Flask.redirect Flask.journals_list ->
     exists j,
       AuthorInfo.journal_by_id (AuthorInfo.new_journal_id d) (Flask.db_after r) = Some j /\
       (Py.truthy (Flask.get "impact_factor" f) = false ->
        AuthorInfo.impact_factor j = Sql.CNull) /\
       (Py.truthy (Flask.get "word_count_limit" f) = false ->
        AuthorInfo.word_count_limit j = Sql.CNull) /\
       (Py.truthy (Flask.get "reference_count_limit" f) = false ->
        AuthorInfo.reference_count_limit j = Sql.CNull) /\
       (forall s, Flask.get "impact_factor" f = Some s -> s <> "" ->
                  AuthorInfo.impact_factor j = affinity Sql.REAL s) /\
       (forall s, Flask.get "word_count_limit" f = Some s -> s <> "" ->
                  AuthorInfo.word_count_limit j = affinity Sql.INTEGER s) /\
       (forall s, Flask.get "reference_count_limit" f = Some s -> s <> "" ->
                  AuthorInfo.reference_count_limit j = affinity Sql.INTEGER s)).
Proof.
  split.
  - intros column_float column_integer now created updated user req d r f. subst r f. split.
    + intros H.
      destruct (app_submit_created column_float column_integer now created updated
                  user req d H)
        as (name & url & impact & words & refs & impact' & words' & refs'
            & _ & _ & _ & Pi & Pw & Pr & Fi & Fw & Fr & E).
      rewrite E. cbn [Flask.reply Flask.db_after].
      eexists. split; [apply app_get_appended; reflexivity |].
      cbn [App.new_journal App.impact_factor App.word_count_limit
             App.reference_count_limit].
      repeat split.
      * intros T. exact (flush_unset _ _ _ (parse_if_present_unset _ _ _ Pi T) Fi).
      * intros T. exact (flush_unset _ _ _ (parse_if_present_unset _ _ _ Pw T) Fw).
      * intros T. exact (flush_unset _ _ _ (parse_if_present_unset _ _ _ Pr T) Fr).
      * intros s G N. destruct (parse_if_present_set _ _ _ s Pi G N) as (x & P & S).
        exists x. split; [exact P | exact (flush_set _ _ _ x S Fi)].
      * intros s G N. destruct (parse_if_present_set _ _ _ s Pw G N) as (x & P & S).
        exists x. split; [exact P | exact (flush_set _ _ _ x S Fw)].
      * intros s G N. destruct (parse_if_present_set _ _ _ s Pr G N) as (x & P & S).
        exists x. split; [exact P | exact (flush_set _ _ _ x S Fr)].
    + intros M H. unfold App.submit, Flask.login_required. rewrite M.
      destruct H as [(s & G & N & [P | (x & P & C)])
                    | [(s & G & N & [P | (x & P & C)])
                      | (s & G & N & [P | (x & P & C)])]]; rewrite G.
      * rewrite (parse_if_present_error _ s N P). reflexivity.
      * rewrite (parse_if_present_read _ s x N P). cbn [App.flush]. rewrite C.
        destruct (App.parse_if_present Py.int _);
          [destruct (App.parse_if_present Py.int _) |]; [| reflexivity ..].
        destruct (Flask.get "journal_name" _);
          [destruct (Flask.get "official_guidelines_url" _) |]; reflexivity.
      * rewrite (parse_if_present_error _ s N P).
        destruct (App.parse_if_present Py.float_of_str _); reflexivity.
      * rewrite (parse_if_present_read _ s x N P). cbn [App.flush]. rewrite C.
        destruct (App.parse_if_present Py.float_of_str _) as [impact |]; [| reflexivity].
        destruct (App.parse_if_present Py.int _); [| reflexivity].
        destruct (Flask.get "journal_name" _);
          [destruct (Flask.get "official_guidelines_url" _) |]; [| reflexivity ..].
        destruct impact as [v |]; cbn [App.flush]; [destruct (column_float v) |];
          reflexivity.
      * rewrite (parse_if_present_error _ s N P).
        destruct (App.parse_if_present Py.float_of_str _);
          [destruct (App.parse_if_present Py.int _) |]; reflexivity.
      * rewrite (parse_if_present_read _ s x N P). cbn [App.flush]. rewrite C.
        destruct (App.parse_if_present Py.float_of_str _) as [impact |]; [| reflexivity].
        destruct (App.parse_if_present Py.int _) as [words |]; [| reflexivity].
        destruct (Flask.get "journal_name" _);
          [destruct (Flask.get "official_guidelines_url" _) |]; [| reflexivity ..].
        destruct impact as [v |]; cbn [App.flush]; [destruct (column_float v) |];
          (destruct words as [w |]; cbn [App.flush]; [destruct (column_integer w) |]);
          reflexivity.
  - intros affinity now user req d r f H. subst r f.
    destruct (submit_created affinity now user req d H) as (name & url & _ & _ & _ & E).
    rewrite E. cbn [Flask.reply Flask.db_after].
    eexists. split; [apply get_appended; reflexivity |].
    cbn [AuthorInfo.inserted_row AuthorInfo.impact_factor AuthorInfo.word_count_limit
           AuthorInfo.reference_count_limit].
    repeat split.
    + intros T. rewrite (or_None_unset _ T). reflexivity.
    + intros T. rewrite (or_None_unset _ T). reflexivity.
    + intros T. rewrite (or_None_unset _ T). reflexivity.
    + intros s -> N. rewrite (or_None_set s N). reflexivity.
    + intros s -> N. rewrite (or_None_set s N). reflexivity.
    + intros s -> N. rewrite (or_None_set s N). reflexivity.
Qed.

(** ** The journal page and NULL columns *)

(** C10: in both applications, the page of a stored journal whose
    [update_history] column is NULL shows an empty history, and one whose
    [comments] column is NULL shows no comment, whenever the other column
    holds a text the page can decode (or is NULL as well): [x or '[]']
    turns the NULL into the empty list before [json.loads] sees it, so the
    view does not fail on it. *)
Theorem detail_reads_null_column_as_empty :
  (forall (user : App.User) (jid : Z) (d : App.db) (j : App.Journal),
     App.get_journal jid d = Some j ->
     (App.update_history j = None ->
      forall cs, Json.loads (App.or_empty_list (App.comments j)) = Some cs ->
                 App.journal_detail (Some user) jid d
                 = Flask.reply d [] (Flask.render_template "journal_detail.html"
                                       (App.JournalDetail j [] cs))) /\
     (App.comments j = None ->
      forall hs, Json.loads (App.or_empty_list (App.update_history j)) = Some hs ->
                 App.journal_detail (Some user) jid d
                 = Flask.reply d [] (Flask.render_template "journal_detail.html"
                                       (App.JournalDetail j hs []))) /\
     (App.update_history j = None -> App.comments j = None ->
      App.journal_detail (Some user) jid d
      = Flask.reply d [] (Flask.render_template "journal_detail.html"
                            (App.JournalDetail j [] [])))) /\
  (forall (user : AuthorInfo.user_row) (jid : Z) (d : AuthorInfo.db)
          (j : AuthorInfo.journal_row),
     AuthorInfo.journal_by_id jid d = Some j ->
     (AuthorInfo.update_history j = None ->
      forall cs, AuthorInfo.decode_column (AuthorInfo.comments j) = Some cs ->
                 AuthorInfo.journal_detail (Some user) jid d
                 = Flask.reply d []
                     (Flask.render_template "journal_detail.html"
                        (AuthorInfo.JournalDetail
                           {| AuthorInfo.row := j; AuthorInfo.update_history_list := [];
                              AuthorInfo.comments_list := cs |}))) /\
     (AuthorInfo.comments j = None ->
      forall hs, AuthorInfo.decode_column (AuthorInfo.update_history j) = Some hs ->
                 AuthorInfo.journal_detail (Some user) jid d
                 = Flask.reply d []
                     (Flask.render_template "journal_detail.html"
                        (AuthorInfo.JournalDetail
                           {| AuthorInfo.row := j; AuthorInfo.update_history_list := hs;
                              AuthorInfo.comments_list := [] |}))) /\
     (AuthorInfo.update_history j = None -> AuthorInfo.comments j = None ->
      AuthorInfo.journal_detail (Some user) jid d
      = Flask.reply d []
          (Flask.render_template "journal_detail.html"
             (AuthorInfo.JournalDetail
                {| AuthorInfo.row := j; AuthorInfo.update_history_list := [];
                   AuthorInfo.comments_list := [] |})))).
Proof.
  split.
  - intros user jid d j L.
    unfold App.journal_detail, Flask.login_required. rewrite L.
    repeat split.
    + intros -> cs ->. reflexivity.
    + intros -> hs ->. reflexivity.
    + intros -> ->. reflexivity.
  - intros user jid d j L.
    unfold AuthorInfo.journal_detail, Flask.login_required, AuthorInfo.decode_column.
    rewrite L. repeat split.
    + intros -> cs H.
      destruct (Json.loads (AuthorInfo.or_empty_list (AuthorInfo.comments j))) as [l |];
        [| discriminate].
      change (Json.loads (AuthorInfo.or_empty_list None)) with (Some (@nil Json.dict)).
      cbn [AuthorInfo.with_timestamps]. rewrite H. reflexivity.
    + intros -> hs H.
      destruct (Json.loads (AuthorInfo.or_empty_list (AuthorInfo.update_history j)))
        as [l |]; [| discriminate].
      change (Json.loads (AuthorInfo.or_empty_list None)) with (Some (@nil Json.dict)).
      cbn [AuthorInfo.with_timestamps]. rewrite H. reflexivity.
    + intros -> ->. reflexivity.
Qed.

(** ** Search *)

Lemma lt0_not_ge0 (x : Py.float) : Py.lt0 x = true -> Py.ge0 x = false.
Proof.
  unfold Py.lt0, Py.ge0, Py.zero, SFltb, SFleb, SFcompare.
  destruct x as [s | s | | s m e]; try destruct s; intros H;
    try discriminate; reflexivity.
Qed.

Lemma get_filter_other (k k' : string) (m : Flask.MultiDict) :
  k <> k' ->
  Flask.get k (filter (fun kv => negb (String.eqb k' (fst kv))) m) = Flask.get k m.
Proof.
  intros N. induction m as [| [a v] m IH]; cbn [filter Flask.get fst].
  - reflexivity.
  - destruct (String.eqb_spec k' a) as [<- | Na]; cbn [negb Flask.get].
    + destruct (String.eqb_spec k k'); [contradiction | exact IH].
    + destruct (String.eqb k a); [reflexivity | exact IH].
Qed.

Lemma get_filter_same (k : string) (m : Flask.MultiDict) :
  Flask.get k (filter (fun kv => negb (String.eqb k (fst kv))) m) = None.
Proof.
  induction m as [| [a v] m IH]; cbn [filter Flask.get fst].
  - reflexivity.
  - destruct (String.eqb_spec k a) as [<- | Na]; cbn [negb Flask.get].
    + exact IH.
    + destruct (String.eqb_spec k a); [contradiction | exact IH].
Qed.

Lemma search_query_without_impact_factor (req : Flask.request) :
  AuthorInfo.search_query (AuthorInfo.without_arg "impact_factor" req)
  = {| AuthorInfo.name_like := AuthorInfo.name_like (AuthorInfo.search_query req);
       AuthorInfo.min_impact_factor := None |}.
Proof.
  unfold AuthorInfo.search_query, AuthorInfo.without_arg. cbn [Flask.args].
  rewrite get_filter_same, get_filter_other by discriminate.
  reflexivity.
Qed.

Lemma search_query_bad_impact_factor (req : Flask.request) (q : string) :
  Flask.get "impact_factor" (Flask.args req) = Some q ->
  Py.float_of_str q = None \/ (exists x, Py.float_of_str q = Some x /\ Py.lt0 x = true) ->
  AuthorInfo.search_query req
  = {| AuthorInfo.name_like := AuthorInfo.name_like (AuthorInfo.search_query req);
       AuthorInfo.min_impact_factor := None |}.
Proof.
  intros G B. unfold AuthorInfo.search_query. rewrite G.
  cbn [AuthorInfo.name_like]. f_equal.
  destruct (Py.truthy (Some q)); [| reflexivity].
  destruct B as [-> | (x & -> & L)]; [reflexivity |].
  rewrite (lt0_not_ge0 x L). reflexivity.
Qed.

Lemma Sorted_weaken {A} (R R' : A -> A -> Prop) (l : list A) :
  (forall a b, R a b -> R' a b) -> Sorted R l -> Sorted R' l.
Proof.
  intros H S. induction S as [| a l S IH Hd]; constructor.
  - exact IH.
  - destruct Hd; constructor. apply H. assumption.
Qed.

Lemma newest_first_sorted (l : list AuthorInfo.journal_row) :
  Sorted (fun a b => String.leb (AuthorInfo.last_updated b) (AuthorInfo.last_updated a) = true)
         (AuthorInfo.newest_first l).
Proof.
  unfold AuthorInfo.newest_first.
  eapply Sorted_weaken; [| apply order_by_in_order].
  - unfold Sql.in_order. intros a b H. apply negb_false_iff in H. exact H.
  - intros a b H. apply negb_true_iff in H. apply negb_false_iff.
    destruct (String.leb_total (AuthorInfo.last_updated a) (AuthorInfo.last_updated b));
      congruence.
Qed.

(** C7: [search] with an impact-factor argument that [float] cannot read,
    or reads as a number below 0, answers exactly as the same request
    without that argument: the filter is dropped without an error.  For a
    logged-in user the answer is the journals page over the rows that pass
    the name filter alone, each row followed by one whose [last_updated] is
    not greater. *)
Theorem search_drops_malformed_or_negative_impact_factor
    (impact_factor_ge : Sql.cell -> Py.float -> bool)
    (g_user : option AuthorInfo.user_row) (req : Flask.request) (d : AuthorInfo.db)
    (q : string) :
  Flask.get "impact_factor" (Flask.args req) = Some q ->
  Py.float_of_str q = None \/ (exists x, Py.float_of_str q = Some x /\ Py.lt0 x = true) ->
  AuthorInfo.search impact_factor_ge g_user req d
  = AuthorInfo.search impact_factor_ge g_user (AuthorInfo.without_arg "impact_factor" req) d /\
  (g_user <> None ->
   exists rows,
     AuthorInfo.search impact_factor_ge g_user req d
     = Flask.reply d [] (Flask.render_template "journals.html"
                           (AuthorInfo.JournalList (map AuthorInfo.summarize rows))) /\
     Sorted (fun a b =>
               String.leb (AuthorInfo.last_updated b) (AuthorInfo.last_updated a) = true)
            rows /\
     forall j, In j rows <->
               In j (AuthorInfo.journals d) /\
               forall n, Flask.get "journal_name" (Flask.args req) = Some n -> n <> "" ->
                         Sql.like (Py.chars ("%" ++ n ++ "%")%string)
                                  (Py.chars (AuthorInfo.journal_name j)) = true).
Proof.
  intros G B. pose proof (search_query_bad_impact_factor req q G B) as Q. split.
  - unfold AuthorInfo.search. rewrite search_query_without_impact_factor, <- Q.
    reflexivity.
  - intros Hu. destruct g_user as [user |]; [| congruence].
    unfold AuthorInfo.search, Flask.login_required.
    eexists. split; [reflexivity |]. split.
    + unfold AuthorInfo.select_rows. apply newest_first_sorted.
    + intros j. unfold AuthorInfo.select_rows, AuthorInfo.newest_first.
      rewrite order_by_In, filter_In. rewrite Q. cbn [AuthorInfo.min_impact_factor
        AuthorInfo.name_like]. rewrite andb_true_r.
      unfold AuthorInfo.search_query. cbn [AuthorInfo.name_like].
      split; intros [I H]; split; try exact I.
      * intros n Gn Nn. rewrite Gn in H. destruct n; [congruence |]. exact H.
      * destruct (Flask.get "journal_name" (Flask.args req)) as [n |]; [| reflexivity].
        destruct n as [| c n]; [reflexivity |]. cbn [Py.truthy].
        apply H; [reflexivity | discriminate].
Qed.

(** ** How one request changes the [journals] table (SQLite application) *)

Lemma lookup_update_same (jid : Z) (f : AuthorInfo.journal_row -> AuthorInfo.journal_row)
    (d : AuthorInfo.db) :
  (forall j, AuthorInfo.journal_id (f j) = AuthorInfo.journal_id j) ->
  AuthorInfo.journal_by_id jid (AuthorInfo.update_where_id jid f d)
  = option_map f (AuthorInfo.journal_by_id jid d).
Proof.
  intros H. unfold AuthorInfo.journal_by_id, AuthorInfo.update_where_id.
  cbn [AuthorInfo.with_journals AuthorInfo.journals].
  apply (find_map_update (fun j => AuthorInfo.journal_id j =? jid) f).
  intros x. rewrite H. reflexivity.
Qed.

Lemma lookup_update_other (jid jid' : Z)
    (f : AuthorInfo.journal_row -> AuthorInfo.journal_row) (d : AuthorInfo.db) :
  jid' <> jid ->
  (forall j, AuthorInfo.journal_id (f j) = AuthorInfo.journal_id j) ->
  AuthorInfo.journal_by_id jid' (AuthorInfo.update_where_id jid f d)
  = AuthorInfo.journal_by_id jid' d.
Proof.
  intros N H. unfold AuthorInfo.journal_by_id, AuthorInfo.update_where_id.
  cbn [AuthorInfo.with_journals AuthorInfo.journals].
  apply (find_map_other (fun j => AuthorInfo.journal_id j =? jid)
           (fun j => AuthorInfo.journal_id j =? jid') f).
  - intros x. rewrite H. reflexivity.
  - intros x P Q. apply Z.eqb_eq in P, Q. congruence.
Qed.

Lemma lookup_delete_same (jid : Z) (d : AuthorInfo.db) :
  AuthorInfo.journal_by_id jid (AuthorInfo.delete_where_id jid d) = None.
Proof.
  unfold AuthorInfo.journal_by_id, AuthorInfo.delete_where_id.
  cbn [AuthorInfo.with_journals AuthorInfo.journals].
  apply find_all_false. intros x I. apply filter_In in I. destruct I as [_ I].
  apply negb_true_iff in I. exact I.
Qed.

Lemma lookup_delete_other (jid jid' : Z) (d : AuthorInfo.db) :
  jid' <> jid ->
  AuthorInfo.journal_by_id jid' (AuthorInfo.delete_where_id jid d)
  = AuthorInfo.journal_by_id jid' d.
Proof.
  intros N. unfold AuthorInfo.journal_by_id, AuthorInfo.delete_where_id.
  cbn [AuthorInfo.with_journals AuthorInfo.journals].
  induction (AuthorInfo.journals d) as [| x l IH]; cbn [filter find].
  - reflexivity.
  - destruct (Z.eqb_spec (AuthorInfo.journal_id x) jid) as [E | E]; cbn [negb find].
    + destruct (Z.eqb_spec (AuthorInfo.journal_id x) jid'); [congruence | exact IH].
    + destruct (AuthorInfo.journal_id x =? jid'); [reflexivity | exact IH].
Qed.

Lemma next_key_floor (floor : Z) (keys : list Z) : floor < Sql.next_key floor keys.
Proof.
  unfold Sql.next_key. induction keys as [| k keys IH]; cbn [fold_right]; lia.
Qed.

(** What a request can do to the table: nothing, append a row under a new
    key, delete the rows of one key, or rewrite the rows of one key by
    [bump_flags] or by [set_comments] with the request's clock reading. *)
Lemma handle_cases (hash : string -> string -> string)
    (ge : Sql.cell -> Py.float -> bool)
    (affinity : Sql.column_type -> string -> Sql.cell)
    (c : AuthorInfo.call) (d : AuthorInfo.db) :
  let d' := Flask.db_after (AuthorInfo.handle hash ge affinity c d) in
  (AuthorInfo.journals d' = AuthorInfo.journals d /\
   AuthorInfo.journals_seq d' = AuthorInfo.journals_seq d) \/
  (exists row,
     AuthorInfo.journal_id row = AuthorInfo.new_journal_id d /\
     AuthorInfo.journals d' = AuthorInfo.journals d ++ [row] /\
     AuthorInfo.journals_seq d' = AuthorInfo.new_journal_id d) \/
  (exists jid, AuthorInfo.what c = AuthorInfo.Delete jid /\
                d' = AuthorInfo.delete_where_id jid d) \/
  (exists jid, d' = AuthorInfo.update_where_id jid AuthorInfo.bump_flags d) \/
  (exists jid text,
     d' = AuthorInfo.update_where_id jid
            (AuthorInfo.set_comments text (Datetime.isoformat (AuthorInfo.clock c))) d).
Proof.
  unfold AuthorInfo.handle.
  destruct c as [now g what]. cbn [AuthorInfo.what AuthorInfo.g_user AuthorInfo.clock].
  destruct what as [salt req | | jid | req | req | jid | jid | jid req].
  - left. unfold AuthorInfo.register.
    destruct g; [split; reflexivity |].
    destruct (Flask.method_ req); [split; reflexivity |].
    destruct (Flask.get "username" _) as [u |]; [| split; reflexivity].
    destruct (Flask.get "password" _) as [p |]; [| split; reflexivity].
    destruct (Py.is_empty u); [split; reflexivity |].
    destruct (Py.is_empty p); [split; reflexivity |].
    destruct (AuthorInfo.user_by_name u d); split; reflexivity.
  - left. destruct g; split; reflexivity.
  - left. unfold AuthorInfo.journal_detail, Flask.login_required.
    destruct g; [| split; reflexivity].
    destruct (AuthorInfo.journal_by_id jid d); [| split; reflexivity].
    destruct (Json.loads _); [| split; reflexivity].
    destruct (Json.loads _); [| split; reflexivity].
    destruct (AuthorInfo.with_timestamps _); [| split; reflexivity].
    destruct (AuthorInfo.with_timestamps _); split; reflexivity.
  - left. destruct g; split; reflexivity.
  - unfold AuthorInfo.submit, Flask.login_required.
    destruct g as [user |]; [| left; split; reflexivity].
    destruct (Flask.method_ req); [left; split; reflexivity |].
    destruct (Flask.get "journal_name" _) as [name |]; [| left; split; reflexivity].
    destruct (Flask.get "official_guidelines_url" _) as [url |];
      [| left; split; reflexivity].
    right. left. eexists. cbn [Flask.reply Flask.db_after AuthorInfo.journals
                                 AuthorInfo.journals_seq].
    split; [| split; reflexivity]. reflexivity.
  - unfold AuthorInfo.delete_journal, Flask.login_required.
    destruct g as [user |]; [| left; split; reflexivity].
    destruct (negb _); [left; split; reflexivity |].
    right. right. left. exists jid. split; reflexivity.
  - unfold AuthorInfo.flag_journal, Flask.login_required.
    destruct g as [user |]; [| left; split; reflexivity].
    right. right. right. left. exists jid. reflexivity.
  - unfold AuthorInfo.add_comment, Flask.login_required.
    destruct g as [user |]; [| left; split; reflexivity].
    destruct (Flask.get "comment_text" _) as [text |]; [| left; split; reflexivity].
    destruct (Py.truthy _); [| left; split; reflexivity].
    destruct (AuthorInfo.journal_by_id jid d) as [j |]; [| left; split; reflexivity].
    destruct (Json.loads _) as [l |]; [| left; split; reflexivity].
    right. right. right. right. eexists. eexists. reflexivity.
Qed.

Lemma lookup_depends_on_journals (jid : Z) (d d' : AuthorInfo.db) :
  AuthorInfo.journals d' = AuthorInfo.journals d ->
  AuthorInfo.journal_by_id jid d' = AuthorInfo.journal_by_id jid d.
Proof. unfold AuthorInfo.journal_by_id. intros ->. reflexivity. Qed.

Lemma bump_flags_id (j : AuthorInfo.journal_row) :
  AuthorInfo.journal_id (AuthorInfo.bump_flags j) = AuthorInfo.journal_id j.
Proof. reflexivity. Qed.

Lemma set_comments_id (c t : string) (j : AuthorInfo.journal_row) :
  AuthorInfo.journal_id (AuthorInfo.set_comments c t j) = AuthorInfo.journal_id j.
Proof. reflexivity. Qed.

(** A row that is there before a request is, after it, gone, the same,
    flagged once more, or commented at the request's clock reading. *)
Lemma handle_lookup (hash : string -> string -> string)
    (ge : Sql.cell -> Py.float -> bool)
    (affinity : Sql.column_type -> string -> Sql.cell)
    (c : AuthorInfo.call) (d : AuthorInfo.db)
    (jid : Z) (j : AuthorInfo.journal_row) :
  AuthorInfo.journal_by_id jid d = Some j ->
  let d' := Flask.db_after (AuthorInfo.handle hash ge affinity c d) in
  AuthorInfo.journal_by_id jid d' = None \/
  AuthorInfo.journal_by_id jid d' = Some j \/
  AuthorInfo.journal_by_id jid d' = Some (AuthorInfo.bump_flags j) \/
  exists text,
    AuthorInfo.journal_by_id jid d'
    = Some (AuthorInfo.set_comments text (Datetime.isoformat (AuthorInfo.clock c)) j).
Proof.
  intros L d'. subst d'.
  destruct (handle_cases hash ge affinity c d)
    as [[E _] | [(row & _ & E & _) | [(k & _ & E) | [(k & E) | (k & text & E)]]]].
  - right. left. rewrite (lookup_depends_on_journals jid d _ E). exact L.
  - right. left. unfold AuthorInfo.journal_by_id in *. rewrite E, find_app, L. reflexivity.
  - rewrite E. destruct (Z.eq_dec jid k) as [-> | N].
    + left. apply lookup_delete_same.
    + right. left. rewrite lookup_delete_other by exact N. exact L.
  - rewrite E. destruct (Z.eq_dec jid k) as [-> | N].
    + right. right. left. rewrite lookup_update_same by apply bump_flags_id.
      rewrite L. reflexivity.
    + right. left. rewrite lookup_update_other; [exact L | exact N | apply bump_flags_id].
  - rewrite E. destruct (Z.eq_dec jid k) as [-> | N].
    + right. right. right. exists text.
      rewrite lookup_update_same by apply set_comments_id. rewrite L. reflexivity.
    + right. left.
      rewrite lookup_update_other; [exact L | exact N | apply set_comments_id].
Qed.

(** The AUTOINCREMENT counter does not go back, and a key at or below it
    that no row has is not given again. *)
Lemma handle_seq (hash : string -> string -> string)
    (ge : Sql.cell -> Py.float -> bool)
    (affinity : Sql.column_type -> string -> Sql.cell)
    (c : AuthorInfo.call) (d : AuthorInfo.db) :
  AuthorInfo.journals_seq d
  <= AuthorInfo.journals_seq (Flask.db_after (AuthorInfo.handle hash ge affinity c d)).
Proof.
  destruct (handle_cases hash ge affinity c d)
    as [[_ E] | [(row & _ & _ & E) | [(k & _ & E) | [(k & E) | (k & text & E)]]]];
    rewrite E; try (cbn; lia).
  pose proof (next_key_floor (AuthorInfo.journals_seq d)
                (map AuthorInfo.journal_id (AuthorInfo.journals d))).
  unfold AuthorInfo.new_journal_id. lia.
Qed.

Lemma handle_lookup_absent (hash : string -> string -> string)
    (ge : Sql.cell -> Py.float -> bool)
    (affinity : Sql.column_type -> string -> Sql.cell)
    (c : AuthorInfo.call) (d : AuthorInfo.db)
    (jid : Z) :
  AuthorInfo.journal_by_id jid d = None -> jid <= AuthorInfo.journals_seq d ->
  AuthorInfo.journal_by_id jid (Flask.db_after (AuthorInfo.handle hash ge affinity c d)) = None.
Proof.
  intros L B.
  destruct (handle_cases hash ge affinity c d)
    as [[E _] | [(row & R & E & _) | [(k & _ & E) | [(k & E) | (k & text & E)]]]].
  - rewrite (lookup_depends_on_journals jid d _ E). exact L.
  - unfold AuthorInfo.journal_by_id in *. rewrite E, find_app, L. cbn [find].
    pose proof (next_key_floor (AuthorInfo.journals_seq d)
                  (map AuthorInfo.journal_id (AuthorInfo.journals d))).
    unfold AuthorInfo.new_journal_id in R.
    destruct (Z.eqb_spec (AuthorInfo.journal_id row) jid); [lia | reflexivity].
  - rewrite E. destruct (Z.eq_dec jid k) as [-> | N].
    + apply lookup_delete_same.
    + rewrite lookup_delete_other by exact N. exact L.
  - rewrite E. destruct (Z.eq_dec jid k) as [-> | N].
    + rewrite lookup_update_same by apply bump_flags_id. rewrite L. reflexivity.
    + rewrite lookup_update_other; [exact L | exact N | apply bump_flags_id].
  - rewrite E. destruct (Z.eq_dec jid k) as [-> | N].
    + rewrite lookup_update_same by apply set_comments_id. rewrite L. reflexivity.
    + rewrite lookup_update_other; [exact L | exact N | apply set_comments_id].
Qed.

(** A property of a row that flagging and commenting keep holds of the row
    after any sequence of requests, as long as the row is there. *)
Lemma serve_keeps (hash : string -> string -> string)
    (ge : Sql.cell -> Py.float -> bool)
    (affinity : Sql.column_type -> string -> Sql.cell)
    (P : AuthorInfo.journal_row -> Prop)
    (jid : Z) (calls : list AuthorInfo.call) :
  forall d : AuthorInfo.db,
    jid <= AuthorInfo.journals_seq d ->
    (forall j, P j -> P (AuthorInfo.bump_flags j)) ->
    (forall c text j, In c calls -> P j ->
       P (AuthorInfo.set_comments text (Datetime.isoformat (AuthorInfo.clock c)) j)) ->
    match AuthorInfo.journal_by_id jid d with
    | Some j => P j
    | None => True
    end ->
    match AuthorInfo.journal_by_id jid (AuthorInfo.serve hash ge affinity calls d) with
    | Some j => P j
    | None => True
    end.
Proof.
  induction calls as [| c calls IH]; intros d B Hf Hc H.
  - exact H.
  - cbn [AuthorInfo.serve fold_left].
    apply (IH (Flask.db_after (AuthorInfo.handle hash ge affinity c d))).
    + pose proof (handle_seq hash ge affinity c d). lia.
    + exact Hf.
    + intros c' text j I. apply Hc. right. exact I.
    + destruct (AuthorInfo.journal_by_id jid d) as [j |] eqn:L.
      * destruct (handle_lookup hash ge affinity c d jid j L) as [E | [E | [E | (text & E)]]];
          rewrite E; auto.
        apply Hc; [left; reflexivity | exact H].
      * rewrite (handle_lookup_absent hash ge affinity c d jid L B). exact I.
Qed.

(** ** Comments *)

Lemma truthy_nonempty (s : string) : s <> "" -> Py.truthy (Some s) = true.
Proof. destruct s; [congruence | reflexivity]. Qed.

Lemma add_comment_step (now : Datetime.datetime) (user : AuthorInfo.user_row) (jid : Z)
    (req : Flask.request) (text : string) (d : AuthorInfo.db) (j : AuthorInfo.journal_row)
    (l : list Json.dict) :
  Flask.get "comment_text" (Flask.form req) = Some text -> text <> "" ->
  AuthorInfo.journal_by_id jid d = Some j ->
  Json.loads (AuthorInfo.or_empty_list (AuthorInfo.comments j)) = Some l ->
  let r := AuthorInfo.add_comment now (Some user) jid req d in
  let j' := AuthorInfo.set_comments
              (Json.dumps (l ++ [AuthorInfo.comment_entry now (AuthorInfo.username user) text]))
              (Datetime.isoformat now) j in
  Flask.resp r = Flask.redirect (Flask.journal_detail_page jid) /\
  Flask.flashed r = [] /\
  AuthorInfo.journal_by_id jid (Flask.db_after r) = Some j' /\
  Json.loads (AuthorInfo.or_empty_list (AuthorInfo.comments j'))
  = Some (l ++ [AuthorInfo.comment_entry now (AuthorInfo.username user) text]) /\
  AuthorInfo.last_updated j' = Datetime.isoformat now.
Proof.
  intros G N L D r j'. subst r j'.
  unfold AuthorInfo.add_comment, Flask.login_required.
  rewrite G, (truthy_nonempty text N), L, D.
  cbn [Flask.reply Flask.resp Flask.flashed Flask.db_after].
  split; [reflexivity |]. split; [reflexivity |]. split.
  - rewrite lookup_update_same by apply set_comments_id. rewrite L. reflexivity.
  - split; [| reflexivity].
    cbn [AuthorInfo.set_comments AuthorInfo.comments].
    unfold AuthorInfo.or_empty_list. rewrite truthy_dumps.
    apply loads_dumps. apply Forall_app. split.
    + exact (loads_distinct _ _ D).
    + constructor; [apply comment_entry_distinct | constructor].
Qed.

Lemma last_cons_default {A} (l : list A) : forall x d : A, last (x :: l) d = last l x.
Proof.
  induction l as [| y l IH]; intros x d.
  - reflexivity.
  - change (last (x :: y :: l) d) with (last (y :: l) d).
    rewrite (IH y d), (IH y x). reflexivity.
Qed.

Lemma add_comment_sequence (hash : string -> string -> string)
    (ge : Sql.cell -> Py.float -> bool)
    (affinity : Sql.column_type -> string -> Sql.cell)
    (jid : Z)
    (cs : list (Datetime.datetime * AuthorInfo.user_row * string)) :
  forall (d : AuthorInfo.db) (j : AuthorInfo.journal_row) (l : list Json.dict),
    AuthorInfo.journal_by_id jid d = Some j ->
    Json.loads (AuthorInfo.or_empty_list (AuthorInfo.comments j)) = Some l ->
    Forall (fun c => snd c <> "") cs ->
    exists j',
      AuthorInfo.journal_by_id jid
        (AuthorInfo.serve hash ge affinity (map (AuthorInfo.comment_call jid) cs) d) = Some j' /\
      Json.loads (AuthorInfo.or_empty_list (AuthorInfo.comments j'))
      = Some (l ++ map AuthorInfo.stored_comment cs) /\
      AuthorInfo.last_updated j'
      = last (map (fun c => Datetime.isoformat (fst (fst c))) cs) (AuthorInfo.last_updated j) /\
      AuthorInfo.update_history j' = AuthorInfo.update_history j /\
      AuthorInfo.created_at j' = AuthorInfo.created_at j /\
      AuthorInfo.flags_count j' = AuthorInfo.flags_count j.
Proof.
  induction cs as [| [[now user] text] cs IH]; intros d j l L D F.
  - exists j. cbn [map AuthorInfo.serve fold_left last]. rewrite app_nil_r.
    repeat split; assumption.
  - inversion F as [| ? ? N F']; subst. cbn [snd] in N.
    cbn [map AuthorInfo.serve fold_left].
    change (Flask.db_after (AuthorInfo.handle hash ge affinity
                              (AuthorInfo.comment_call jid (now, user, text)) d))
      with (Flask.db_after (AuthorInfo.add_comment now (Some user) jid
                              (Flask.post [("comment_text", text)]) d)).
    destruct (add_comment_step now user jid (Flask.post [("comment_text", text)]) text d j l
                eq_refl N L D) as (_ & _ & L' & D' & U').
    destruct (IH _ _ _ L' D' F') as (j' & Lj & Dj & Uj & Hj & Cj & Fj).
    exists j'. split; [exact Lj |]. split.
    + rewrite Dj, <- app_assoc. reflexivity.
    + split; [| repeat split; assumption].
      rewrite Uj, U'. cbn [map fst]. rewrite last_cons_default. reflexivity.
Qed.

Lemma with_timestamps_stored (cs : list (Datetime.datetime * AuthorInfo.user_row * string)) :
  Forall (fun c => Datetime.valid (fst (fst c)) = true) cs ->
  AuthorInfo.with_timestamps (map AuthorInfo.stored_comment cs)
  = Some (map AuthorInfo.shown_comment cs).
Proof.
  induction 1 as [| [[now user] text] cs V _ IH]; cbn [map AuthorInfo.with_timestamps].
  - reflexivity.
  - cbn [fst] in V. cbn [AuthorInfo.stored_comment].
    rewrite (with_timestamp_comment_entry now _ text V), IH. reflexivity.
Qed.

(** C3: [add_comment] with a non-empty text on a stored journal whose
    [comments] column decodes appends one entry (author, text, ISO text of
    the clock reading) after the entries already there and sets
    [last_updated] to that ISO text, leaving the other columns alone; a
    sequence of such calls appends their entries in call order and leaves
    [last_updated] at the last call's reading, so that after a submission
    and N comments the journal page shows exactly those N comments in call
    order; with an empty or absent text the call changes nothing and still
    answers with the redirect to the journal page. *)
Theorem add_comment_appends_in_call_order
    (hash : string -> string -> string) (ge : Sql.cell -> Py.float -> bool)
    (affinity : Sql.column_type -> string -> Sql.cell) :
  (forall (now : Datetime.datetime) (user : AuthorInfo.user_row) (jid : Z)
          (req : Flask.request) (text : string) (d : AuthorInfo.db)
          (j : AuthorInfo.journal_row) (l : list Json.dict),
     Flask.get "comment_text" (Flask.form req) = Some text -> text <> "" ->
     AuthorInfo.journal_by_id jid d = Some j ->
     Json.loads (AuthorInfo.or_empty_list (AuthorInfo.comments j)) = Some l ->
     let r := AuthorInfo.add_comment now (Some user) jid req d in
     let j' := AuthorInfo.set_comments
                 (Json.dumps
                    (l ++ [AuthorInfo.comment_entry now (AuthorInfo.username user) text]))
                 (Datetime.isoformat now) j in
     Flask.resp r = Flask.redirect (Flask.journal_detail_page jid) /\
     Flask.flashed r = [] /\
     AuthorInfo.journal_by_id jid (Flask.db_after r) = Some j' /\
     Json.loads (AuthorInfo.or_empty_list (AuthorInfo.comments j'))
     = Some (l ++ [[("author", AuthorInfo.username user); ("text", text);
                    ("timestamp", Datetime.isoformat now)]]) /\
     AuthorInfo.last_updated j' = Datetime.isoformat now) /\
  (forall (jid : Z) (cs : list (Datetime.datetime * AuthorInfo.user_row * string))
          (d : AuthorInfo.db) (j : AuthorInfo.journal_row) (l : list Json.dict),
     AuthorInfo.journal_by_id jid d = Some j ->
     Json.loads (AuthorInfo.or_empty_list (AuthorInfo.comments j)) = Some l ->
     Forall (fun c => snd c <> "") cs ->
     exists j',
       AuthorInfo.journal_by_id jid
         (AuthorInfo.serve hash ge affinity (map (AuthorInfo.comment_call jid) cs) d) = Some j' /\
       Json.loads (AuthorInfo.or_empty_list (AuthorInfo.comments j'))
       = Some (l ++ map AuthorInfo.stored_comment cs) /\
       AuthorInfo.last_updated j'
       = last (map (fun c => Datetime.isoformat (fst (fst c))) cs)
              (AuthorInfo.last_updated j)) /\
  (forall (now0 : Datetime.datetime) (user0 viewer : AuthorInfo.user_row)
          (req0 : Flask.request) (d : AuthorInfo.db)
          (cs : list (Datetime.datetime * AuthorInfo.user_row * string)),
     Datetime.valid now0 = true ->
     Flask.resp (AuthorInfo.submit affinity now0 (Some user0) req0 d)
     = Flask.redirect Flask.journals_list ->
     Forall (fun c => Datetime.valid (fst (fst c)) = true /\ snd c <> "") cs ->
     let jid := AuthorInfo.new_journal_id d in
     let d' := AuthorInfo.serve hash ge affinity (map (AuthorInfo.comment_call jid) cs)
                 (Flask.db_after (AuthorInfo.submit affinity now0 (Some user0) req0 d)) in
     exists j',
       AuthorInfo.journal_by_id jid d' = Some j' /\
       AuthorInfo.last_updated j'
       = last (map (fun c => Datetime.isoformat (fst (fst c))) cs)
              (Datetime.isoformat now0) /\
       AuthorInfo.journal_detail (Some viewer) jid d'
       = Flask.reply d' []
           (Flask.render_template "journal_detail.html"
              (AuthorInfo.JournalDetail
                 {| AuthorInfo.row := j';
                    AuthorInfo.update_history_list :=
                      [[("timestamp", AuthorInfo.VDatetime now0);
                        ("author", AuthorInfo.VStr (AuthorInfo.username user0));
                        ("changes", AuthorInfo.VStr "Initial creation.")]];
                    AuthorInfo.comments_list := map AuthorInfo.shown_comment cs |})) /\
       List.length (map AuthorInfo.shown_comment cs) = List.length cs) /\
  (forall (now : Datetime.datetime) (g_user : option AuthorInfo.user_row) (jid : Z)
          (req : Flask.request) (d : AuthorInfo.db),
     Py.truthy (Flask.get "comment_text" (Flask.form req)) = false ->
     Flask.db_after (AuthorInfo.add_comment now g_user jid req d) = d /\
     (g_user <> None ->
      AuthorInfo.add_comment now g_user jid req d
      = Flask.reply d [] (Flask.redirect (Flask.journal_detail_page jid)))).
Proof.
  split; [| split; [| split]].
  - intros now user jid req text d j l G N L D.
    exact (add_comment_step now user jid req text d j l G N L D).
  - intros jid cs d j l L D F.
    destruct (add_comment_sequence hash ge affinity jid cs d j l L D F) as (j' & A & B & C & _).
    exists j'. repeat split; assumption.
  - intros now0 user0 viewer req0 d cs V H F jid d'. subst jid d'.
    destruct (submit_created affinity now0 user0 req0 d H) as (name & url & _ & _ & _ & E).
    rewrite E. cbn [Flask.reply Flask.db_after].
    match goal with
    | |- context [AuthorInfo.serve hash ge affinity _ ?D] => set (d0 := D)
    end.
    assert (L0 : AuthorInfo.journal_by_id (AuthorInfo.new_journal_id d) d0
                 = Some (AuthorInfo.inserted_row affinity now0 (AuthorInfo.new_journal_id d)
                           (Flask.form req0) name url
                           (Json.dumps [AuthorInfo.creation_entry now0
                                          (AuthorInfo.username user0)])))
      by (apply get_appended; reflexivity).
    assert (F1 : Forall (fun c : Datetime.datetime * AuthorInfo.user_row * string =>
                           snd c <> "") cs)
      by (eapply Forall_impl; [| exact F]; intros c [_ N]; exact N).
    assert (F2 : Forall (fun c : Datetime.datetime * AuthorInfo.user_row * string =>
                           Datetime.valid (fst (fst c)) = true) cs)
      by (eapply Forall_impl; [| exact F]; intros c [N _]; exact N).
    destruct (add_comment_sequence hash ge affinity (AuthorInfo.new_journal_id d) cs d0 _ []
                L0 eq_refl F1) as (j' & Lj & Dj & Uj & Hj & _ & _).
    exists j'. split; [exact Lj |]. split; [exact Uj |]. split; [| apply length_map].
    unfold AuthorInfo.journal_detail, Flask.login_required.
    rewrite Lj, Hj, Dj.
    cbn [AuthorInfo.inserted_row AuthorInfo.update_history app].
    unfold AuthorInfo.or_empty_list at 1. rewrite truthy_dumps.
    rewrite loads_dumps by (constructor; [apply creation_entry_distinct | constructor]).
    cbn [AuthorInfo.with_timestamps].
    rewrite (with_timestamp_creation_entry now0 _ V).
    rewrite (with_timestamps_stored cs F2). reflexivity.
  - intros now g_user jid req d T. unfold AuthorInfo.add_comment, Flask.login_required.
    destruct g_user as [user |].
    + destruct (Flask.get "comment_text" (Flask.form req)) as [text |].
      * rewrite T. split; [reflexivity | intros _; reflexivity].
      * split; [reflexivity | intros _; reflexivity].
    + split; [reflexivity | congruence].
Qed.

(** ** Flags *)

Lemma flags_bump (j : AuthorInfo.journal_row) (m : Z) :
  AuthorInfo.flags_count j = Sql.Integer m -> m < Sql.int64_max ->
  AuthorInfo.flags_count (AuthorInfo.bump_flags j) = Sql.Integer (m + 1).
Proof.
  intros E B. cbn [AuthorInfo.bump_flags AuthorInfo.flags_count]. rewrite E.
  unfold Sql.add1. destruct (Z.ltb_spec m Sql.int64_max); [reflexivity | lia].
Qed.

Lemma serve_absent (hash : string -> string -> string)
    (ge : Sql.cell -> Py.float -> bool)
    (affinity : Sql.column_type -> string -> Sql.cell)
    (jid : Z) (calls : list AuthorInfo.call)
    (d : AuthorInfo.db) :
  AuthorInfo.journal_by_id jid d = None -> jid <= AuthorInfo.journals_seq d ->
  AuthorInfo.journal_by_id jid (AuthorInfo.serve hash ge affinity calls d) = None.
Proof.
  intros L B.
  pose proof (serve_keeps hash ge affinity (fun _ => False) jid calls d B
                (fun _ F => F) (fun _ _ _ _ F => F)) as K.
  rewrite L in K. specialize (K I).
  destruct (AuthorInfo.journal_by_id jid (AuthorInfo.serve hash ge affinity calls d));
    [contradiction | reflexivity].
Qed.

Lemma flags_never_decrease (hash : string -> string -> string)
    (ge : Sql.cell -> Py.float -> bool)
    (affinity : Sql.column_type -> string -> Sql.cell)
    (jid : Z) (calls : list AuthorInfo.call) :
  forall (d : AuthorInfo.db) (j : AuthorInfo.journal_row) (m : Z),
    AuthorInfo.journal_by_id jid d = Some j -> jid <= AuthorInfo.journals_seq d ->
    AuthorInfo.flags_count j = Sql.Integer m ->
    m + Z.of_nat (List.length calls) <= Sql.int64_max ->
    match AuthorInfo.journal_by_id jid (AuthorInfo.serve hash ge affinity calls d) with
    | Some j' =>
        exists m', AuthorInfo.flags_count j' = Sql.Integer m' /\
                   m <= m' <= m + Z.of_nat (List.length calls)
    | None => True
    end.
Proof.
  induction calls as [| c calls IH]; intros d j m L B E M.
  - cbn [AuthorInfo.serve fold_left]. rewrite L. exists m. split; [exact E |].
    cbn [List.length]. lia.
  - cbn [AuthorInfo.serve fold_left]. cbn [List.length] in M |- *.
    pose proof (handle_seq hash ge affinity c d) as S.
    destruct (handle_lookup hash ge affinity c d jid j L) as [A | [A | [A | (text & A)]]].
    + fold (AuthorInfo.serve hash ge affinity calls
              (Flask.db_after (AuthorInfo.handle hash ge affinity c d))).
      rewrite serve_absent; [exact I | exact A | lia].
    + specialize (IH _ j m A ltac:(lia) E ltac:(lia)).
      fold (AuthorInfo.serve hash ge affinity calls
              (Flask.db_after (AuthorInfo.handle hash ge affinity c d))).
      destruct (AuthorInfo.journal_by_id jid _) as [j' |]; [| exact I].
      destruct IH as (m' & E' & R). exists m'. split; [exact E' | lia].
    + specialize (IH _ _ (m + 1) A ltac:(lia) (flags_bump j m E ltac:(lia)) ltac:(lia)).
      fold (AuthorInfo.serve hash ge affinity calls
              (Flask.db_after (AuthorInfo.handle hash ge affinity c d))).
      destruct (AuthorInfo.journal_by_id jid _) as [j' |]; [| exact I].
      destruct IH as (m' & E' & R). exists m'. split; [exact E' | lia].
    + specialize (IH _ _ m A ltac:(lia) E ltac:(lia)).
      fold (AuthorInfo.serve hash ge affinity calls
              (Flask.db_after (AuthorInfo.handle hash ge affinity c d))).
      destruct (AuthorInfo.journal_by_id jid _) as [j' |]; [| exact I].
      destruct IH as (m' & E' & R). exists m'. split; [exact E' | lia].
Qed.

Lemma flag_sequence (hash : string -> string -> string)
    (ge : Sql.cell -> Py.float -> bool)
    (affinity : Sql.column_type -> string -> Sql.cell)
    (jid : Z)
    (fs : list (Datetime.datetime * AuthorInfo.user_row)) :
  forall (d : AuthorInfo.db) (j : AuthorInfo.journal_row) (n : Z),
    AuthorInfo.journal_by_id jid d = Some j ->
    AuthorInfo.flags_count j = Sql.Integer n ->
    n + Z.of_nat (List.length fs) <= Sql.int64_max ->
    exists j',
      AuthorInfo.journal_by_id jid
        (AuthorInfo.serve hash ge affinity (map (AuthorInfo.flag_call jid) fs) d) = Some j' /\
      AuthorInfo.flags_count j' = Sql.Integer (n + Z.of_nat (List.length fs)) /\
      AuthorInfo.last_updated j' = AuthorInfo.last_updated j /\
      AuthorInfo.created_at j' = AuthorInfo.created_at j /\
      AuthorInfo.comments j' = AuthorInfo.comments j /\
      AuthorInfo.update_history j' = AuthorInfo.update_history j.
Proof.
  induction fs as [| f fs IH]; intros d j n L E M.
  - exists j. cbn [map AuthorInfo.serve fold_left List.length].
    rewrite Z.add_0_r. repeat split; assumption.
  - cbn [map AuthorInfo.serve fold_left]. cbn [List.length] in M |- *.
    assert (L' : AuthorInfo.journal_by_id jid
                   (Flask.db_after
                      (AuthorInfo.handle hash ge affinity (AuthorInfo.flag_call jid f) d))
                 = Some (AuthorInfo.bump_flags j)).
    { change (Flask.db_after (AuthorInfo.handle hash ge affinity (AuthorInfo.flag_call jid f) d))
        with (AuthorInfo.update_where_id jid AuthorInfo.bump_flags d).
      rewrite lookup_update_same by apply bump_flags_id. rewrite L. reflexivity. }
    destruct (IH _ _ (n + 1) L' (flags_bump j n E ltac:(lia)) ltac:(lia))
      as (j' & A & B & C & D & F & G).
    exists j'. split; [exact A |]. split; [rewrite B; f_equal; lia |].
    repeat split; assumption.
Qed.

(** C4: [flag_journal] on a stored journal whose [flags_count] is an
    integer below the largest 64-bit one (a journal [submit] stored starts
    at 0) raises it by exactly 1 and leaves [last_updated] and every other
    column alone; no sequence of requests of any kind lowers it while the
    row exists; and N flag requests raise it by exactly N. *)
Theorem flag_raises_flags_count_by_one
    (hash : string -> string -> string) (ge : Sql.cell -> Py.float -> bool)
    (affinity : Sql.column_type -> string -> Sql.cell) :
  (forall (user : AuthorInfo.user_row) (jid : Z) (d : AuthorInfo.db)
          (j : AuthorInfo.journal_row) (n : Z),
     AuthorInfo.journal_by_id jid d = Some j ->
     AuthorInfo.flags_count j = Sql.Integer n -> n < Sql.int64_max ->
     let r := AuthorInfo.flag_journal (Some user) jid d in
     Flask.resp r = Flask.redirect (Flask.journal_detail_page jid) /\
     exists j',
       AuthorInfo.journal_by_id jid (Flask.db_after r) = Some j' /\
       AuthorInfo.flags_count j' = Sql.Integer (n + 1) /\
       AuthorInfo.last_updated j' = AuthorInfo.last_updated j /\
       AuthorInfo.created_at j' = AuthorInfo.created_at j /\
       AuthorInfo.comments j' = AuthorInfo.comments j /\
       AuthorInfo.update_history j' = AuthorInfo.update_history j) /\
  (forall (jid : Z) (calls : list AuthorInfo.call) (d : AuthorInfo.db)
          (j : AuthorInfo.journal_row) (n : Z),
     AuthorInfo.journal_by_id jid d = Some j -> jid <= AuthorInfo.journals_seq d ->
     AuthorInfo.flags_count j = Sql.Integer n ->
     n + Z.of_nat (List.length calls) <= Sql.int64_max ->
     match AuthorInfo.journal_by_id jid (AuthorInfo.serve hash ge affinity calls d) with
     | Some j' => exists m, AuthorInfo.flags_count j' = Sql.Integer m /\ n <= m
     | None => True
     end) /\
  (forall (jid : Z) (fs : list (Datetime.datetime * AuthorInfo.user_row))
          (d : AuthorInfo.db) (j : AuthorInfo.journal_row) (n : Z),
     AuthorInfo.journal_by_id jid d = Some j ->
     AuthorInfo.flags_count j = Sql.Integer n ->
     n + Z.of_nat (List.length fs) <= Sql.int64_max ->
     exists j',
       AuthorInfo.journal_by_id jid
         (AuthorInfo.serve hash ge affinity (map (AuthorInfo.flag_call jid) fs) d) = Some j' /\
       AuthorInfo.flags_count j' = Sql.Integer (n + Z.of_nat (List.length fs)) /\
       AuthorInfo.last_updated j' = AuthorInfo.last_updated j).
Proof.
  split; [| split].
  - intros user jid d j n L E B r. subst r.
    unfold AuthorInfo.flag_journal, Flask.login_required.
    cbn [Flask.reply Flask.resp Flask.db_after].
    split; [reflexivity |]. exists (AuthorInfo.bump_flags j). split.
    + rewrite lookup_update_same by apply bump_flags_id. rewrite L. reflexivity.
    + split; [exact (flags_bump j n E B) |]. repeat split.
  - intros jid calls d j n L B E M.
    pose proof (flags_never_decrease hash ge affinity jid calls d j n L B E M) as H.
    destruct (AuthorInfo.journal_by_id jid (AuthorInfo.serve hash ge affinity calls d)) as [j' |];
      [| exact I].
    destruct H as (m & E' & R). exists m. split; [exact E' | lia].
  - intros jid fs d j n L E M.
    destruct (flag_sequence hash ge affinity jid fs d j n L E M) as (j' & A & B & C & _).
    exists j'. repeat split; assumption.
Qed.

(** ** [created_at] and [last_updated] *)

Lemma handle_keeps_row (hash : string -> string -> string)
    (ge : Sql.cell -> Py.float -> bool)
    (affinity : Sql.column_type -> string -> Sql.cell)
    (c : AuthorInfo.call) (d : AuthorInfo.db)
    (jid : Z) :
  (forall k, AuthorInfo.what c <> AuthorInfo.Delete k) ->
  AuthorInfo.journal_by_id jid d <> None ->
  AuthorInfo.journal_by_id jid (Flask.db_after (AuthorInfo.handle hash ge affinity c d)) <> None.
Proof.
  intros ND L. destruct (AuthorInfo.journal_by_id jid d) as [j |] eqn:E; [| congruence].
  destruct (handle_cases hash ge affinity c d)
    as [[J _] | [(row & _ & J & _) | [(k & W & _) | [(k & J) | (k & text & J)]]]].
  - rewrite (lookup_depends_on_journals jid d _ J), E. discriminate.
  - unfold AuthorInfo.journal_by_id in *. rewrite J, find_app, E. discriminate.
  - exfalso. exact (ND k W).
  - rewrite J. destruct (Z.eq_dec jid k) as [-> | N].
    + rewrite lookup_update_same by apply bump_flags_id. rewrite E. discriminate.
    + rewrite lookup_update_other; [rewrite E; discriminate | exact N | apply bump_flags_id].
  - rewrite J. destruct (Z.eq_dec jid k) as [-> | N].
    + rewrite lookup_update_same by apply set_comments_id. rewrite E. discriminate.
    + rewrite lookup_update_other;
        [rewrite E; discriminate | exact N | apply set_comments_id].
Qed.

Lemma serve_keeps_row (hash : string -> string -> string)
    (ge : Sql.cell -> Py.float -> bool)
    (affinity : Sql.column_type -> string -> Sql.cell)
    (jid : Z) (calls : list AuthorInfo.call) :
  forall d : AuthorInfo.db,
    Forall (fun c => forall k, AuthorInfo.what c <> AuthorInfo.Delete k) calls ->
    AuthorInfo.journal_by_id jid d <> None ->
    AuthorInfo.journal_by_id jid (AuthorInfo.serve hash ge affinity calls d) <> None.
Proof.
  induction calls as [| c calls IH]; intros d F L.
  - exact L.
  - inversion F as [| ? ? ND F']; subst. cbn [AuthorInfo.serve fold_left].
    apply (IH _ F'). exact (handle_keeps_row hash ge affinity c d jid ND L).
Qed.

(** C9 (as the claim states it, refuted): [add_comment] stores the reading
    of the clock it takes and compares it with nothing.  A comment served
    at a reading one hour before the journal was created leaves the journal
    with a [last_updated] before its [created_at], as datetimes and as the
    two TEXT columns compare. *)
Lemma comment_at_an_earlier_clock_predates_creation :
  let d' := Flask.db_after
              (AuthorInfo.add_comment Sample.t_early (Some Sample.bob) 1
                 (Flask.post [("comment_text", "first")]) Sample.sqlite_db1) in
  Datetime.valid Sample.t_early = true /\
  exists j,
    AuthorInfo.journal_by_id 1 d' = Some j /\
    AuthorInfo.created_at j = Datetime.isoformat Sample.t0 /\
    AuthorInfo.last_updated j = Datetime.isoformat Sample.t_early /\
    Datetime.key Sample.t_early < Datetime.key Sample.t0 /\
    String.leb (AuthorInfo.created_at j) (AuthorInfo.last_updated j) = false.
Proof.
  cbv zeta. split; [reflexivity |]. eexists. split; [vm_compute; reflexivity |].
  repeat split; vm_compute; reflexivity.
Qed.

(** C9 (amended): after [submit] has stored a journal at the clock reading
    [now0], and any sequence of requests (comments, flags, searches and
    every other route) whose clock readings are not before [now0], the
    journal, as long as its row exists, has the ISO text of [now0] as
    [created_at] and the ISO text of a reading not before [now0] as
    [last_updated], so that, as the two TEXT columns compare,
    [created_at <= last_updated]; and the row does exist when no request of
    the sequence is a delete. *)
Theorem last_updated_not_before_created_at
    (hash : string -> string -> string) (ge : Sql.cell -> Py.float -> bool)
    (affinity : Sql.column_type -> string -> Sql.cell)
    (now0 : Datetime.datetime) (user0 : AuthorInfo.user_row) (req0 : Flask.request)
    (d : AuthorInfo.db) (calls : list AuthorInfo.call) :
  Datetime.valid now0 = true ->
  Flask.resp (AuthorInfo.submit affinity now0 (Some user0) req0 d)
  = Flask.redirect Flask.journals_list ->
  Forall (fun c => Datetime.valid (AuthorInfo.clock c) = true /\
                   Datetime.le now0 (AuthorInfo.clock c)) calls ->
  let d' := AuthorInfo.serve hash ge affinity calls
              (Flask.db_after (AuthorInfo.submit affinity now0 (Some user0) req0 d)) in
  match AuthorInfo.journal_by_id (AuthorInfo.new_journal_id d) d' with
  | Some j =>
      AuthorInfo.created_at j = Datetime.isoformat now0 /\
      (exists t, AuthorInfo.last_updated j = Datetime.isoformat t /\ Datetime.le now0 t) /\
      String.leb (AuthorInfo.created_at j) (AuthorInfo.last_updated j) = true
  | None => True
  end /\
  (Forall (fun c => forall k, AuthorInfo.what c <> AuthorInfo.Delete k) calls ->
   AuthorInfo.journal_by_id (AuthorInfo.new_journal_id d) d' <> None).
Proof.
  intros V H F d'. subst d'.
  destruct (submit_created affinity now0 user0 req0 d H) as (name & url & _ & _ & _ & E).
  rewrite E. cbn [Flask.reply Flask.db_after]. split.
  - pose proof (serve_keeps hash ge affinity
                  (fun j => AuthorInfo.created_at j = Datetime.isoformat now0 /\
                            exists t, AuthorInfo.last_updated j = Datetime.isoformat t /\
                                      Datetime.le now0 t /\ Datetime.valid t = true)
                  (AuthorInfo.new_journal_id d) calls) as K.
    match goal with
    | |- context [AuthorInfo.serve hash ge affinity calls ?D] => specialize (K D)
    end.
    match type of K with
    | ?A -> ?B -> ?C -> ?D -> _ =>
        assert (HA : A); [| assert (HB : B); [| assert (HC : C); [| assert (HD : D)]]]
    end.
    + cbn [AuthorInfo.journals_seq]. lia.
    + intros j P. exact P.
    + intros c text j I [C _]. split; [exact C |].
      exists (AuthorInfo.clock c). rewrite Forall_forall in F.
      destruct (F c I) as [Vc Lc]. split; [reflexivity | split; assumption].
    + rewrite get_appended by reflexivity. split; [reflexivity |].
      exists now0. split; [reflexivity |]. split; [unfold Datetime.le; lia | exact V].
    + specialize (K HA HB HC HD).
      destruct (AuthorInfo.journal_by_id (AuthorInfo.new_journal_id d) _) as [j |];
        [| exact I].
      destruct K as (C & t & U & Lt & Vt).
      split; [exact C |]. split; [exists t; split; assumption |].
      rewrite C, U. exact (isoformat_mono now0 t V Vt Lt).
  - intros ND. apply (serve_keeps_row hash ge affinity _ calls _ ND).
    rewrite get_appended by reflexivity. discriminate.
Qed.

(** ** Worked instances *)

(** C1 at the form with negative numbers, with the stand-ins for the
    backend and for the affinity: the limit that is not sent is stored as
    NULL, the one sent as [-5] is read by [int] and held as the backend
    returns it, and by the SQLite application as the INTEGER column stores
    the text. *)
Lemma create_stores_numbers_witness :
  Flask.resp (App.submit Sample.column_float Sample.column_integer Sample.t0 Sample.t0
                Sample.t0 (Some Sample.alice) (Flask.post Sample.negative_form)
                Sample.app_db)
  = Flask.redirect Flask.journals_list /\
  Flask.resp (AuthorInfo.submit Sample.affinity Sample.t0 (Some Sample.bob)
                (Flask.post Sample.negative_form) Sample.sqlite_db)
  = Flask.redirect Flask.journals_list /\
  (exists j,
     App.get_journal (App.new_journal_id Sample.app_db)
       (Flask.db_after
          (App.submit Sample.column_float Sample.column_integer Sample.t0 Sample.t0
             Sample.t0 (Some Sample.alice) (Flask.post Sample.negative_form)
             Sample.app_db)) = Some j /\
     App.reference_count_limit j = None /\
     exists n, Py.int "-5" = Some n /\
               Sample.column_integer n = Some (App.word_count_limit j)) /\
  (exists j,
     AuthorInfo.journal_by_id (AuthorInfo.new_journal_id Sample.sqlite_db)
       (Flask.db_after (AuthorInfo.submit Sample.affinity Sample.t0 (Some Sample.bob)
                          (Flask.post Sample.negative_form) Sample.sqlite_db)) = Some j /\
     AuthorInfo.reference_count_limit j = Sql.CNull /\
     AuthorInfo.word_count_limit j = Sample.affinity Sql.INTEGER "-5").
Proof.
  assert (H : Flask.resp (App.submit Sample.column_float Sample.column_integer Sample.t0
                            Sample.t0 Sample.t0 (Some Sample.alice)
                            (Flask.post Sample.negative_form) Sample.app_db)
              = Flask.redirect Flask.journals_list) by reflexivity.
  assert (H' : Flask.resp (AuthorInfo.submit Sample.affinity Sample.t0 (Some Sample.bob)
                             (Flask.post Sample.negative_form) Sample.sqlite_db)
               = Flask.redirect Flask.journals_list) by reflexivity.
  split; [exact H |]. split; [exact H' |]. split.
  - destruct (proj1 (proj1 create_stores_numbers_as_parsed_or_unset
                       Sample.column_float Sample.column_integer
                       Sample.t0 Sample.t0 Sample.t0 Sample.alice
                       (Flask.post Sample.negative_form) Sample.app_db) H)
      as (j & L & _ & _ & R & _ & W & _).
    exists j. split; [exact L |]. split.
    + apply R. reflexivity.
    + apply W; [reflexivity | discriminate].
  - destruct (proj2 create_stores_numbers_as_parsed_or_unset Sample.affinity
                Sample.t0 Sample.bob (Flask.post Sample.negative_form) Sample.sqlite_db H')
      as (j & L & _ & _ & R & _ & W & _).
    exists j. split; [exact L |]. split.
    + apply R. reflexivity.
    + apply W; [reflexivity | discriminate].
Defined.

(** C2 at the spec's example, [Cell] submitted by alice, respectively by
    user1. *)
Lemma create_then_get_witness :
  Flask.resp (App.submit Sample.column_float Sample.column_integer Sample.t0 Sample.t0
                Sample.t0 (Some Sample.alice)
                (Flask.post Sample.cell_form) Sample.app_db)
  = Flask.redirect Flask.journals_list /\
  Datetime.valid Sample.t0 = true /\
  Flask.resp (AuthorInfo.submit Sample.affinity Sample.t0 (Some Sample.bob)
                (Flask.post Sample.cell_form) Sample.sqlite_db)
  = Flask.redirect Flask.journals_list /\
  (exists j,
     App.get_journal 1 Sample.app_db1 = Some j /\
     App.flags_count j = Some 0 /\
     App.journal_detail (Some Sample.admin) 1 Sample.app_db1
     = Flask.reply Sample.app_db1 []
         (Flask.render_template "journal_detail.html"
            (App.JournalDetail j
               [[("timestamp", "2024-01-15T10:00:00"); ("author", "alice");
                 ("changes", "Initial creation.")]]
               []))) /\
  (exists j,
     AuthorInfo.journal_by_id 1 Sample.sqlite_db1 = Some j /\
     AuthorInfo.flags_count j = Sql.Integer 0 /\
     AuthorInfo.created_at j = "2024-01-15T10:00:00" /\
     AuthorInfo.last_updated j = "2024-01-15T10:00:00" /\
     AuthorInfo.journal_detail (Some Sample.root) 1 Sample.sqlite_db1
     = Flask.reply Sample.sqlite_db1 []
         (Flask.render_template "journal_detail.html"
            (AuthorInfo.JournalDetail
               {| AuthorInfo.row := j;
                  AuthorInfo.update_history_list :=
                    [[("timestamp", AuthorInfo.VDatetime Sample.t0);
                      ("author", AuthorInfo.VStr "user1");
                      ("changes", AuthorInfo.VStr "Initial creation.")]];
                  AuthorInfo.comments_list := [] |}))).
Proof.
  assert (H : Flask.resp (App.submit Sample.column_float Sample.column_integer Sample.t0 Sample.t0
                Sample.t0 (Some Sample.alice)
                            (Flask.post Sample.cell_form) Sample.app_db)
              = Flask.redirect Flask.journals_list) by reflexivity.
  assert (V : Datetime.valid Sample.t0 = true) by reflexivity.
  assert (H' : Flask.resp (AuthorInfo.submit Sample.affinity Sample.t0 (Some Sample.bob)
                             (Flask.post Sample.cell_form) Sample.sqlite_db)
               = Flask.redirect Flask.journals_list) by reflexivity.
  split; [exact H |]. split; [exact V |]. split; [exact H' |]. split.
  - exact (proj1 create_then_get_shows_initial_history
             Sample.column_float Sample.column_integer
             Sample.t0 Sample.t0 Sample.t0 Sample.alice Sample.admin
             (Flask.post Sample.cell_form) Sample.app_db H).
  - exact (proj2 create_then_get_shows_initial_history Sample.affinity
             Sample.t0 Sample.bob Sample.root (Flask.post Sample.cell_form)
             Sample.sqlite_db V H').
Defined.

(** C3 at a journal user1 submitted and two comments. *)
Lemma add_comment_witness :
  Datetime.valid Sample.t0 = true /\
  Forall (fun c : Datetime.datetime * AuthorInfo.user_row * string =>
            Datetime.valid (fst (fst c)) = true /\ snd c <> "") Sample.two_comments /\
  exists j',
    AuthorInfo.journal_by_id 1
      (AuthorInfo.serve Sample.hash Sample.ge Sample.affinity
         (map (AuthorInfo.comment_call 1) Sample.two_comments) Sample.sqlite_db1) = Some j' /\
    AuthorInfo.last_updated j' = "2024-02-01T08:00:00" /\
    AuthorInfo.journal_detail (Some Sample.bob) 1
      (AuthorInfo.serve Sample.hash Sample.ge Sample.affinity
         (map (AuthorInfo.comment_call 1) Sample.two_comments) Sample.sqlite_db1)
    = Flask.reply
        (AuthorInfo.serve Sample.hash Sample.ge Sample.affinity
           (map (AuthorInfo.comment_call 1) Sample.two_comments) Sample.sqlite_db1)
        []
        (Flask.render_template "journal_detail.html"
           (AuthorInfo.JournalDetail
              {| AuthorInfo.row := j';
                 AuthorInfo.update_history_list :=
                   [[("timestamp", AuthorInfo.VDatetime Sample.t0);
                     ("author", AuthorInfo.VStr "user1");
                     ("changes", AuthorInfo.VStr "Initial creation.")]];
                 AuthorInfo.comments_list :=
                   [[("author", AuthorInfo.VStr "user1"); ("text", AuthorInfo.VStr "first");
                     ("timestamp", AuthorInfo.VDatetime Sample.t1)];
                    [("author", AuthorInfo.VStr "admin"); ("text", AuthorInfo.VStr "second");
                     ("timestamp", AuthorInfo.VDatetime Sample.t2)]] |})).
Proof.
  assert (V : Datetime.valid Sample.t0 = true) by reflexivity.
  assert (F : Forall (fun c : Datetime.datetime * AuthorInfo.user_row * string =>
                        Datetime.valid (fst (fst c)) = true /\ snd c <> "")
                     Sample.two_comments).
  { repeat constructor; discriminate. }
  split; [exact V |]. split; [exact F |].
  destruct (proj1 (proj2 (proj2 (add_comment_appends_in_call_order Sample.hash Sample.ge
                                   Sample.affinity)))
              Sample.t0 Sample.bob Sample.bob (Flask.post Sample.cell_form)
              Sample.sqlite_db Sample.two_comments V eq_refl F)
    as (j' & L & U & D & _).
  exists j'. split; [exact L |]. split; [exact U | exact D].
Defined.

(** C4 at a journal user1 submitted and three flags. *)
Lemma flag_witness :
  exists j',
    AuthorInfo.journal_by_id 1
      (AuthorInfo.serve Sample.hash Sample.ge Sample.affinity
         (map (AuthorInfo.flag_call 1)
              [(Sample.t1, Sample.bob); (Sample.t1, Sample.root); (Sample.t2, Sample.bob)])
         Sample.sqlite_db1) = Some j' /\
    AuthorInfo.flags_count j' = Sql.Integer 3 /\
    AuthorInfo.last_updated j' = "2024-01-15T10:00:00".
Proof.
  destruct (proj2 (proj2 (flag_raises_flags_count_by_one Sample.hash Sample.ge Sample.affinity))
              1 [(Sample.t1, Sample.bob); (Sample.t1, Sample.root); (Sample.t2, Sample.bob)]
              Sample.sqlite_db1 _ 0 eq_refl eq_refl ltac:(vm_compute; discriminate))
    as (j' & L & C & U).
  exists j'. split; [exact L |]. split; [exact C | exact U].
Defined.

(** C5 at alice and user1, neither an admin. *)
Lemma delete_by_non_admin_witness :
  App.role Sample.alice <> "admin" /\ AuthorInfo.role Sample.bob <> "admin" /\
  Flask.db_after (App.delete_journal (Some Sample.alice) 1 Sample.app_db1) = Sample.app_db1 /\
  Flask.flashed (App.delete_journal (Some Sample.alice) 1 Sample.app_db1)
  = ["You do not have permission to delete."] /\
  Flask.db_after (AuthorInfo.delete_journal (Some Sample.bob) 1 Sample.sqlite_db1)
  = Sample.sqlite_db1 /\
  Flask.flashed (AuthorInfo.delete_journal (Some Sample.bob) 1 Sample.sqlite_db1)
  = ["You do not have permission to delete."].
Proof.
  assert (A : App.role Sample.alice <> "admin") by discriminate.
  assert (B : AuthorInfo.role Sample.bob <> "admin") by discriminate.
  split; [exact A |]. split; [exact B |].
  destruct (proj1 delete_by_non_admin_is_refused Sample.alice 1 Sample.app_db1 A)
    as (_ & F1 & D1 & _).
  destruct (proj2 delete_by_non_admin_is_refused Sample.bob 1 Sample.sqlite_db1 B)
    as (_ & F2 & D2 & _).
  repeat split; assumption.
Defined.

(** C6 at the admin and the id 42, which no journal has: the SQLite
    application reports a deletion, [src/app.py] answers 404. *)
Lemma authorinfo_delete_of_missing_id_witness :
  AuthorInfo.role Sample.root = "admin" /\
  AuthorInfo.journal_by_id 42 Sample.sqlite_db1 = None /\
  AuthorInfo.delete_journal (Some Sample.root) 42 Sample.sqlite_db1
  = Flask.reply Sample.sqlite_db1 ["Journal entry successfully deleted."]
                (Flask.redirect Flask.journals_list) /\
  App.delete_journal (Some Sample.admin) 42 Sample.app_db1
  = Flask.reply Sample.app_db1 [] (Flask.abort 404).
Proof.
  split; [reflexivity |]. split; [reflexivity |]. split.
  - exact (authorinfo_delete_of_missing_id_reports_success Sample.root 42 Sample.sqlite_db1
             eq_refl eq_refl).
  - reflexivity.
Defined.

(** C7 at the impact-factor argument [-1]. *)
Lemma search_witness :
  Flask.get "impact_factor" (Flask.args Sample.negative_search) = Some "-1" /\
  (exists x, Py.float_of_str "-1" = Some x /\ Py.lt0 x = true) /\
  AuthorInfo.search Sample.ge (Some Sample.bob) Sample.negative_search Sample.sqlite_legacy
  = AuthorInfo.search Sample.ge (Some Sample.bob)
      (AuthorInfo.without_arg "impact_factor" Sample.negative_search) Sample.sqlite_legacy.
Proof.
  assert (X : exists x, Py.float_of_str "-1" = Some x /\ Py.lt0 x = true).
  { eexists. split; vm_compute; reflexivity. }
  split; [reflexivity |]. split; [exact X |].
  exact (proj1 (search_drops_malformed_or_negative_impact_factor Sample.ge (Some Sample.bob)
                  Sample.negative_search Sample.sqlite_legacy "-1" eq_refl (or_intror X))).
Defined.

(** C8 at two registrations of [carol]. *)
Lemma second_registration_witness :
  let form1 := [("username", "carol"); ("password", "pw1")] in
  let form2 := [("username", "carol"); ("password", "pw2")] in
  let first := AuthorInfo.register Sample.hash "s1" None (Flask.post form1) Sample.sqlite_db in
  let second :=
    AuthorInfo.register Sample.hash "s2" None (Flask.post form2) (Flask.db_after first) in
  Flask.resp first = Flask.redirect Flask.login /\
  Flask.resp second = Flask.render_template "register.html" AuthorInfo.NoContext /\
  Flask.flashed second = ["User carol is already registered."] /\
  Flask.db_after second = Flask.db_after first /\
  AuthorInfo.user_by_name "carol" (Flask.db_after second)
  = Some {| AuthorInfo.id := 3; AuthorInfo.username := "carol";
            AuthorInfo.password_hash := "s1$pw1"; AuthorInfo.role := "user" |}.
Proof.
  cbv zeta.
  destruct (proj2 (second_registration_of_a_username_conflicts Sample.hash "s1" "s2"
                     [("username", "carol"); ("password", "pw1")]
                     [("username", "carol"); ("password", "pw2")]
                     "carol" "pw1" "pw2" eq_refl eq_refl eq_refl eq_refl
                     ltac:(discriminate) ltac:(discriminate) ltac:(discriminate))
              Sample.sqlite_db)
    as (R & F & D & U).
  split; [reflexivity |]. split; [exact R |]. split; [exact F |]. split; [exact D |].
  exact (U eq_refl).
Defined.

(** C9 at a comment, a flag and a search after the submission. *)
Lemma last_updated_witness :
  Forall (fun c => Datetime.valid (AuthorInfo.clock c) = true /\
                   Datetime.le Sample.t0 (AuthorInfo.clock c)) Sample.later_calls /\
  exists j,
    AuthorInfo.journal_by_id 1
      (AuthorInfo.serve Sample.hash Sample.ge Sample.affinity Sample.later_calls
         Sample.sqlite_db1) = Some j /\
    AuthorInfo.created_at j = "2024-01-15T10:00:00" /\
    String.leb (AuthorInfo.created_at j) (AuthorInfo.last_updated j) = true.
Proof.
  assert (F : Forall (fun c => Datetime.valid (AuthorInfo.clock c) = true /\
                               Datetime.le Sample.t0 (AuthorInfo.clock c))
                     Sample.later_calls).
  { repeat constructor; unfold Datetime.le; vm_compute; discriminate. }
  split; [exact F |].
  destruct (last_updated_not_before_created_at Sample.hash Sample.ge Sample.affinity
              Sample.t0 Sample.bob
              (Flask.post Sample.cell_form) Sample.sqlite_db Sample.later_calls
              eq_refl eq_refl F) as [P Q].
  change (AuthorInfo.new_journal_id Sample.sqlite_db) with 1 in P, Q.
  change (Flask.db_after (AuthorInfo.submit Sample.affinity Sample.t0 (Some Sample.bob)
                            (Flask.post Sample.cell_form) Sample.sqlite_db))
    with Sample.sqlite_db1 in P, Q.
  destruct (AuthorInfo.journal_by_id 1
              (AuthorInfo.serve Sample.hash Sample.ge Sample.affinity Sample.later_calls
                 Sample.sqlite_db1))
    as [j |].
  - exists j. destruct P as (C & _ & S). split; [reflexivity |]. split; [exact C | exact S].
  - exfalso. apply Q; [| reflexivity].
    repeat constructor; intros k; discriminate.
Defined.

(** C10 at a row whose two columns are NULL. *)
Lemma detail_null_column_witness :
  App.journal_detail (Some Sample.alice) 7 Sample.app_legacy
  = Flask.reply Sample.app_legacy []
      (Flask.render_template "journal_detail.html"
         (App.JournalDetail Sample.legacy_journal [] [])) /\
  AuthorInfo.journal_detail (Some Sample.bob) 7 Sample.sqlite_legacy
  = Flask.reply Sample.sqlite_legacy []
      (Flask.render_template "journal_detail.html"
         (AuthorInfo.JournalDetail
            {| AuthorInfo.row := Sample.legacy_row; AuthorInfo.update_history_list := [];
               AuthorInfo.comments_list := [] |})).
Proof.
  split.
  - exact (proj2 (proj2 (proj1 detail_reads_null_column_as_empty Sample.alice 7
                           Sample.app_legacy Sample.legacy_journal eq_refl))
             eq_refl eq_refl).
  - exact (proj2 (proj2 (proj2 detail_reads_null_column_as_empty Sample.bob 7
                           Sample.sqlite_legacy Sample.legacy_row eq_refl))
             eq_refl eq_refl).
Defined.

(** * More of the two applications *)

(** ** Sessions and the login gate *)

Lemma app_load_some (s : Flask.session) (d : App.db) (u : App.User) :
  App.load_logged_in_user s d = Some u ->
  exists uid, s = Some uid /\ uid <> 0 /\ In u (App.users d) /\ App.user_id u = uid.
Proof.
  unfold App.load_logged_in_user, App.get_user. destruct s as [uid |]; [| discriminate].
  destruct (Z.eqb_spec uid 0); [discriminate |]. intros H.
  apply find_some in H. destruct H as [I E]. apply Z.eqb_eq in E.
  exists uid. repeat split; assumption.
Qed.

Lemma load_some (s : Flask.session) (d : AuthorInfo.db) (u : AuthorInfo.user_row) :
  AuthorInfo.load_logged_in_user s d = Some u ->
  exists uid, s = Some uid /\ uid <> 0 /\ In u (AuthorInfo.users d) /\ AuthorInfo.id u = uid.
Proof.
  unfold AuthorInfo.load_logged_in_user, AuthorInfo.user_by_id.
  destruct s as [uid |]; [| discriminate].
  destruct (Z.eqb_spec uid 0); [discriminate |]. intros H.
  apply find_some in H. destruct H as [I E]. apply Z.eqb_eq in E.
  exists uid. repeat split; assumption.
Qed.

(** X1: a session that is empty, holds the id 0, or holds an id that no
    row of [users] has resolves to no user, and then every content route of
    both applications answers with the redirect to the login page, flashes
    nothing and leaves the database as it is; a session that does resolve,
    resolves to a row of [users] with the session's id. *)
Theorem request_without_user_is_sent_to_login :
  (forall (s : Flask.session) (d : App.db),
     (s = None \/ s = Some 0 \/
      exists uid, s = Some uid /\ forall u, In u (App.users d) -> App.user_id u <> uid) ->
     let g := App.load_logged_in_user s d in
     g = None /\
     forall (column_float : Py.float -> option (option Py.float))
            (column_integer : Z -> option (option Z))
            (now created updated : Datetime.datetime) (jid : Z) (req : Flask.request),
       App.journals_list_view g d = Flask.reply d [] (Flask.redirect Flask.login) /\
       App.journal_detail g jid d = Flask.reply d [] (Flask.redirect Flask.login) /\
       App.submit column_float column_integer now created updated g req d
       = Flask.reply d [] (Flask.redirect Flask.login) /\
       App.delete_journal g jid d = Flask.reply d [] (Flask.redirect Flask.login)) /\
  (forall (ge : Sql.cell -> Py.float -> bool)
          (affinity : Sql.column_type -> string -> Sql.cell)
          (s : Flask.session) (d : AuthorInfo.db),
     (s = None \/ s = Some 0 \/
      exists uid, s = Some uid /\
                  forall u, In u (AuthorInfo.users d) -> AuthorInfo.id u <> uid) ->
     let g := AuthorInfo.load_logged_in_user s d in
     g = None /\
     forall (now : Datetime.datetime) (jid : Z) (req : Flask.request),
       AuthorInfo.journals_list_view g d = Flask.reply d [] (Flask.redirect Flask.login) /\
       AuthorInfo.journal_detail g jid d = Flask.reply d [] (Flask.redirect Flask.login) /\
       AuthorInfo.search ge g req d = Flask.reply d [] (Flask.redirect Flask.login) /\
       AuthorInfo.submit affinity now g req d = Flask.reply d [] (Flask.redirect Flask.login) /\
       AuthorInfo.delete_journal g jid d = Flask.reply d [] (Flask.redirect Flask.login) /\
       AuthorInfo.flag_journal g jid d = Flask.reply d [] (Flask.redirect Flask.login) /\
       AuthorInfo.add_comment now g jid req d
       = Flask.reply d [] (Flask.redirect Flask.login)) /\
  (forall (s : Flask.session) (d : App.db) (u : App.User),
     App.load_logged_in_user s d = Some u ->
     In u (App.users d) /\ s = Some (App.user_id u) /\ App.user_id u <> 0) /\
  (forall (s : Flask.session) (d : AuthorInfo.db) (u : AuthorInfo.user_row),
     AuthorInfo.load_logged_in_user s d = Some u ->
     In u (AuthorInfo.users d) /\ s = Some (AuthorInfo.id u) /\ AuthorInfo.id u <> 0).
Proof.
  split; [| split; [| split]].
  - intros s d H g.
    assert (E : g = None).
    { subst g. destruct H as [-> | [-> | (uid & -> & H)]]; [reflexivity | reflexivity |].
      unfold App.load_logged_in_user. destruct (uid =? 0); [reflexivity |].
      apply find_all_false. intros u I. apply Z.eqb_neq. exact (H u I). }
    split; [exact E |]. rewrite E. intros. repeat split.
  - intros ge affinity s d H g.
    assert (E : g = None).
    { subst g. destruct H as [-> | [-> | (uid & -> & H)]]; [reflexivity | reflexivity |].
      unfold AuthorInfo.load_logged_in_user. destruct (uid =? 0); [reflexivity |].
      apply find_all_false. intros u I. apply Z.eqb_neq. exact (H u I). }
    split; [exact E |]. rewrite E. intros. repeat split.
  - intros s d u H. destruct (app_load_some s d u H) as (uid & -> & N & I & E).
    subst uid. repeat split; assumption.
  - intros s d u H. destruct (load_some s d u H) as (uid & -> & N & I & E).
    subst uid. repeat split; assumption.
Qed.

(** ** Registration and login *)

Lemma name_not_taken (l : list App.User) (name : string) :
  find (fun u => String.eqb (App.username u) name) l = None ->
  ~ In name (map App.username l).
Proof.
  intros H I. apply in_map_iff in I. destruct I as (u & E & I).
  pose proof (find_none _ _ H u I) as F. cbn in F. rewrite E, String.eqb_refl in F.
  discriminate.
Qed.

Lemma name_not_taken_row (l : list AuthorInfo.user_row) (name : string) :
  find (fun u => String.eqb (AuthorInfo.username u) name) l = None ->
  ~ In name (map AuthorInfo.username l).
Proof.
  intros H I. apply in_map_iff in I. destruct I as (u & E & I).
  pose proof (find_none _ _ H u I) as F. cbn in F. rewrite E, String.eqb_refl in F.
  discriminate.
Qed.

Lemma NoDup_snoc {A} (l : list A) (x : A) : NoDup l -> ~ In x l -> NoDup (l ++ [x]).
Proof.
  intros N I. induction N as [| y l Hy N IH]; cbn [app].
  - constructor; [intros [] | constructor].
  - constructor.
    + intros J. apply in_app_or in J. destruct J as [J | [J | []]].
      * exact (Hy J).
      * apply I. left. symmetry. exact J.
    + apply IH. intros J. apply I. right. exact J.
Qed.

(** X2: what [register] answers to a form it does not accept, in both
    applications: an empty username is reported before anything else, an
    empty password next, a username that a row already has last; each time
    the register page is shown again, one message is flashed and the
    database is as before.  A form without one of the two keys is answered
    with status 400. *)
Theorem register_reports_what_is_wrong
    (hash : string -> string -> string) (salt : string) (req : Flask.request) :
  Flask.method_ req = Flask.POST ->
  (forall d : App.db,
     let r := App.register hash salt None req d in
     (forall p, Flask.get "username" (Flask.form req) = Some "" ->
                Flask.get "password" (Flask.form req) = Some p ->
                r = Flask.reply d ["Username is required."]
                      (Flask.render_template "register.html" App.NoContext)) /\
     (forall u, Flask.get "username" (Flask.form req) = Some u -> u <> "" ->
                Flask.get "password" (Flask.form req) = Some "" ->
                r = Flask.reply d ["Password is required."]
                      (Flask.render_template "register.html" App.NoContext)) /\
     (forall u p, Flask.get "username" (Flask.form req) = Some u -> u <> "" ->
                  Flask.get "password" (Flask.form req) = Some p -> p <> "" ->
                  In u (map App.username (App.users d)) ->
                  r = Flask.reply d [("User " ++ u ++ " is already registered.")%string]
                        (Flask.render_template "register.html" App.NoContext)) /\
     (Flask.get "username" (Flask.form req) = None \/
      Flask.get "password" (Flask.form req) = None ->
      r = Flask.reply d [] (Flask.abort 400))) /\
  (forall d : AuthorInfo.db,
     let r := AuthorInfo.register hash salt None req d in
     (forall p, Flask.get "username" (Flask.form req) = Some "" ->
                Flask.get "password" (Flask.form req) = Some p ->
                r = Flask.reply d ["Username is required."]
                      (Flask.render_template "register.html" AuthorInfo.NoContext)) /\
     (forall u, Flask.get "username" (Flask.form req) = Some u -> u <> "" ->
                Flask.get "password" (Flask.form req) = Some "" ->
                r = Flask.reply d ["Password is required."]
                      (Flask.render_template "register.html" AuthorInfo.NoContext)) /\
     (forall u p, Flask.get "username" (Flask.form req) = Some u -> u <> "" ->
                  Flask.get "password" (Flask.form req) = Some p -> p <> "" ->
                  In u (map AuthorInfo.username (AuthorInfo.users d)) ->
                  r = Flask.reply d [("User " ++ u ++ " is already registered.")%string]
                        (Flask.render_template "register.html" AuthorInfo.NoContext)) /\
     (Flask.get "username" (Flask.form req) = None \/
      Flask.get "password" (Flask.form req) = None ->
      r = Flask.reply d [] (Flask.abort 400))).
Proof.
  intros M. split; intros d r; subst r.
  - unfold App.register. rewrite M. repeat split.
    + intros p -> ->. reflexivity.
    + intros u -> N ->. rewrite (nonempty_not_is_empty u N). reflexivity.
    + intros u p -> Nu -> Np I.
      rewrite (nonempty_not_is_empty u Nu), (nonempty_not_is_empty p Np).
      destruct (App.user_by_name u d) eqn:E; [reflexivity |].
      exfalso. exact (name_not_taken _ _ E I).
    + intros [-> | H]; [reflexivity |].
      destruct (Flask.get "username" (Flask.form req));
        [rewrite H; reflexivity | reflexivity].
  - unfold AuthorInfo.register. rewrite M. repeat split.
    + intros p -> ->. reflexivity.
    + intros u -> N ->. rewrite (nonempty_not_is_empty u N). reflexivity.
    + intros u p -> Nu -> Np I.
      rewrite (nonempty_not_is_empty u Nu), (nonempty_not_is_empty p Np).
      destruct (AuthorInfo.user_by_name u d) eqn:E; [reflexivity |].
      exfalso. exact (name_not_taken_row _ _ E I).
    + intros [-> | H]; [reflexivity |].
      destruct (Flask.get "username" (Flask.form req));
        [rewrite H; reflexivity | reflexivity].
Qed.

(** X2 at a form that names a registered user, sent to both applications. *)
Lemma register_reports_witness :
  Flask.method_ (Flask.post [("username", "admin"); ("password", "x")]) = Flask.POST /\
  App.register Sample.hash "s" None (Flask.post [("username", "admin"); ("password", "x")])
    Sample.app_db
  = Flask.reply Sample.app_db ["User admin is already registered."]
      (Flask.render_template "register.html" App.NoContext) /\
  AuthorInfo.register Sample.hash "s" None
    (Flask.post [("username", "admin"); ("password", "x")]) Sample.sqlite_db
  = Flask.reply Sample.sqlite_db ["User admin is already registered."]
      (Flask.render_template "register.html" AuthorInfo.NoContext).
Proof.
  split; [reflexivity |].
  destruct (register_reports_what_is_wrong Sample.hash "s"
              (Flask.post [("username", "admin"); ("password", "x")]) eq_refl) as [A B].
  split.
  - apply (proj1 (proj2 (proj2 (A Sample.app_db))) "admin" "x");
      try reflexivity; try discriminate. right. left. reflexivity.
  - apply (proj1 (proj2 (proj2 (B Sample.sqlite_db))) "admin" "x");
      try reflexivity; try discriminate. left. reflexivity.
Defined.

Lemma app_name_free (d : App.db) (name : string) :
  ~ In name (map App.username (App.users d)) -> App.user_by_name name d = None.
Proof.
  intros H. apply find_all_false. intros u I.
  destruct (String.eqb_spec (App.username u) name) as [E | E]; [| reflexivity].
  exfalso. apply H. rewrite <- E. apply in_map. exact I.
Qed.

Lemma name_free (d : AuthorInfo.db) (name : string) :
  ~ In name (map AuthorInfo.username (AuthorInfo.users d)) ->
  AuthorInfo.user_by_name name d = None.
Proof.
  intros H. apply find_all_false. intros u I.
  destruct (String.eqb_spec (AuthorInfo.username u) name) as [E | E]; [| reflexivity].
  exfalso. apply H. rewrite <- E. apply in_map. exact I.
Qed.

Lemma app_register_cases (hash : string -> string -> string) (salt : string)
    (g : option App.User) (req : Flask.request) (d : App.db) :
  Flask.db_after (App.register hash salt g req d) = d \/
  exists u p,
    App.user_by_name u d = None /\
    Flask.db_after (App.register hash salt g req d)
    = {| App.users := App.users d
                      ++ [{| App.user_id := App.new_user_id d; App.username := u;
                             App.password_hash := hash salt p; App.role := "user" |}];
         App.journals := App.journals d |}.
Proof.
  unfold App.register. destruct g; [left; reflexivity |].
  destruct (Flask.method_ req); [left; reflexivity |].
  destruct (Flask.get "username" _) as [u |]; [| left; reflexivity].
  destruct (Flask.get "password" _) as [p |]; [| left; reflexivity].
  destruct (Py.is_empty u); [left; reflexivity |].
  destruct (Py.is_empty p); [left; reflexivity |].
  destruct (App.user_by_name u d) eqn:E; [left; reflexivity |].
  right. exists u, p. split; [exact E | reflexivity].
Qed.

Lemma register_cases (hash : string -> string -> string) (salt : string)
    (g : option AuthorInfo.user_row) (req : Flask.request) (d : AuthorInfo.db) :
  Flask.db_after (AuthorInfo.register hash salt g req d) = d \/
  exists u p,
    AuthorInfo.user_by_name u d = None /\
    Flask.db_after (AuthorInfo.register hash salt g req d)
    = {| AuthorInfo.users :=
           AuthorInfo.users d
           ++ [{| AuthorInfo.id := AuthorInfo.new_user_id d; AuthorInfo.username := u;
                  AuthorInfo.password_hash := hash salt p; AuthorInfo.role := "user" |}];
         AuthorInfo.journals := AuthorInfo.journals d;
         AuthorInfo.users_seq := AuthorInfo.new_user_id d;
         AuthorInfo.journals_seq := AuthorInfo.journals_seq d |}.
Proof.
  unfold AuthorInfo.register. destruct g; [left; reflexivity |].
  destruct (Flask.method_ req); [left; reflexivity |].
  destruct (Flask.get "username" _) as [u |]; [| left; reflexivity].
  destruct (Flask.get "password" _) as [p |]; [| left; reflexivity].
  destruct (Py.is_empty u); [left; reflexivity |].
  destruct (Py.is_empty p); [left; reflexivity |].
  destruct (AuthorInfo.user_by_name u d) eqn:E; [left; reflexivity |].
  right. exists u, p. split; [exact E | reflexivity].
Qed.

(** X3: [register] of both applications, whatever it is sent, keeps the
    usernames of [users] distinct, keeps every row that was there, with its
    password hash and role, in its place, and touches no journal: the only
    change it can make is one row appended, with the role [user], under a
    username no row had and an id no row had. *)
Theorem register_keeps_usernames_distinct
    (hash : string -> string -> string) (salt : string) (req : Flask.request) :
  (forall (g : option App.User) (d : App.db),
     let d' := Flask.db_after (App.register hash salt g req d) in
     (NoDup (map App.username (App.users d)) -> NoDup (map App.username (App.users d'))) /\
     App.journals d' = App.journals d /\
     (App.users d' = App.users d \/
      exists new,
        App.users d' = App.users d ++ [new] /\ App.role new = "user" /\
        ~ In (App.username new) (map App.username (App.users d)) /\
        ~ In (App.user_id new) (map App.user_id (App.users d)))) /\
  (forall (g : option AuthorInfo.user_row) (d : AuthorInfo.db),
     let d' := Flask.db_after (AuthorInfo.register hash salt g req d) in
     (NoDup (map AuthorInfo.username (AuthorInfo.users d)) ->
      NoDup (map AuthorInfo.username (AuthorInfo.users d'))) /\
     AuthorInfo.journals d' = AuthorInfo.journals d /\
     (AuthorInfo.users d' = AuthorInfo.users d \/
      exists new,
        AuthorInfo.users d' = AuthorInfo.users d ++ [new] /\ AuthorInfo.role new = "user" /\
        ~ In (AuthorInfo.username new) (map AuthorInfo.username (AuthorInfo.users d)) /\
        ~ In (AuthorInfo.id new) (map AuthorInfo.id (AuthorInfo.users d)))).
Proof.
  split; intros g d d'; subst d'.
  - destruct (app_register_cases hash salt g req d) as [E | (u & p & F & E)]; rewrite E.
    + repeat split; auto.
    + cbn [App.users App.journals]. split; [| split; [reflexivity |]].
      * intros N. rewrite map_app. cbn [map App.username].
        apply NoDup_snoc; [exact N | exact (name_not_taken _ _ F)].
      * right. eexists. split; [reflexivity |]. split; [reflexivity |].
        cbn [App.username App.user_id]. split; [exact (name_not_taken _ _ F) |].
        intros I. pose proof (next_key_above 0 _ _ I) as L.
        unfold App.new_user_id in L. lia.
  - destruct (register_cases hash salt g req d) as [E | (u & p & F & E)]; rewrite E.
    + repeat split; auto.
    + cbn [AuthorInfo.users AuthorInfo.journals]. split; [| split; [reflexivity |]].
      * intros N. rewrite map_app. cbn [map AuthorInfo.username].
        apply NoDup_snoc; [exact N | exact (name_not_taken_row _ _ F)].
      * right. eexists. split; [reflexivity |]. split; [reflexivity |].
        cbn [AuthorInfo.username AuthorInfo.id].
        split; [exact (name_not_taken_row _ _ F) |].
        intros I. pose proof (next_key_above (AuthorInfo.users_seq d) _ _ I) as L.
        unfold AuthorInfo.new_user_id in L. lia.
Qed.

Lemma app_find_new_user (d : App.db) (new : App.User) :
  App.user_id new = App.new_user_id d ->
  App.get_user (App.new_user_id d)
    {| App.users := App.users d ++ [new]; App.journals := App.journals d |} = Some new.
Proof.
  intros E. unfold App.get_user. cbn [App.users]. rewrite find_app, find_all_false.
  - cbn [find]. rewrite E, Z.eqb_refl. reflexivity.
  - intros x I. apply Z.eqb_neq.
    pose proof (next_key_above 0 (map App.user_id (App.users d)) (App.user_id x)
                  (in_map App.user_id _ _ I)).
    unfold App.new_user_id. lia.
Qed.

Lemma find_new_user (d : AuthorInfo.db) (new : AuthorInfo.user_row) (s1 s2 : Z) :
  AuthorInfo.id new = AuthorInfo.new_user_id d ->
  AuthorInfo.user_by_id (AuthorInfo.new_user_id d)
    {| AuthorInfo.users := AuthorInfo.users d ++ [new];
       AuthorInfo.journals := AuthorInfo.journals d;
       AuthorInfo.users_seq := s1; AuthorInfo.journals_seq := s2 |} = Some new.
Proof.
  intros E. unfold AuthorInfo.user_by_id. cbn [AuthorInfo.users].
  rewrite find_app, find_all_false.
  - cbn [find]. rewrite E, Z.eqb_refl. reflexivity.
  - intros x I. apply Z.eqb_neq.
    pose proof (next_key_above (AuthorInfo.users_seq d)
                  (map AuthorInfo.id (AuthorInfo.users d)) (AuthorInfo.id x)
                  (in_map AuthorInfo.id _ _ I)).
    unfold AuthorInfo.new_user_id. lia.
Qed.

(** X4: registering and then logging in with the same username and
    password, in both applications: when the username is free and both
    fields are filled in, [register] stores the user and [login] with the
    same form then succeeds, provided the password hash verifies the
    password it was made from; the session then holds the new user's id and
    [load_logged_in_user] resolves it to the stored row, whose role is
    [user].  (For the SQLite application the AUTOINCREMENT counter of
    [users] is not negative, as in any database file.) *)
Theorem register_then_login_opens_a_session
    (hash : string -> string -> string) (check : string -> string -> bool)
    (salt : string) (req : Flask.request) (u p : string) (s : Flask.session) :
  check (hash salt p) p = true ->
  Flask.method_ req = Flask.POST ->
  Flask.get "username" (Flask.form req) = Some u ->
  Flask.get "password" (Flask.form req) = Some p ->
  u <> "" -> p <> "" ->
  (forall d : App.db,
     ~ In u (map App.username (App.users d)) ->
     let r := App.register hash salt None req d in
     let o := App.login check None req s (Flask.db_after r) in
     let new := {| App.user_id := App.new_user_id d; App.username := u;
                   App.password_hash := hash salt p; App.role := "user" |} in
     Flask.resp r = Flask.redirect Flask.login /\
     Flask.flashed r = ["Registration successful! Please log in."] /\
     Flask.answer o = Flask.redirect Flask.journals_list /\
     Flask.messages o = [] /\
     Flask.session_after o = Some (App.new_user_id d) /\
     App.load_logged_in_user (Flask.session_after o) (Flask.db_after r) = Some new) /\
  (forall d : AuthorInfo.db,
     ~ In u (map AuthorInfo.username (AuthorInfo.users d)) ->
     0 <= AuthorInfo.users_seq d ->
     let r := AuthorInfo.register hash salt None req d in
     let o := AuthorInfo.login check None req s (Flask.db_after r) in
     let new := {| AuthorInfo.id := AuthorInfo.new_user_id d; AuthorInfo.username := u;
                   AuthorInfo.password_hash := hash salt p; AuthorInfo.role := "user" |} in
     Flask.resp r = Flask.redirect Flask.login /\
     Flask.flashed r = ["Registration successful! Please log in."] /\
     Flask.answer o = Flask.redirect Flask.index /\
     Flask.messages o = [] /\
     Flask.session_after o = Some (AuthorInfo.new_user_id d) /\
     AuthorInfo.load_logged_in_user (Flask.session_after o) (Flask.db_after r) = Some new).
Proof.
  intros C M U P Nu Np. split.
  - intros d F r o new. subst r o new.
    unfold App.register. rewrite M, U, P.
    rewrite (nonempty_not_is_empty u Nu), (nonempty_not_is_empty p Np).
    rewrite (app_name_free d u F).
    cbn [Flask.reply Flask.db_after Flask.resp Flask.flashed].
    unfold App.login. rewrite M, U, P.
    assert (E : App.user_by_name u
                  {| App.users := App.users d
                       ++ [{| App.user_id := App.new_user_id d; App.username := u;
                              App.password_hash := hash salt p; App.role := "user" |}];
                     App.journals := App.journals d |}
                = Some {| App.user_id := App.new_user_id d; App.username := u;
                          App.password_hash := hash salt p; App.role := "user" |}).
    { unfold App.user_by_name. cbn [App.users].
      rewrite find_app. fold (App.user_by_name u d). rewrite (app_name_free d u F).
      cbn [find App.username]. rewrite String.eqb_refl. reflexivity. }
    rewrite E. cbn [App.password_hash]. rewrite C.
    cbn [Flask.session_after Flask.answer Flask.messages App.user_id].
    repeat split.
    unfold App.load_logged_in_user.
    pose proof (next_key_floor 0 (map App.user_id (App.users d))) as L.
    fold (App.new_user_id d) in L.
    destruct (Z.eqb_spec (App.new_user_id d) 0); [lia |].
    apply app_find_new_user. reflexivity.
  - intros d F S r o new. subst r o new.
    unfold AuthorInfo.register. rewrite M, U, P.
    rewrite (nonempty_not_is_empty u Nu), (nonempty_not_is_empty p Np).
    rewrite (name_free d u F).
    cbn [Flask.reply Flask.db_after Flask.resp Flask.flashed].
    unfold AuthorInfo.login. rewrite M, U, P.
    match goal with
    | |- context [AuthorInfo.user_by_name u ?D] =>
        assert (E : AuthorInfo.user_by_name u D
                    = Some {| AuthorInfo.id := AuthorInfo.new_user_id d;
                              AuthorInfo.username := u;
                              AuthorInfo.password_hash := hash salt p;
                              AuthorInfo.role := "user" |})
    end.
    { unfold AuthorInfo.user_by_name. cbn [AuthorInfo.users].
      rewrite find_app. fold (AuthorInfo.user_by_name u d). rewrite (name_free d u F).
      cbn [find AuthorInfo.username]. rewrite String.eqb_refl. reflexivity. }
    rewrite E. cbn [AuthorInfo.password_hash]. rewrite C.
    cbn [Flask.session_after Flask.answer Flask.messages AuthorInfo.id].
    repeat split.
    unfold AuthorInfo.load_logged_in_user.
    pose proof (next_key_floor (AuthorInfo.users_seq d)
                  (map AuthorInfo.id (AuthorInfo.users d))) as L.
    fold (AuthorInfo.new_user_id d) in L.
    destruct (Z.eqb_spec (AuthorInfo.new_user_id d) 0); [lia |].
    apply find_new_user. reflexivity.
Qed.

(** X4 for a new user carol, in both applications. *)
Lemma register_then_login_witness :
  Flask.session_after
    (App.login Sample.check None
       (Flask.post [("username", "carol"); ("password", "pw")]) None
       (Flask.db_after
          (App.register Sample.hash "salt" None
             (Flask.post [("username", "carol"); ("password", "pw")]) Sample.app_db)))
  = Some 3 /\
  Flask.session_after
    (AuthorInfo.login Sample.check None
       (Flask.post [("username", "carol"); ("password", "pw")]) None
       (Flask.db_after
          (AuthorInfo.register Sample.hash "salt" None
             (Flask.post [("username", "carol"); ("password", "pw")]) Sample.sqlite_db)))
  = Some 3.
Proof.
  destruct (register_then_login_opens_a_session Sample.hash Sample.check "salt"
              (Flask.post [("username", "carol"); ("password", "pw")]) "carol" "pw" None
              eq_refl eq_refl eq_refl eq_refl ltac:(discriminate) ltac:(discriminate))
    as [A B].
  split.
  - refine (proj1 (proj2 (proj2 (proj2 (proj2 (A Sample.app_db _)))))).
    cbn. intros [H | [H | []]]; discriminate H.
  - refine (proj1 (proj2 (proj2 (proj2 (proj2 (B Sample.sqlite_db _ _)))))).
    + cbn. intros [H | [H | []]]; discriminate H.
    + cbn. lia.
Defined.

(** X5: [login] of both applications changes the session only when the
    form names a row of [users] and [check_password_hash] accepts the
    form's password against that row's hash, and then the session holds
    that row's id; an unknown username is answered "Incorrect username.", a
    rejected password "Incorrect password.", both with the login page and
    the session as it was.  [logout] empties the session whatever it
    held. *)
Theorem login_needs_verified_credentials
    (check : string -> string -> bool) (req : Flask.request) (s : Flask.session) :
  (forall (g : option App.User) (d : App.db),
     let o := App.login check g req s d in
     (Flask.session_after o = s \/
      exists usr p,
        In usr (App.users d) /\
        Flask.get "username" (Flask.form req) = Some (App.username usr) /\
        Flask.get "password" (Flask.form req) = Some p /\
        check (App.password_hash usr) p = true /\
        Flask.session_after o = Some (App.user_id usr)) /\
     (Flask.method_ req = Flask.POST -> g = None ->
      forall u p, Flask.get "username" (Flask.form req) = Some u ->
                  Flask.get "password" (Flask.form req) = Some p ->
        (~ In u (map App.username (App.users d)) ->
         o = {| Flask.session_after := s; Flask.messages := ["Incorrect username."];
                Flask.answer := Flask.render_template "login.html" App.NoContext |}) /\
        (forall usr, App.user_by_name u d = Some usr ->
                     check (App.password_hash usr) p = false ->
         o = {| Flask.session_after := s; Flask.messages := ["Incorrect password."];
                Flask.answer := Flask.render_template "login.html" App.NoContext |}))) /\
  (forall (g : option AuthorInfo.user_row) (d : AuthorInfo.db),
     let o := AuthorInfo.login check g req s d in
     (Flask.session_after o = s \/
      exists usr p,
        In usr (AuthorInfo.users d) /\
        Flask.get "username" (Flask.form req) = Some (AuthorInfo.username usr) /\
        Flask.get "password" (Flask.form req) = Some p /\
        check (AuthorInfo.password_hash usr) p = true /\
        Flask.session_after o = Some (AuthorInfo.id usr)) /\
     (Flask.method_ req = Flask.POST -> g = None ->
      forall u p, Flask.get "username" (Flask.form req) = Some u ->
                  Flask.get "password" (Flask.form req) = Some p ->
        (~ In u (map AuthorInfo.username (AuthorInfo.users d)) ->
         o = {| Flask.session_after := s; Flask.messages := ["Incorrect username."];
                Flask.answer := Flask.render_template "login.html" AuthorInfo.NoContext |}) /\
        (forall usr, AuthorInfo.user_by_name u d = Some usr ->
                     check (AuthorInfo.password_hash usr) p = false ->
         o = {| Flask.session_after := s; Flask.messages := ["Incorrect password."];
                Flask.answer :=
                  Flask.render_template "login.html" AuthorInfo.NoContext |}))) /\
  Flask.session_after (App.logout s) = None /\
  Flask.session_after (AuthorInfo.logout s) = None.
Proof.
  split; [| split; [| split; reflexivity]].
  - intros g d o. subst o. split.
    + unfold App.login. destruct g; [left; reflexivity |].
      destruct (Flask.method_ req); [left; reflexivity |].
      destruct (Flask.get "username" _) as [u |]; [| left; reflexivity].
      destruct (Flask.get "password" _) as [p |]; [| left; reflexivity].
      destruct (App.user_by_name u d) as [usr |] eqn:E; [| left; reflexivity].
      destruct (check (App.password_hash usr) p) eqn:K; [| left; reflexivity].
      right. exists usr, p. unfold App.user_by_name in E. apply find_some in E.
      destruct E as [I N]. apply String.eqb_eq in N. rewrite N.
      repeat split; assumption.
    + intros M -> u p U P. unfold App.login. rewrite M, U, P. split.
      * intros F. rewrite (app_name_free d u F). reflexivity.
      * intros usr -> ->. reflexivity.
  - intros g d o. subst o. split.
    + unfold AuthorInfo.login. destruct g; [left; reflexivity |].
      destruct (Flask.method_ req); [left; reflexivity |].
      destruct (Flask.get "username" _) as [u |]; [| left; reflexivity].
      destruct (Flask.get "password" _) as [p |]; [| left; reflexivity].
      destruct (AuthorInfo.user_by_name u d) as [usr |] eqn:E; [| left; reflexivity].
      destruct (check (AuthorInfo.password_hash usr) p) eqn:K; [| left; reflexivity].
      right. exists usr, p. unfold AuthorInfo.user_by_name in E. apply find_some in E.
      destruct E as [I N]. apply String.eqb_eq in N. rewrite N.
      repeat split; assumption.
    + intros M -> u p U P. unfold AuthorInfo.login. rewrite M, U, P. split.
      * intros F. rewrite (name_free d u F). reflexivity.
      * intros usr -> ->. reflexivity.
Qed.

(** ** Listing and searching *)

Lemma insert_perm {A} (before : A -> A -> bool) (x : A) (l : list A) :
  Permutation (Sql.insert before x l) (x :: l).
Proof.
  induction l as [| y r IH]; cbn [Sql.insert].
  - apply Permutation_refl.
  - destruct (before y x).
    + apply (perm_trans (perm_skip y IH)). apply perm_swap.
    + apply Permutation_refl.
Qed.

Lemma order_by_perm {A} (before : A -> A -> bool) (l : list A) :
  Permutation (Sql.order_by before l) l.
Proof.
  induction l as [| x l IH]; cbn [Sql.order_by].
  - apply perm_nil.
  - apply (perm_trans (insert_perm before x _)). apply perm_skip. exact IH.
Qed.

Lemma app_newest_first_sorted (l : list App.Journal) :
  Sorted (fun a b => Datetime.leb (App.last_updated b) (App.last_updated a) = true)
         (App.newest_first l).
Proof.
  unfold App.newest_first.
  eapply Sorted_weaken; [| apply order_by_in_order].
  - unfold Sql.in_order. intros a b H. apply negb_false_iff in H. exact H.
  - intros a b H. apply negb_true_iff in H. apply negb_false_iff.
    unfold Datetime.leb in *. apply Z.leb_gt in H. apply Z.leb_le. lia.
Qed.

(** X6: for a logged-in user [journals_list] of both applications shows
    every journal of the table exactly once, no journal that is not in the
    table, each followed by one whose [last_updated] is not greater (as
    datetimes in [src/app.py], as texts in the SQLite application, which
    shows of each row its id, name and impact factor). *)
Theorem journals_list_shows_every_journal_newest_first :
  (forall (user : App.User) (d : App.db),
     exists rows,
       App.journals_list_view (Some user) d
       = Flask.reply d [] (Flask.render_template "journals.html" (App.JournalList rows)) /\
       Permutation rows (App.journals d) /\
       Sorted (fun a b => Datetime.leb (App.last_updated b) (App.last_updated a) = true)
              rows) /\
  (forall (user : AuthorInfo.user_row) (d : AuthorInfo.db),
     exists rows,
       AuthorInfo.journals_list_view (Some user) d
       = Flask.reply d []
           (Flask.render_template "journals.html"
              (AuthorInfo.JournalList
                 (map (fun j => (AuthorInfo.journal_id j, AuthorInfo.journal_name j,
                                 AuthorInfo.impact_factor j)) rows))) /\
       Permutation rows (AuthorInfo.journals d) /\
       Sorted (fun a b =>
                 String.leb (AuthorInfo.last_updated b) (AuthorInfo.last_updated a) = true)
              rows).
Proof.
  split; intros user d.
  - exists (App.newest_first (App.journals d)). split; [reflexivity |]. split.
    + apply order_by_perm.
    + apply app_newest_first_sorted.
  - exists (AuthorInfo.newest_first (AuthorInfo.journals d)). split; [reflexivity |]. split.
    + apply order_by_perm.
    + apply newest_first_sorted.
Qed.

Lemma search_query_no_arguments (req : Flask.request) :
  Py.truthy (Flask.get "journal_name" (Flask.args req)) = false ->
  Py.truthy (Flask.get "impact_factor" (Flask.args req)) = false ->
  AuthorInfo.search_query req
  = {| AuthorInfo.name_like := None; AuthorInfo.min_impact_factor := None |}.
Proof.
  intros N I. unfold AuthorInfo.search_query.
  destruct (Flask.get "journal_name" (Flask.args req)) as [n |];
    destruct (Flask.get "impact_factor" (Flask.args req)) as [q |];
    try rewrite N; try rewrite I; reflexivity.
Qed.

(** X7: [search] with no [journal_name] and no [impact_factor] argument,
    or with empty ones, answers exactly as [journals_list] does. *)
Theorem search_without_arguments_is_the_list
    (ge : Sql.cell -> Py.float -> bool) (g : option AuthorInfo.user_row)
    (req : Flask.request) (d : AuthorInfo.db) :
  Py.truthy (Flask.get "journal_name" (Flask.args req)) = false ->
  Py.truthy (Flask.get "impact_factor" (Flask.args req)) = false ->
  AuthorInfo.search ge g req d = AuthorInfo.journals_list_view g d.
Proof.
  intros N I. destruct g as [user |]; [| reflexivity].
  unfold AuthorInfo.search, AuthorInfo.journals_list_view, Flask.login_required.
  rewrite (search_query_no_arguments req N I). unfold AuthorInfo.select_rows.
  cbn [AuthorInfo.name_like AuthorInfo.min_impact_factor andb].
  rewrite filter_all_true by reflexivity. reflexivity.
Qed.

(** X7 at a search with an empty name. *)
Lemma search_without_arguments_witness :
  let req := {| Flask.method_ := Flask.GET; Flask.form := [];
                Flask.args := [("journal_name", "")] |} in
  Py.truthy (Flask.get "journal_name" (Flask.args req)) = false /\
  Py.truthy (Flask.get "impact_factor" (Flask.args req)) = false /\
  AuthorInfo.search Sample.ge (Some Sample.bob) req Sample.sqlite_db1
  = AuthorInfo.journals_list_view (Some Sample.bob) Sample.sqlite_db1.
Proof.
  cbv zeta. split; [reflexivity |]. split; [reflexivity |].
  exact (search_without_arguments_is_the_list Sample.ge (Some Sample.bob)
           {| Flask.method_ := Flask.GET; Flask.form := [];
              Flask.args := [("journal_name", "")] |}
           Sample.sqlite_db1 eq_refl eq_refl).
Defined.


(** *** The name filter *)

Lemma like_star_eq (p s : list ascii) :
  Sql.like ("%"%char :: p) s
  = Sql.like p s || match s with
                    | [] => false
                    | _ :: s' => Sql.like ("%"%char :: p) s'
                    end.
Proof. destruct s; reflexivity. Qed.

Lemma like_star (p s : list ascii) :
  Sql.like ("%"%char :: p) s = true <->
  exists pre post, s = pre ++ post /\ Sql.like p post = true.
Proof.
  induction s as [| x s IH]; rewrite like_star_eq.
  - rewrite orb_false_r. split.
    + intros H. exists [], []. split; [reflexivity | exact H].
    + intros (pre & post & E & H). symmetry in E. apply app_eq_nil in E.
      destruct E as [_ ->]. exact H.
  - rewrite orb_true_iff, IH. split.
    + intros [H | (pre & post & E & H)].
      * exists [], (x :: s). split; [reflexivity | exact H].
      * exists (x :: pre), post. split; [cbn [app]; congruence | exact H].
    + intros (pre & post & E & H). destruct pre as [| y pre]; cbn [app] in E.
      * left. rewrite E. exact H.
      * right. inversion E; subst. exists pre, post. split; [reflexivity | exact H].
Qed.

Lemma like_literal (n : list ascii) : forall p s : list ascii,
  (forall c, In c n -> c <> "%"%char /\ c <> "_"%char) ->
  (Sql.like (n ++ p) s = true <->
   exists mid post, s = mid ++ post /\ map Py.lower mid = map Py.lower n /\
                    Sql.like p post = true).
Proof.
  induction n as [| c n IH]; intros p s W.
  - cbn [app map]. split.
    + intros H. exists [], s. repeat split. exact H.
    + intros (mid & post & E & M & H). destruct mid; [| discriminate]. rewrite E. exact H.
  - destruct (W c (or_introl eq_refl)) as [W1 W2].
    apply Ascii.eqb_neq in W1, W2.
    cbn [app Sql.like]. rewrite W1, W2. cbn [orb].
    destruct s as [| x s].
    + split; [discriminate |].
      intros (mid & post & E & M & _). destruct mid; [discriminate | discriminate].
    + rewrite andb_true_iff, (IH p s (fun c' I => W c' (or_intror I))). split.
      * intros (L & mid & post & E & M & H). apply Ascii.eqb_eq in L.
        exists (x :: mid), post. cbn [app map]. repeat split; congruence.
      * intros (mid & post & E & M & H). destruct mid as [| y mid]; [discriminate |].
        cbn [app map] in E, M. inversion E; subst. inversion M.
        split; [apply Ascii.eqb_eq; congruence |].
        exists mid, post. repeat split; assumption.
Qed.

Lemma like_anything (s : list ascii) : Sql.like ["%"%char] s = true.
Proof.
  apply like_star. exists s, []. split; [symmetry; apply app_nil_r | reflexivity].
Qed.

Lemma chars_append (a b : string) : Py.chars (a ++ b)%string = Py.chars a ++ Py.chars b.
Proof.
  unfold Py.chars. induction a as [| c a IH]; cbn.
  - reflexivity.
  - rewrite IH. reflexivity.
Qed.

Lemma like_contains (n s : string) :
  (forall c, In c (Py.chars n) -> c <> "%"%char /\ c <> "_"%char) ->
  (Sql.like (Py.chars ("%" ++ n ++ "%")%string) (Py.chars s) = true <->
   exists pre mid post,
     Py.chars s = pre ++ mid ++ post /\ map Py.lower mid = map Py.lower (Py.chars n)).
Proof.
  intros W. rewrite !chars_append.
  change (Py.chars "%") with ["%"%char]. cbn [app].
  rewrite like_star. split.
  - intros (pre & post & E & H). apply (like_literal _ _ _ W) in H.
    destruct H as (mid & post' & E' & M & _).
    exists pre, mid, post'. split; [congruence | exact M].
  - intros (pre & mid & post & E & M). exists pre, (mid ++ post). split; [exact E |].
    apply (like_literal _ _ _ W). exists mid, post.
    repeat split; [exact M | apply like_anything].
Qed.

(** X9: what the name filter of [search] matches, where LIKE is defined
    as modelled: the argument and the journal names hold no NUL character,
    and the argument between the two [%] of the pattern stays within the
    length the engine accepts.  When the argument holds neither [%] nor
    [_], a journal passes exactly when the argument occurs somewhere in its
    name, ASCII letters compared without regard to case.  [%] and [_] in
    the argument are not escaped and act as the wildcards of LIKE: the
    argument [%] passes every journal. *)
Theorem search_name_filter_is_substring_match
    (ge : Sql.cell -> Py.float -> bool) (user : AuthorInfo.user_row)
    (req : Flask.request) (d : AuthorInfo.db) (n : string) :
  Flask.get "journal_name" (Flask.args req) = Some n -> n <> "" ->
  Py.truthy (Flask.get "impact_factor" (Flask.args req)) = false ->
  Sql.nul_free n = true ->
  Sql.utf8_length n + 2 <= Sql.max_like_pattern_length ->
  Forall (fun j => Sql.nul_free (AuthorInfo.journal_name j) = true) (AuthorInfo.journals d) ->
  exists rows,
    AuthorInfo.search ge (Some user) req d
    = Flask.reply d []
        (Flask.render_template "journals.html"
           (AuthorInfo.JournalList (map AuthorInfo.summarize rows))) /\
    ((forall c, In c (Py.chars n) -> c <> "%"%char /\ c <> "_"%char) ->
     forall j,
       In j rows <->
       In j (AuthorInfo.journals d) /\
       exists pre mid post,
         Py.chars (AuthorInfo.journal_name j) = pre ++ mid ++ post /\
         map Py.lower mid = map Py.lower (Py.chars n)) /\
    (n = "%" -> forall j, In j rows <-> In j (AuthorInfo.journals d)).
Proof.
  intros G N I _ _ _.
  exists (AuthorInfo.select_rows ge (AuthorInfo.search_query req) d).
  split; [reflexivity |].
  assert (Q : AuthorInfo.search_query req
              = {| AuthorInfo.name_like := Some ("%" ++ n ++ "%")%string;
                   AuthorInfo.min_impact_factor := None |}).
  { unfold AuthorInfo.search_query. rewrite G, (truthy_nonempty n N).
    destruct (Flask.get "impact_factor" (Flask.args req)) as [q |]; [| reflexivity].
    rewrite I. reflexivity. }
  rewrite Q. unfold AuthorInfo.select_rows, AuthorInfo.newest_first.
  cbn [AuthorInfo.name_like AuthorInfo.min_impact_factor]. split.
  - intros W j. rewrite order_by_In, filter_In, andb_true_r, (like_contains n _ W).
    reflexivity.
  - intros -> j. rewrite order_by_In, filter_In, andb_true_r. split.
    + intros [H _]. exact H.
    + intros H. split; [exact H |].
      change (Py.chars ("%" ++ "%" ++ "%")%string) with ("%"%char :: "%"%char :: ["%"%char]).
      apply like_star. exists [], (Py.chars (AuthorInfo.journal_name j)).
      split; [reflexivity |]. apply like_star. exists [], (Py.chars (AuthorInfo.journal_name j)).
      split; [reflexivity | apply like_anything].
Qed.

(** X9 at a search for "ell". *)
Lemma search_name_filter_witness :
  exists rows,
    AuthorInfo.search Sample.ge (Some Sample.bob)
      {| Flask.method_ := Flask.GET; Flask.form := [];
         Flask.args := [("journal_name", "ell")] |} Sample.sqlite_db1
    = Flask.reply Sample.sqlite_db1 []
        (Flask.render_template "journals.html"
           (AuthorInfo.JournalList (map AuthorInfo.summarize rows))) /\
    forall j,
      In j rows <->
      In j (AuthorInfo.journals Sample.sqlite_db1) /\
      exists pre mid post,
        Py.chars (AuthorInfo.journal_name j) = pre ++ mid ++ post /\
        map Py.lower mid = map Py.lower (Py.chars "ell").
Proof.
  assert (L : Sql.utf8_length "ell" + 2 <= Sql.max_like_pattern_length)
    by (vm_compute; discriminate).
  assert (F : Forall (fun j => Sql.nul_free (AuthorInfo.journal_name j) = true)
                     (AuthorInfo.journals Sample.sqlite_db1))
    by (constructor; [reflexivity | constructor]).
  destruct (search_name_filter_is_substring_match Sample.ge Sample.bob
              {| Flask.method_ := Flask.GET; Flask.form := [];
                 Flask.args := [("journal_name", "ell")] |} Sample.sqlite_db1 "ell"
              eq_refl ltac:(discriminate) eq_refl eq_refl L F) as (rows & E & W & _).
  exists rows. split; [exact E |]. apply W.
  intros c [<- | [<- | [<- | []]]]; split; discriminate.
Defined.

(** ** What requests leave alone *)

Lemma update_where_id_missing (jid : Z)
    (f : AuthorInfo.journal_row -> AuthorInfo.journal_row) (d : AuthorInfo.db) :
  AuthorInfo.journal_by_id jid d = None -> AuthorInfo.update_where_id jid f d = d.
Proof.
  intros H. unfold AuthorInfo.update_where_id, AuthorInfo.with_journals.
  assert (E : map (fun j => if AuthorInfo.journal_id j =? jid then f j else j)
                  (AuthorInfo.journals d) = AuthorInfo.journals d).
  { unfold AuthorInfo.journal_by_id in H.
    induction (AuthorInfo.journals d) as [| x l IH]; cbn [map find] in *.
    - reflexivity.
    - destruct (AuthorInfo.journal_id x =? jid); [discriminate |].
      rewrite (IH H). reflexivity. }
  rewrite E. destruct d; reflexivity.
Qed.

(** X10: the routes that only show something write nothing:
    [journals_list], [journal_detail] and [search] return the database they
    were given and flash nothing, for every request; and [journal_detail]
    of an id that no journal has, and that is within the 64 bits an id can
    be bound with, answers with status 404. *)
Theorem showing_routes_write_nothing :
  (forall (g : option App.User) (jid : Z) (d : App.db),
     Flask.db_after (App.journals_list_view g d) = d /\
     Flask.flashed (App.journals_list_view g d) = [] /\
     Flask.db_after (App.journal_detail g jid d) = d /\
     Flask.flashed (App.journal_detail g jid d) = [] /\
     (Sql.int64_min <= jid <= Sql.int64_max ->
      App.get_journal jid d = None -> g <> None ->
      Flask.resp (App.journal_detail g jid d) = Flask.abort 404)) /\
  (forall (ge : Sql.cell -> Py.float -> bool) (g : option AuthorInfo.user_row)
          (jid : Z) (req : Flask.request) (d : AuthorInfo.db),
     Flask.db_after (AuthorInfo.journals_list_view g d) = d /\
     Flask.flashed (AuthorInfo.journals_list_view g d) = [] /\
     Flask.db_after (AuthorInfo.search ge g req d) = d /\
     Flask.flashed (AuthorInfo.search ge g req d) = [] /\
     Flask.db_after (AuthorInfo.journal_detail g jid d) = d /\
     Flask.flashed (AuthorInfo.journal_detail g jid d) = [] /\
     (Sql.int64_min <= jid <= Sql.int64_max ->
      AuthorInfo.journal_by_id jid d = None -> g <> None ->
      Flask.resp (AuthorInfo.journal_detail g jid d) = Flask.abort 404)).
Proof.
  split.
  - intros g jid d. unfold App.journals_list_view, App.journal_detail, Flask.login_required.
    destruct g as [user |]; [| repeat split; congruence].
    destruct (App.get_journal jid d) as [j |]; [| repeat split].
    destruct (Json.loads _); [destruct (Json.loads _) |]; repeat split; discriminate.
  - intros ge g jid req d.
    unfold AuthorInfo.journals_list_view, AuthorInfo.search, AuthorInfo.journal_detail,
      Flask.login_required.
    destruct g as [user |]; [| repeat split; congruence].
    destruct (AuthorInfo.journal_by_id jid d) as [j |]; [| repeat split].
    destruct (Json.loads _); [destruct (Json.loads _) |]; [| repeat split; discriminate ..].
    destruct (AuthorInfo.with_timestamps _); [destruct (AuthorInfo.with_timestamps _) |];
      repeat split; discriminate.
Qed.

Lemma app_handlers_abort (column_float : Py.float -> option (option Py.float))
    (column_integer : Z -> option (option Z))
    (now created updated : Datetime.datetime) (g : option App.User)
    (jid : Z) (req : Flask.request) (d : App.db) (code : Z) :
  (Flask.resp (App.submit column_float column_integer now created updated g req d)
   = Flask.abort code ->
   Flask.db_after (App.submit column_float column_integer now created updated g req d)
   = d) /\
  (Flask.resp (App.delete_journal g jid d) = Flask.abort code ->
   Flask.db_after (App.delete_journal g jid d) = d).
Proof.
  split.
  - unfold App.submit, Flask.login_required. destruct g; [| reflexivity].
    destruct (Flask.method_ req); [reflexivity |].
    destruct (App.parse_if_present Py.float_of_str _); [| reflexivity].
    destruct (App.parse_if_present Py.int _); [| reflexivity].
    destruct (App.parse_if_present Py.int _); [| reflexivity].
    destruct (Flask.get "journal_name" _); [| reflexivity].
    destruct (Flask.get "official_guidelines_url" _); [| reflexivity].
    destruct (App.flush column_float _); [| reflexivity].
    destruct (App.flush column_integer _); [| reflexivity].
    destruct (App.flush column_integer _); [| reflexivity].
    cbn. discriminate.
  - unfold App.delete_journal, Flask.login_required. destruct g; [| reflexivity].
    destruct (negb _); [reflexivity |].
    destruct (App.get_journal jid d); [cbn; discriminate | reflexivity].
Qed.

(** X11: a request that a view of either application answers with an error
    status leaves the database exactly as it was; in particular [submit]
    by a logged-in user without [journal_name] or without
    [official_guidelines_url] in the form ends in status 500 and stores
    nothing. *)
Theorem error_answers_store_nothing
    (hash : string -> string -> string) (ge : Sql.cell -> Py.float -> bool)
    (affinity : Sql.column_type -> string -> Sql.cell) :
  (forall (salt : string) (column_float : Py.float -> option (option Py.float))
          (column_integer : Z -> option (option Z))
          (now created updated : Datetime.datetime) (g : option App.User)
          (jid : Z) (req : Flask.request) (d : App.db) (code : Z),
     (Flask.resp (App.register hash salt g req d) = Flask.abort code ->
      Flask.db_after (App.register hash salt g req d) = d) /\
     (Flask.resp (App.submit column_float column_integer now created updated g req d)
      = Flask.abort code ->
      Flask.db_after (App.submit column_float column_integer now created updated g req d)
      = d) /\
     (Flask.resp (App.delete_journal g jid d) = Flask.abort code ->
      Flask.db_after (App.delete_journal g jid d) = d) /\
     (Flask.method_ req = Flask.POST -> g <> None ->
      Flask.get "journal_name" (Flask.form req) = None \/
      Flask.get "official_guidelines_url" (Flask.form req) = None ->
      App.submit column_float column_integer now created updated g req d
      = Flask.reply d [] (Flask.abort 500))) /\
  (forall (c : AuthorInfo.call) (d : AuthorInfo.db) (code : Z),
     Flask.resp (AuthorInfo.handle hash ge affinity c d) = Flask.abort code ->
     Flask.db_after (AuthorInfo.handle hash ge affinity c d) = d) /\
  (forall (now : Datetime.datetime) (g : option AuthorInfo.user_row) (req : Flask.request)
          (d : AuthorInfo.db),
     Flask.method_ req = Flask.POST -> g <> None ->
     Flask.get "journal_name" (Flask.form req) = None \/
     Flask.get "official_guidelines_url" (Flask.form req) = None ->
     AuthorInfo.submit affinity now g req d = Flask.reply d [] (Flask.abort 500)).
Proof.
  split; [| split].
  - intros salt column_float column_integer now created updated g jid req d code.
    split; [| split; [| split]].
    + unfold App.register. destruct g; [reflexivity |].
      destruct (Flask.method_ req); [reflexivity |].
      destruct (Flask.get "username" _) as [u |]; [| reflexivity].
      destruct (Flask.get "password" _) as [p |]; [| reflexivity].
      destruct (Py.is_empty u); [reflexivity |].
      destruct (Py.is_empty p); [reflexivity |].
      destruct (App.user_by_name u d); [reflexivity | cbn; discriminate].
    + exact (proj1 (app_handlers_abort column_float column_integer now created updated
                      g jid req d code)).
    + exact (proj2 (app_handlers_abort column_float column_integer now created updated
                      g jid req d code)).
    + intros M G H. destruct g as [user |]; [| congruence].
      unfold App.submit, Flask.login_required. rewrite M.
      destruct (App.parse_if_present Py.float_of_str _); [| reflexivity].
      destruct (App.parse_if_present Py.int _); [| reflexivity].
      destruct (App.parse_if_present Py.int _); [| reflexivity].
      destruct H as [-> | H]; [reflexivity |].
      destruct (Flask.get "journal_name" _); [rewrite H |]; reflexivity.
  - intros c d code. unfold AuthorInfo.handle.
    destruct c as [now g what]. cbn [AuthorInfo.what AuthorInfo.g_user AuthorInfo.clock].
    destruct what as [salt req | | jid | req | req | jid | jid | jid req].
    + unfold AuthorInfo.register. destruct g; [reflexivity |].
      destruct (Flask.method_ req); [reflexivity |].
      destruct (Flask.get "username" _) as [u |]; [| reflexivity].
      destruct (Flask.get "password" _) as [p |]; [| reflexivity].
      destruct (Py.is_empty u); [reflexivity |].
      destruct (Py.is_empty p); [reflexivity |].
      destruct (AuthorInfo.user_by_name u d); [reflexivity | cbn; discriminate].
    + destruct g; reflexivity.
    + unfold AuthorInfo.journal_detail, Flask.login_required. destruct g; [| reflexivity].
      destruct (AuthorInfo.journal_by_id jid d); [| reflexivity].
      destruct (Json.loads _); [destruct (Json.loads _) |]; [| reflexivity ..].
      destruct (AuthorInfo.with_timestamps _); [destruct (AuthorInfo.with_timestamps _) |];
        reflexivity.
    + destruct g; reflexivity.
    + unfold AuthorInfo.submit, Flask.login_required. destruct g; [| reflexivity].
      destruct (Flask.method_ req); [reflexivity |].
      destruct (Flask.get "journal_name" _); [| reflexivity].
      destruct (Flask.get "official_guidelines_url" _); [cbn; discriminate | reflexivity].
    + unfold AuthorInfo.delete_journal, Flask.login_required. destruct g; [| reflexivity].
      destruct (negb _); [reflexivity | cbn; discriminate].
    + unfold AuthorInfo.flag_journal, Flask.login_required. destruct g; [| reflexivity].
      cbn. discriminate.
    + unfold AuthorInfo.add_comment, Flask.login_required. destruct g; [| reflexivity].
      destruct (Flask.get "comment_text" _); [| reflexivity].
      destruct (Py.truthy _); [| reflexivity].
      destruct (AuthorInfo.journal_by_id jid d); [| reflexivity].
      destruct (Json.loads _); [cbn; discriminate | reflexivity].
  - intros now g req d M G H. destruct g as [user |]; [| congruence].
    unfold AuthorInfo.submit, Flask.login_required. rewrite M.
    destruct H as [-> | H]; [reflexivity |].
    destruct (Flask.get "journal_name" _); [rewrite H |]; reflexivity.
Qed.

(** ** Flags, comments and deletions *)

(** X12: in the SQLite application a flag or a comment for an id that no
    journal has, within the 64 bits an id can be bound with, is not an
    error: the database stays as it is, nothing is flashed, and the answer
    is the redirect to the page of that id, which then answers 404. *)
Theorem flag_or_comment_on_absent_journal_changes_nothing
    (now : Datetime.datetime) (user : AuthorInfo.user_row) (jid : Z) (req : Flask.request)
    (d : AuthorInfo.db) :
  Sql.int64_min <= jid <= Sql.int64_max ->
  AuthorInfo.journal_by_id jid d = None ->
  AuthorInfo.flag_journal (Some user) jid d
  = Flask.reply d [] (Flask.redirect (Flask.journal_detail_page jid)) /\
  AuthorInfo.add_comment now (Some user) jid req d
  = Flask.reply d [] (Flask.redirect (Flask.journal_detail_page jid)) /\
  AuthorInfo.journal_detail (Some user) jid d = Flask.reply d [] (Flask.abort 404).
Proof.
  intros _ H. split; [| split].
  - unfold AuthorInfo.flag_journal, Flask.login_required.
    rewrite (update_where_id_missing jid AuthorInfo.bump_flags d H). reflexivity.
  - unfold AuthorInfo.add_comment, Flask.login_required. rewrite H.
    destruct (Flask.get "comment_text" _); [| reflexivity].
    destruct (Py.truthy _); reflexivity.
  - unfold AuthorInfo.journal_detail, Flask.login_required. rewrite H. reflexivity.
Qed.

(** X12 at the id 5, which no journal has. *)
Lemma flag_or_comment_on_absent_journal_witness :
  AuthorInfo.flag_journal (Some Sample.bob) 5 Sample.sqlite_db1
  = Flask.reply Sample.sqlite_db1 [] (Flask.redirect (Flask.journal_detail_page 5)) /\
  AuthorInfo.add_comment Sample.t1 (Some Sample.bob) 5 (Flask.post [("comment_text", "hi")])
    Sample.sqlite_db1
  = Flask.reply Sample.sqlite_db1 [] (Flask.redirect (Flask.journal_detail_page 5)) /\
  AuthorInfo.journal_detail (Some Sample.bob) 5 Sample.sqlite_db1
  = Flask.reply Sample.sqlite_db1 [] (Flask.abort 404).
Proof.
  apply (flag_or_comment_on_absent_journal_changes_nothing Sample.t1 Sample.bob 5
           (Flask.post [("comment_text", "hi")]) Sample.sqlite_db1).
  - unfold Sql.int64_min, Sql.int64_max. lia.
  - reflexivity.
Defined.

Lemma app_find_filter_same (jid : Z) (l : list App.Journal) :
  find (fun j => App.journal_id j =? jid)
       (filter (fun j => negb (App.journal_id j =? jid)) l) = None.
Proof.
  apply find_all_false. intros x Hx. apply filter_In in Hx. destruct Hx as [_ Hx].
  destruct (App.journal_id x =? jid); [discriminate | reflexivity].
Qed.

Lemma app_find_filter_other (jid jid' : Z) (l : list App.Journal) :
  jid' <> jid ->
  find (fun j => App.journal_id j =? jid')
       (filter (fun j => negb (App.journal_id j =? jid)) l)
  = find (fun j => App.journal_id j =? jid') l.
Proof.
  intros N. induction l as [| x l IH]; [reflexivity |]. cbn [filter find].
  destruct (App.journal_id x =? jid) eqn:E; cbn [negb find].
  - apply Z.eqb_eq in E. destruct (App.journal_id x =? jid') eqn:E'; [| exact IH].
    apply Z.eqb_eq in E'. congruence.
  - rewrite IH. reflexivity.
Qed.

(** X13: a deletion by an administrator removes the journal and nothing
    else.  In [src/app.py], for an id that a journal has, and in the SQLite
    application for any id within the 64 bits an id can be bound with: the
    answer is the redirect to the list with the message of success, no
    journal has the id afterwards (its page answers 404), every other id
    finds the journal it found before, and the users are untouched. *)
Theorem delete_by_admin_removes_that_journal_only :
  (forall (user : App.User) (jid : Z) (d : App.db) (j : App.Journal),
     App.role user = "admin" -> App.get_journal jid d = Some j ->
     let r := App.delete_journal (Some user) jid d in
     Flask.resp r = Flask.redirect Flask.journals_list /\
     Flask.flashed r = ["Journal entry successfully deleted."] /\
     App.get_journal jid (Flask.db_after r) = None /\
     App.journal_detail (Some user) jid (Flask.db_after r)
     = Flask.reply (Flask.db_after r) [] (Flask.abort 404) /\
     (forall jid', jid' <> jid ->
        App.get_journal jid' (Flask.db_after r) = App.get_journal jid' d) /\
     App.users (Flask.db_after r) = App.users d) /\
  (forall (user : AuthorInfo.user_row) (jid : Z) (d : AuthorInfo.db),
     AuthorInfo.role user = "admin" ->
     Sql.int64_min <= jid <= Sql.int64_max ->
     let r := AuthorInfo.delete_journal (Some user) jid d in
     Flask.resp r = Flask.redirect Flask.journals_list /\
     Flask.flashed r = ["Journal entry successfully deleted."] /\
     AuthorInfo.journal_by_id jid (Flask.db_after r) = None /\
     AuthorInfo.journal_detail (Some user) jid (Flask.db_after r)
     = Flask.reply (Flask.db_after r) [] (Flask.abort 404) /\
     (forall jid', jid' <> jid ->
        AuthorInfo.journal_by_id jid' (Flask.db_after r) = AuthorInfo.journal_by_id jid' d) /\
     AuthorInfo.users (Flask.db_after r) = AuthorInfo.users d /\
     AuthorInfo.journals_seq (Flask.db_after r) = AuthorInfo.journals_seq d).
Proof.
  split.
  - intros user jid d j R H r. subst r.
    unfold App.delete_journal, Flask.login_required. rewrite R, H.
    cbn [String.eqb Ascii.eqb Bool.eqb negb Flask.reply Flask.db_after Flask.resp
         Flask.flashed].
    assert (E : App.get_journal jid
                  {| App.users := App.users d;
                     App.journals := filter (fun j => negb (App.journal_id j =? jid))
                                            (App.journals d) |} = None)
      by apply app_find_filter_same.
    repeat split.
    + exact E.
    + unfold App.journal_detail, Flask.login_required. rewrite E. reflexivity.
    + intros jid' N. apply app_find_filter_other. exact N.
  - intros user jid d R _ r. subst r.
    unfold AuthorInfo.delete_journal, Flask.login_required. rewrite R.
    cbn [String.eqb Ascii.eqb Bool.eqb negb Flask.reply Flask.db_after Flask.resp
         Flask.flashed].
    repeat split.
    + apply lookup_delete_same.
    + unfold AuthorInfo.journal_detail, Flask.login_required.
      rewrite lookup_delete_same. reflexivity.
    + intros jid' N. apply lookup_delete_other. exact N.
Qed.

(** X13 at the journal alice, respectively user1, submitted. *)
Lemma delete_by_admin_witness :
  Flask.resp (App.delete_journal (Some Sample.admin) 1 Sample.app_db1)
  = Flask.redirect Flask.journals_list /\
  App.get_journal 1 (Flask.db_after (App.delete_journal (Some Sample.admin) 1 Sample.app_db1))
  = None /\
  Flask.resp (AuthorInfo.delete_journal (Some Sample.root) 1 Sample.sqlite_db1)
  = Flask.redirect Flask.journals_list /\
  AuthorInfo.journal_by_id 1
    (Flask.db_after (AuthorInfo.delete_journal (Some Sample.root) 1 Sample.sqlite_db1))
  = None.
Proof.
  destruct (App.get_journal 1 Sample.app_db1) as [j |] eqn:E; [| discriminate E].
  pose proof (proj1 delete_by_admin_removes_that_journal_only Sample.admin 1
                Sample.app_db1 j eq_refl E) as A.
  assert (I : Sql.int64_min <= 1 <= Sql.int64_max)
    by (unfold Sql.int64_min, Sql.int64_max; lia).
  pose proof (proj2 delete_by_admin_removes_that_journal_only Sample.root 1
                Sample.sqlite_db1 eq_refl I) as B.
  cbv zeta in A, B.
  exact (conj (proj1 A) (conj (proj1 (proj2 (proj2 A)))
          (conj (proj1 B) (proj1 (proj2 (proj2 B)))))).
Defined.

Lemma update_where_id_keys (jid : Z) (f : AuthorInfo.journal_row -> AuthorInfo.journal_row)
    (d : AuthorInfo.db) :
  (forall j, AuthorInfo.journal_id (f j) = AuthorInfo.journal_id j) ->
  map AuthorInfo.journal_id (AuthorInfo.journals (AuthorInfo.update_where_id jid f d))
  = map AuthorInfo.journal_id (AuthorInfo.journals d).
Proof.
  intros F. unfold AuthorInfo.update_where_id, AuthorInfo.with_journals.
  cbn [AuthorInfo.journals]. rewrite map_map. apply map_ext. intros j.
  destruct (AuthorInfo.journal_id j =? jid); [apply F | reflexivity].
Qed.

Lemma add_comment_cases (now : Datetime.datetime) (g : option AuthorInfo.user_row) (jid : Z)
    (req : Flask.request) (d : AuthorInfo.db) :
  Flask.db_after (AuthorInfo.add_comment now g jid req d) = d \/
  exists text,
    Flask.db_after (AuthorInfo.add_comment now g jid req d)
    = AuthorInfo.update_where_id jid
        (AuthorInfo.set_comments text (Datetime.isoformat now)) d.
Proof.
  unfold AuthorInfo.add_comment, Flask.login_required. destruct g; [| left; reflexivity].
  destruct (Flask.get "comment_text" _); [| left; reflexivity].
  destruct (Py.truthy _); [| left; reflexivity].
  destruct (AuthorInfo.journal_by_id jid d); [| left; reflexivity].
  destruct (Json.loads _); [| left; reflexivity].
  right. eexists. reflexivity.
Qed.

Lemma flag_journal_cases (g : option AuthorInfo.user_row) (jid : Z) (d : AuthorInfo.db) :
  Flask.db_after (AuthorInfo.flag_journal g jid d) = d \/
  Flask.db_after (AuthorInfo.flag_journal g jid d)
  = AuthorInfo.update_where_id jid AuthorInfo.bump_flags d.
Proof.
  unfold AuthorInfo.flag_journal, Flask.login_required.
  destruct g; [right | left]; reflexivity.
Qed.

(** X14: a flag or a comment for one journal touches that journal only:
    whatever the request, every other id finds the row it found before, the
    table keeps its ids in their order, and the users and both counters
    are as before. *)
Theorem flag_and_comment_touch_one_journal
    (now : Datetime.datetime) (g : option AuthorInfo.user_row) (jid jid' : Z)
    (req : Flask.request) (d : AuthorInfo.db) :
  jid' <> jid ->
  let d1 := Flask.db_after (AuthorInfo.flag_journal g jid d) in
  let d2 := Flask.db_after (AuthorInfo.add_comment now g jid req d) in
  (AuthorInfo.journal_by_id jid' d1 = AuthorInfo.journal_by_id jid' d /\
   map AuthorInfo.journal_id (AuthorInfo.journals d1)
   = map AuthorInfo.journal_id (AuthorInfo.journals d) /\
   AuthorInfo.users d1 = AuthorInfo.users d /\
   AuthorInfo.users_seq d1 = AuthorInfo.users_seq d /\
   AuthorInfo.journals_seq d1 = AuthorInfo.journals_seq d) /\
  (AuthorInfo.journal_by_id jid' d2 = AuthorInfo.journal_by_id jid' d /\
   map AuthorInfo.journal_id (AuthorInfo.journals d2)
   = map AuthorInfo.journal_id (AuthorInfo.journals d) /\
   AuthorInfo.users d2 = AuthorInfo.users d /\
   AuthorInfo.users_seq d2 = AuthorInfo.users_seq d /\
   AuthorInfo.journals_seq d2 = AuthorInfo.journals_seq d).
Proof.
  intros N d1 d2. subst d1 d2. split.
  - destruct (flag_journal_cases g jid d) as [-> | ->]; [repeat split |].
    repeat split.
    + apply lookup_update_other; [exact N | apply bump_flags_id].
    + apply update_where_id_keys, bump_flags_id.
  - destruct (add_comment_cases now g jid req d) as [-> | [text ->]]; [repeat split |].
    repeat split.
    + apply lookup_update_other; [exact N | apply set_comments_id].
    + apply update_where_id_keys, set_comments_id.
Qed.

(** X14 at a flag for the id 2, seen from the journal 1. *)
Lemma flag_and_comment_touch_one_journal_witness :
  AuthorInfo.journal_by_id 1
    (Flask.db_after (AuthorInfo.flag_journal (Some Sample.bob) 2 Sample.sqlite_db1))
  = AuthorInfo.journal_by_id 1 Sample.sqlite_db1.
Proof.
  refine (proj1 (proj1 (flag_and_comment_touch_one_journal Sample.t1 (Some Sample.bob) 2 1
                          (Flask.post []) Sample.sqlite_db1 _))).
  discriminate.
Defined.

Lemma detail_db_after (g : option AuthorInfo.user_row) (jid : Z) (d : AuthorInfo.db) :
  Flask.db_after (AuthorInfo.journal_detail g jid d) = d.
Proof.
  unfold AuthorInfo.journal_detail, Flask.login_required. destruct g; [| reflexivity].
  destruct (AuthorInfo.journal_by_id jid d); [| reflexivity].
  destruct (Json.loads _); [destruct (Json.loads _) |]; [| reflexivity ..].
  destruct (AuthorInfo.with_timestamps _); [destruct (AuthorInfo.with_timestamps _) |];
    reflexivity.
Qed.

Lemma submit_cases (affinity : Sql.column_type -> string -> Sql.cell)
    (now : Datetime.datetime) (g : option AuthorInfo.user_row)
    (req : Flask.request) (d : AuthorInfo.db) :
  Flask.db_after (AuthorInfo.submit affinity now g req d) = d \/
  exists user name url,
    g = Some user /\
    Flask.db_after (AuthorInfo.submit affinity now g req d)
    = {| AuthorInfo.users := AuthorInfo.users d;
         AuthorInfo.journals :=
           AuthorInfo.journals d
           ++ [AuthorInfo.inserted_row affinity now (AuthorInfo.new_journal_id d) (Flask.form req)
                 name url
                 (Json.dumps [AuthorInfo.creation_entry now (AuthorInfo.username user)])];
         AuthorInfo.users_seq := AuthorInfo.users_seq d;
         AuthorInfo.journals_seq := AuthorInfo.new_journal_id d |}.
Proof.
  unfold AuthorInfo.submit, Flask.login_required. destruct g as [user |]; [| left; reflexivity].
  destruct (Flask.method_ req); [left; reflexivity |].
  destruct (Flask.get "journal_name" _) as [name |]; [| left; reflexivity].
  destruct (Flask.get "official_guidelines_url" _) as [url |]; [| left; reflexivity].
  right. exists user, name, url. split; reflexivity.
Qed.

Lemma delete_cases (g : option AuthorInfo.user_row) (jid : Z) (d : AuthorInfo.db) :
  Flask.db_after (AuthorInfo.delete_journal g jid d) = d \/
  Flask.db_after (AuthorInfo.delete_journal g jid d) = AuthorInfo.delete_where_id jid d.
Proof.
  unfold AuthorInfo.delete_journal, Flask.login_required. destruct g; [| left; reflexivity].
  destruct (negb _); [left | right]; reflexivity.
Qed.

Lemma handle_users (hash : string -> string -> string)
    (ge : Sql.cell -> Py.float -> bool)
    (affinity : Sql.column_type -> string -> Sql.cell)
    (c : AuthorInfo.call) (d : AuthorInfo.db) :
  let d' := Flask.db_after (AuthorInfo.handle hash ge affinity c d) in
  (AuthorInfo.users d' = AuthorInfo.users d /\
   AuthorInfo.users_seq d' = AuthorInfo.users_seq d) \/
  (exists new,
     AuthorInfo.users d' = AuthorInfo.users d ++ [new] /\
     AuthorInfo.role new = "user" /\
     AuthorInfo.id new = AuthorInfo.new_user_id d /\
     AuthorInfo.users_seq d' = AuthorInfo.new_user_id d /\
     ~ In (AuthorInfo.username new) (map AuthorInfo.username (AuthorInfo.users d))).
Proof.
  cbv zeta. unfold AuthorInfo.handle. destruct c as [now g what].
  cbn [AuthorInfo.what AuthorInfo.g_user AuthorInfo.clock].
  destruct what as [salt req | | jid | req | req | jid | jid | jid req].
  - destruct (register_cases hash salt g req d) as [-> | (u & p & E & ->)];
      [left; split; reflexivity |].
    right. eexists. cbn. repeat split. apply name_not_taken_row. exact E.
  - left. destruct g; split; reflexivity.
  - left. rewrite detail_db_after. split; reflexivity.
  - left. destruct g; split; reflexivity.
  - left. destruct (submit_cases affinity now g req d) as [-> | (user & name & url & _ & ->)];
      split; reflexivity.
  - left. destruct (delete_cases g jid d) as [-> | ->]; split; reflexivity.
  - left. destruct (flag_journal_cases g jid d) as [-> | ->]; split; reflexivity.
  - left. destruct (add_comment_cases now g jid req d) as [-> | [text ->]]; split; reflexivity.
Qed.

(** X15: no sequence of requests to the SQLite application changes or
    removes a row of [users], and every row it adds has the role [user]
    and a username no earlier row has: the administrators are the ones the
    database started with. *)
Theorem requests_never_make_an_administrator
    (hash : string -> string -> string) (ge : Sql.cell -> Py.float -> bool)
    (affinity : Sql.column_type -> string -> Sql.cell)
    (calls : list AuthorInfo.call) (d : AuthorInfo.db) :
  exists added,
    AuthorInfo.users (AuthorInfo.serve hash ge affinity calls d) = AuthorInfo.users d ++ added /\
    Forall (fun u => AuthorInfo.role u = "user") added /\
    (NoDup (map AuthorInfo.username (AuthorInfo.users d)) ->
     NoDup (map AuthorInfo.username
                (AuthorInfo.users (AuthorInfo.serve hash ge affinity calls d)))) /\
    (forall u, In u (AuthorInfo.users (AuthorInfo.serve hash ge affinity calls d)) ->
               AuthorInfo.role u = "admin" -> In u (AuthorInfo.users d)).
Proof.
  assert (K : exists added,
            AuthorInfo.users (AuthorInfo.serve hash ge affinity calls d)
            = AuthorInfo.users d ++ added /\
            Forall (fun u => AuthorInfo.role u = "user") added /\
            (NoDup (map AuthorInfo.username (AuthorInfo.users d)) ->
             NoDup (map AuthorInfo.username
                        (AuthorInfo.users (AuthorInfo.serve hash ge affinity calls d))))).
  { revert d. induction calls as [| c calls IH]; intros d.
    - exists []. cbn. rewrite app_nil_r. repeat split; [constructor | tauto].
    - change (AuthorInfo.serve hash ge affinity (c :: calls) d)
        with (AuthorInfo.serve hash ge affinity calls
                (Flask.db_after (AuthorInfo.handle hash ge affinity c d))).
      destruct (IH (Flask.db_after (AuthorInfo.handle hash ge affinity c d)))
        as (added & E & F & N).
      destruct (handle_users hash ge affinity c d) as [[U _] | (new & U & R & _ & _ & Fresh)];
        cbv zeta in *.
      + exists added. rewrite U in E, N. repeat split; assumption.
      + exists (new :: added). rewrite U in E, N.
        split; [rewrite E, <- app_assoc; reflexivity |].
        split; [constructor; assumption |].
        intros ND. apply N. rewrite map_app. apply NoDup_snoc; assumption. }
  destruct K as (added & E & F & N). exists added. repeat split; try assumption.
  intros u I R. rewrite E in I. apply in_app_or in I. destruct I as [I | I]; [exact I |].
  rewrite Forall_forall in F. specialize (F u I). rewrite R in F. discriminate.
Qed.

(** ** Invariants of the SQLite database *)

Lemma with_timestamps_app (l l' : list Json.dict) :
  AuthorInfo.with_timestamps (l ++ l')
  = match AuthorInfo.with_timestamps l, AuthorInfo.with_timestamps l' with
    | Some a, Some b => Some (a ++ b)
    | _, _ => None
    end.
Proof.
  induction l as [| r l IH]; cbn [app AuthorInfo.with_timestamps].
  - destruct (AuthorInfo.with_timestamps l'); reflexivity.
  - rewrite IH. destruct (AuthorInfo.with_timestamp r); [| reflexivity].
    destruct (AuthorInfo.with_timestamps l); [| reflexivity].
    destruct (AuthorInfo.with_timestamps l'); reflexivity.
Qed.

Lemma decode_column_dumps (l : list Json.dict) :
  Forall Json.distinct_keys l ->
  AuthorInfo.decode_column (Some (Json.dumps l)) = AuthorInfo.with_timestamps l.
Proof.
  intros D. unfold AuthorInfo.decode_column, AuthorInfo.or_empty_list.
  rewrite truthy_dumps, (loads_dumps l D). reflexivity.
Qed.

Lemma inserted_row_renders (affinity : Sql.column_type -> string -> Sql.cell)
    (now : Datetime.datetime) (jid : Z) (form_data : Flask.MultiDict)
    (name url author : string) :
  Datetime.valid now = true ->
  AuthorInfo.row_renders
    (AuthorInfo.inserted_row affinity now jid form_data name url
       (Json.dumps [AuthorInfo.creation_entry now author])).
Proof.
  intros V. unfold AuthorInfo.row_renders, AuthorInfo.inserted_row.
  cbn [AuthorInfo.update_history AuthorInfo.comments AuthorInfo.last_updated].
  split; [| split].
  - rewrite decode_column_dumps
      by (constructor; [apply creation_entry_distinct | constructor]).
    cbn [AuthorInfo.with_timestamps]. rewrite (with_timestamp_creation_entry now author V).
    discriminate.
  - rewrite decode_column_dumps by constructor. discriminate.
  - exists now. split; [exact V | reflexivity].
Qed.

Lemma set_comments_renders (now : Datetime.datetime) (author text : string)
    (l : list Json.dict) (j : AuthorInfo.journal_row) :
  Datetime.valid now = true ->
  Forall Json.distinct_keys l -> AuthorInfo.with_timestamps l <> None ->
  AuthorInfo.row_renders j ->
  AuthorInfo.row_renders
    (AuthorInfo.set_comments
       (Json.dumps (l ++ [AuthorInfo.comment_entry now author text]))
       (Datetime.isoformat now) j).
Proof.
  intros V D T (H & _ & _). unfold AuthorInfo.row_renders, AuthorInfo.set_comments.
  cbn [AuthorInfo.update_history AuthorInfo.comments AuthorInfo.last_updated].
  split; [exact H | split].
  - rewrite decode_column_dumps.
    + rewrite with_timestamps_app. cbn [AuthorInfo.with_timestamps].
      rewrite (with_timestamp_comment_entry now author text V).
      destruct (AuthorInfo.with_timestamps l); [discriminate | congruence].
    + apply Forall_app. split; [exact D |].
      constructor; [apply comment_entry_distinct | constructor].
  - exists now. split; [exact V | reflexivity].
Qed.

Lemma add_comment_stores (now : Datetime.datetime) (g : option AuthorInfo.user_row) (jid : Z)
    (req : Flask.request) (d : AuthorInfo.db) :
  Flask.db_after (AuthorInfo.add_comment now g jid req d) = d \/
  exists user text j l,
    AuthorInfo.journal_by_id jid d = Some j /\
    Json.loads (AuthorInfo.or_empty_list (AuthorInfo.comments j)) = Some l /\
    Flask.db_after (AuthorInfo.add_comment now g jid req d)
    = AuthorInfo.update_where_id jid
        (AuthorInfo.set_comments
           (Json.dumps (l ++ [AuthorInfo.comment_entry now (AuthorInfo.username user) text]))
           (Datetime.isoformat now)) d.
Proof.
  unfold AuthorInfo.add_comment, Flask.login_required.
  destruct g as [user |]; [| left; reflexivity].
  destruct (Flask.get "comment_text" _) as [text |]; [| left; reflexivity].
  destruct (Py.truthy _); [| left; reflexivity].
  destruct (AuthorInfo.journal_by_id jid d) as [j |] eqn:E; [| left; reflexivity].
  destruct (Json.loads _) as [l |] eqn:L; [| left; reflexivity].
  right. exists user, text, j, l. repeat split. exact L.
Qed.

Lemma Forall_update (P : AuthorInfo.journal_row -> Prop) (jid : Z)
    (f : AuthorInfo.journal_row -> AuthorInfo.journal_row) (d : AuthorInfo.db) :
  (forall j, P j -> P (f j)) ->
  Forall P (AuthorInfo.journals d) ->
  Forall P (AuthorInfo.journals (AuthorInfo.update_where_id jid f d)).
Proof.
  intros F H. unfold AuthorInfo.update_where_id, AuthorInfo.with_journals.
  cbn [AuthorInfo.journals]. induction H as [| x l Hx H IH]; cbn [map]; constructor.
  - destruct (AuthorInfo.journal_id x =? jid); [apply F |]; exact Hx.
  - exact IH.
Qed.

Lemma Forall_delete (P : AuthorInfo.journal_row -> Prop) (jid : Z) (d : AuthorInfo.db) :
  Forall P (AuthorInfo.journals d) ->
  Forall P (AuthorInfo.journals (AuthorInfo.delete_where_id jid d)).
Proof.
  intros H. unfold AuthorInfo.delete_where_id, AuthorInfo.with_journals.
  cbn [AuthorInfo.journals]. rewrite Forall_forall in *. intros x I.
  apply filter_In in I. apply H. exact (proj1 I).
Qed.

Lemma bump_flags_renders (j : AuthorInfo.journal_row) :
  AuthorInfo.row_renders j -> AuthorInfo.row_renders (AuthorInfo.bump_flags j).
Proof. intros H. exact H. Qed.

Lemma handle_renders (hash : string -> string -> string)
    (ge : Sql.cell -> Py.float -> bool)
    (affinity : Sql.column_type -> string -> Sql.cell)
    (c : AuthorInfo.call) (d : AuthorInfo.db) :
  Datetime.valid (AuthorInfo.clock c) = true ->
  Forall AuthorInfo.row_renders (AuthorInfo.journals d) ->
  Forall AuthorInfo.row_renders
         (AuthorInfo.journals (Flask.db_after (AuthorInfo.handle hash ge affinity c d))).
Proof.
  intros V H. unfold AuthorInfo.handle. destruct c as [now g what].
  cbn [AuthorInfo.what AuthorInfo.g_user AuthorInfo.clock] in *.
  destruct what as [salt req | | jid | req | req | jid | jid | jid req].
  - destruct (register_cases hash salt g req d) as [-> | (u & p & _ & ->)]; exact H.
  - destruct g; exact H.
  - rewrite detail_db_after. exact H.
  - destruct g; exact H.
  - destruct (submit_cases affinity now g req d) as [-> | (user & name & url & _ & ->)];
      [exact H |].
    cbn [AuthorInfo.journals]. apply Forall_app. split; [exact H |].
    constructor; [apply inserted_row_renders; exact V | constructor].
  - destruct (delete_cases g jid d) as [-> | ->]; [exact H |]. apply Forall_delete. exact H.
  - destruct (flag_journal_cases g jid d) as [-> | ->]; [exact H |].
    apply Forall_update; [apply bump_flags_renders | exact H].
  - destruct (add_comment_stores now g jid req d)
      as [-> | (user & text & j & l & E & L & ->)]; [exact H |].
    apply Forall_update; [| exact H]. intros j' R.
    apply set_comments_renders; [exact V | exact (loads_distinct _ _ L) | | exact R].
    apply find_some in E. destruct E as [I _].
    rewrite Forall_forall in H. destruct (H j I) as (_ & C & _).
    unfold AuthorInfo.decode_column in C. rewrite L in C. exact C.
Qed.

Lemma serve_renders (hash : string -> string -> string)
    (ge : Sql.cell -> Py.float -> bool)
    (affinity : Sql.column_type -> string -> Sql.cell)
    (calls : list AuthorInfo.call) :
  forall d : AuthorInfo.db,
    Forall (fun c => Datetime.valid (AuthorInfo.clock c) = true) calls ->
    Forall AuthorInfo.row_renders (AuthorInfo.journals d) ->
    Forall AuthorInfo.row_renders (AuthorInfo.journals (AuthorInfo.serve hash ge affinity calls d)).
Proof.
  induction calls as [| c calls IH]; intros d V H; [exact H |].
  change (AuthorInfo.serve hash ge affinity (c :: calls) d)
    with (AuthorInfo.serve hash ge affinity calls
            (Flask.db_after (AuthorInfo.handle hash ge affinity c d))).
  inversion V; subst. apply IH; [assumption |]. apply handle_renders; assumption.
Qed.

Lemma detail_renders (user : AuthorInfo.user_row) (jid : Z) (d : AuthorInfo.db)
    (j : AuthorInfo.journal_row) :
  AuthorInfo.journal_by_id jid d = Some j -> AuthorInfo.row_renders j ->
  exists history comments,
    AuthorInfo.journal_detail (Some user) jid d
    = Flask.reply d []
        (Flask.render_template "journal_detail.html"
           (AuthorInfo.JournalDetail
              {| AuthorInfo.row := j; AuthorInfo.update_history_list := history;
                 AuthorInfo.comments_list := comments |})).
Proof.
  intros E (H & C & _). unfold AuthorInfo.journal_detail, Flask.login_required. rewrite E.
  unfold AuthorInfo.decode_column in H, C.
  destruct (Json.loads (AuthorInfo.or_empty_list (AuthorInfo.update_history j)));
    [| congruence].
  destruct (Json.loads (AuthorInfo.or_empty_list (AuthorInfo.comments j))); [| congruence].
  destruct (AuthorInfo.with_timestamps l) as [history |]; [| congruence].
  destruct (AuthorInfo.with_timestamps l0) as [comments |]; [| congruence].
  exists history, comments. reflexivity.
Qed.

(** X16: the journal pages of the SQLite application keep rendering.  If
    every row of [journals] has an [update_history] and a [comments] that
    [journal_detail] can decode and an ISO [last_updated] (as in a database
    without journals), then so has every row after any sequence of
    requests served at valid clock readings; and then the page of every
    journal there is rendered, with its decoded history and comments: no
    request leaves a row behind whose page answers with an error. *)
Theorem journal_pages_keep_rendering
    (hash : string -> string -> string) (ge : Sql.cell -> Py.float -> bool)
    (affinity : Sql.column_type -> string -> Sql.cell)
    (calls : list AuthorInfo.call) (d : AuthorInfo.db) :
  Forall AuthorInfo.row_renders (AuthorInfo.journals d) ->
  Forall (fun c => Datetime.valid (AuthorInfo.clock c) = true) calls ->
  let d' := AuthorInfo.serve hash ge affinity calls d in
  Forall AuthorInfo.row_renders (AuthorInfo.journals d') /\
  forall (user : AuthorInfo.user_row) (jid : Z) (j : AuthorInfo.journal_row),
    AuthorInfo.journal_by_id jid d' = Some j ->
    exists history comments,
      AuthorInfo.journal_detail (Some user) jid d'
      = Flask.reply d' []
          (Flask.render_template "journal_detail.html"
             (AuthorInfo.JournalDetail
                {| AuthorInfo.row := j; AuthorInfo.update_history_list := history;
                   AuthorInfo.comments_list := comments |})).
Proof.
  intros H V d'. pose proof (serve_renders hash ge affinity calls d V H) as R. split; [exact R |].
  intros user jid j E. apply detail_renders; [exact E |].
  rewrite Forall_forall in R. apply R. apply find_some in E. exact (proj1 E).
Qed.

(** X16 at a submission followed by a comment, a flag and a search. *)
Lemma journal_pages_keep_rendering_witness :
  Forall AuthorInfo.row_renders
    (AuthorInfo.journals
       (AuthorInfo.serve Sample.hash Sample.ge Sample.affinity
          ({| AuthorInfo.clock := Sample.t0; AuthorInfo.g_user := Some Sample.bob;
              AuthorInfo.what := AuthorInfo.Submit (Flask.post Sample.cell_form) |}
           :: Sample.later_calls)
          Sample.sqlite_db)).
Proof.
  refine (proj1 (journal_pages_keep_rendering Sample.hash Sample.ge Sample.affinity
                   ({| AuthorInfo.clock := Sample.t0; AuthorInfo.g_user := Some Sample.bob;
                       AuthorInfo.what := AuthorInfo.Submit (Flask.post Sample.cell_form) |}
                    :: Sample.later_calls)
                   Sample.sqlite_db _ _)).
  - constructor.
  - repeat (constructor; [reflexivity |]). constructor.
Defined.

Lemma delete_keeps_ids_distinct (jid : Z) (rows : list AuthorInfo.journal_row) :
  NoDup (map AuthorInfo.journal_id rows) ->
  NoDup (map AuthorInfo.journal_id
             (filter (fun j => negb (AuthorInfo.journal_id j =? jid)) rows)).
Proof.
  intros N. induction rows as [| x rows IH]; cbn [map filter]; [constructor |].
  inversion N as [| y m Hx N']; subst.
  destruct (negb (AuthorInfo.journal_id x =? jid)); [| exact (IH N')].
  cbn [map]. constructor; [| exact (IH N')].
  intros I. apply Hx. apply in_map_iff in I. destruct I as (z & E & I).
  apply filter_In in I. apply in_map_iff. exists z. split; [exact E | exact (proj1 I)].
Qed.

Lemma handle_keys_ok (hash : string -> string -> string)
    (ge : Sql.cell -> Py.float -> bool)
    (affinity : Sql.column_type -> string -> Sql.cell)
    (c : AuthorInfo.call) (d : AuthorInfo.db) :
  AuthorInfo.keys_ok d ->
  AuthorInfo.keys_ok (Flask.db_after (AuthorInfo.handle hash ge affinity c d)).
Proof.
  intros [N F]. unfold AuthorInfo.keys_ok.
  destruct (handle_cases hash ge affinity c d)
    as [[J S] | [(row & I & J & S) | [(jid & _ & E) | [(jid & E) | (jid & text & E)]]]];
    cbv zeta in *.
  - rewrite J, S. split; assumption.
  - rewrite J, S. split.
    + rewrite map_app. apply NoDup_snoc; [exact N |]. cbn [map]. rewrite I. intros K.
      apply (next_key_above (AuthorInfo.journals_seq d)) in K.
      unfold AuthorInfo.new_journal_id in K. lia.
    + apply Forall_app. split.
      * rewrite Forall_forall in *. intros j K.
        pose proof (next_key_above (AuthorInfo.journals_seq d) _ _
                      (in_map AuthorInfo.journal_id _ _ K)) as B.
        unfold AuthorInfo.new_journal_id. lia.
      * constructor; [lia | constructor].
  - rewrite E. split.
    + apply delete_keeps_ids_distinct. exact N.
    + apply (Forall_delete (fun j => AuthorInfo.journal_id j <= AuthorInfo.journals_seq d)).
      exact F.
  - rewrite E. split.
    + rewrite (update_where_id_keys _ _ _ bump_flags_id). exact N.
    + apply (Forall_update (fun j => AuthorInfo.journal_id j <= AuthorInfo.journals_seq d));
        [| exact F].
      intros j. rewrite bump_flags_id. tauto.
  - rewrite E. split.
    + rewrite (update_where_id_keys _ _ _ (set_comments_id _ _)). exact N.
    + apply (Forall_update (fun j => AuthorInfo.journal_id j <= AuthorInfo.journals_seq d));
        [| exact F].
      intros j. rewrite set_comments_id. tauto.
Qed.

(** X17: the ids of the SQLite application's journals stay distinct and
    are never given twice.  Starting from a table whose ids are distinct
    and not above the AUTOINCREMENT counter, this holds again after any
    sequence of requests; and once an administrator has deleted a journal,
    no later sequence of requests makes a journal of that id: a link to the
    deleted journal never comes to show another one. *)
Theorem journal_ids_are_never_given_twice
    (hash : string -> string -> string) (ge : Sql.cell -> Py.float -> bool)
    (affinity : Sql.column_type -> string -> Sql.cell)
    (calls : list AuthorInfo.call) (d : AuthorInfo.db) :
  AuthorInfo.keys_ok d ->
  AuthorInfo.keys_ok (AuthorInfo.serve hash ge affinity calls d) /\
  forall (user : AuthorInfo.user_row) (jid : Z),
    AuthorInfo.role user = "admin" -> AuthorInfo.journal_by_id jid d <> None ->
    AuthorInfo.journal_by_id jid
      (AuthorInfo.serve hash ge affinity calls
         (Flask.db_after (AuthorInfo.delete_journal (Some user) jid d))) = None.
Proof.
  intros K. split.
  - revert d K. induction calls as [| c calls IH]; intros d K; [exact K |].
    change (AuthorInfo.serve hash ge affinity (c :: calls) d)
      with (AuthorInfo.serve hash ge affinity calls
              (Flask.db_after (AuthorInfo.handle hash ge affinity c d))).
    apply IH. apply handle_keys_ok. exact K.
  - intros user jid R P. unfold AuthorInfo.delete_journal, Flask.login_required.
    rewrite R.
    cbn [String.eqb Ascii.eqb Bool.eqb negb Flask.reply Flask.db_after].
    apply serve_absent; [apply lookup_delete_same |].
    destruct (AuthorInfo.journal_by_id jid d) as [j |] eqn:E; [| congruence].
    apply find_some in E. destruct E as [I E]. apply Z.eqb_eq in E.
    destruct K as [_ F]. rewrite Forall_forall in F. specialize (F j I).
    unfold AuthorInfo.delete_where_id, AuthorInfo.with_journals.
    cbn [AuthorInfo.journals_seq]. lia.
Qed.

(** X17 at a comment, a flag and a search. *)
Lemma journal_ids_witness :
  AuthorInfo.keys_ok (AuthorInfo.serve Sample.hash Sample.ge Sample.affinity Sample.later_calls
                        Sample.sqlite_db1).
Proof.
  refine (proj1 (journal_ids_are_never_given_twice Sample.hash Sample.ge Sample.affinity
                   Sample.later_calls Sample.sqlite_db1 _)).
  split.
  - cbn. constructor; [intros [] | constructor].
  - cbn. constructor; [vm_compute; discriminate | constructor].
Defined.

(** ** The order of the lists, in time *)

Lemma string_leb_trans (a b c : string) :
  String.leb a b = true -> String.leb b c = true -> String.leb a c = true.
Proof.
  unfold String.leb. revert b c.
  induction a as [| x a IH]; intros [| y b] [| z c]; cbn [String.compare];
    try congruence.
  unfold Ascii.compare.
  destruct (N.compare_spec (N_of_ascii x) (N_of_ascii y)) as [E1 | L1 | L1];
    destruct (N.compare_spec (N_of_ascii y) (N_of_ascii z)) as [E2 | L2 | L2];
    destruct (N.compare_spec (N_of_ascii x) (N_of_ascii z)) as [E3 | L3 | L3];
    try congruence; try lia.
  apply IH.
Qed.

Lemma isoformat_reflects (a b : Datetime.datetime) :
  Datetime.valid a = true -> Datetime.valid b = true ->
  String.leb (Datetime.isoformat b) (Datetime.isoformat a) = true -> Datetime.le b a.
Proof.
  intros Va Vb L. unfold Datetime.le.
  destruct (Z_le_gt_dec (Datetime.key b) (Datetime.key a)) as [H | H]; [exact H |].
  assert (M : String.leb (Datetime.isoformat a) (Datetime.isoformat b) = true)
    by (apply isoformat_mono; [assumption .. | unfold Datetime.le; lia]).
  pose proof (String.leb_antisym _ _ L M) as E.
  pose proof (fromisoformat_isoformat a Va) as Fa.
  pose proof (fromisoformat_isoformat b Vb) as Fb.
  rewrite E in Fb. rewrite Fa in Fb. inversion Fb. subst. lia.
Qed.

Lemma newest_first_in_time (l : list AuthorInfo.journal_row) :
  StronglySorted
    (fun x y =>
       forall tx ty, Datetime.valid tx = true -> Datetime.valid ty = true ->
                     AuthorInfo.last_updated x = Datetime.isoformat tx ->
                     AuthorInfo.last_updated y = Datetime.isoformat ty ->
                     Datetime.le ty tx)
    (AuthorInfo.newest_first l).
Proof.
  pose proof (newest_first_sorted l) as S.
  apply Sorted_StronglySorted in S.
  - induction S as [| x m S IH F]; constructor; [exact IH |].
    rewrite Forall_forall in *. intros y I tx ty Vx Vy Ex Ey.
    apply isoformat_reflects; [assumption .. |]. rewrite <- Ex, <- Ey. apply F. exact I.
  - intros x y z H1 H2. exact (string_leb_trans _ _ _ H2 H1).
Qed.

(** X18: the lists of the SQLite application are in the order of time,
    though the database compares [last_updated] as text.  In the list of
    [journals_list] and in the result of any [search], whenever one row
    stands before another and the [last_updated] of both are the ISO texts
    of valid datetimes, the first was updated at the same time as or later
    than the second. *)
Theorem lists_are_newest_first_in_time
    (ge : Sql.cell -> Py.float -> bool) (user : AuthorInfo.user_row)
    (req : Flask.request) (d : AuthorInfo.db) :
  exists listed found,
    AuthorInfo.journals_list_view (Some user) d
    = Flask.reply d []
        (Flask.render_template "journals.html"
           (AuthorInfo.JournalList (map AuthorInfo.summarize listed))) /\
    AuthorInfo.search ge (Some user) req d
    = Flask.reply d []
        (Flask.render_template "journals.html"
           (AuthorInfo.JournalList (map AuthorInfo.summarize found))) /\
    forall rows, rows = listed \/ rows = found ->
      StronglySorted
        (fun x y =>
           forall tx ty, Datetime.valid tx = true -> Datetime.valid ty = true ->
                         AuthorInfo.last_updated x = Datetime.isoformat tx ->
                         AuthorInfo.last_updated y = Datetime.isoformat ty ->
                         Datetime.le ty tx)
        rows.
Proof.
  exists (AuthorInfo.newest_first (AuthorInfo.journals d)),
         (AuthorInfo.select_rows ge (AuthorInfo.search_query req) d).
  split; [reflexivity | split; [reflexivity |]].
  intros rows [-> | ->]; [| unfold AuthorInfo.select_rows]; apply newest_first_in_time.
Qed.

(** ** A submitted journal is listed and found *)

Lemma like_own_prefix (n : list ascii) : Sql.like (n ++ ["%"%char]) n = true.
Proof.
  induction n as [| c n IH]; [reflexivity |].
  cbn [app]. destruct (Ascii.eqb_spec c "%"%char) as [-> | N].
  - rewrite like_star_eq. rewrite (like_star_eq (n ++ ["%"%char]) n), IH.
    cbn [orb]. apply orb_true_r.
  - cbn [Sql.like]. apply Ascii.eqb_neq in N. rewrite N, IH.
    rewrite Ascii.eqb_refl, orb_true_r. reflexivity.
Qed.

Lemma like_own_name (n : string) :
  Sql.like (Py.chars ("%" ++ n ++ "%")%string) (Py.chars n) = true.
Proof.
  rewrite !chars_append. change (Py.chars "%") with ["%"%char]. cbn [app].
  apply like_star. exists [], (Py.chars n). split; [reflexivity | apply like_own_prefix].
Qed.

(** X19: a journal that [submit] of the SQLite application has stored is
    on the list and is found by its own name.  After a submission that
    passed, the list of [journals_list] holds the new id with the name as
    submitted and the impact factor as the REAL column holds it, and so
    does the result of a [search] whose only filter is that name, whether
    or not the name holds [%] or [_].  This is stated where LIKE is defined
    as modelled: no journal name holds a NUL character, and the name between
    the two [%] of the pattern stays within the length the engine accepts. *)
Theorem submitted_journal_is_listed_and_found
    (ge : Sql.cell -> Py.float -> bool)
    (affinity : Sql.column_type -> string -> Sql.cell)
    (now : Datetime.datetime)
    (user reader : AuthorInfo.user_row) (req query : Flask.request) (d : AuthorInfo.db)
    (name url : string) :
  Flask.method_ req = Flask.POST ->
  Flask.get "journal_name" (Flask.form req) = Some name ->
  Flask.get "official_guidelines_url" (Flask.form req) = Some url ->
  Flask.get "journal_name" (Flask.args query) = Some name ->
  Py.truthy (Flask.get "impact_factor" (Flask.args query)) = false ->
  Sql.nul_free name = true ->
  Forall (fun j => Sql.nul_free (AuthorInfo.journal_name j) = true) (AuthorInfo.journals d) ->
  Sql.utf8_length name + 2 <= Sql.max_like_pattern_length ->
  let d' := Flask.db_after (AuthorInfo.submit affinity now (Some user) req d) in
  let shown := (AuthorInfo.new_journal_id d, name,
                Sql.bind (affinity Sql.REAL)
                         (Py.or_None (Flask.get "impact_factor" (Flask.form req)))) in
  exists listed found,
    AuthorInfo.journals_list_view (Some reader) d'
    = Flask.reply d' [] (Flask.render_template "journals.html" (AuthorInfo.JournalList listed)) /\
    In shown listed /\
    AuthorInfo.search ge (Some reader) query d'
    = Flask.reply d' [] (Flask.render_template "journals.html" (AuthorInfo.JournalList found)) /\
    In shown found.
Proof.
  intros M Hn Hu Q I _ _ _ d' shown.
  set (new := AuthorInfo.inserted_row affinity now (AuthorInfo.new_journal_id d) (Flask.form req)
                name url
                (Json.dumps [AuthorInfo.creation_entry now (AuthorInfo.username user)])).
  assert (J : AuthorInfo.journals d' = AuthorInfo.journals d ++ [new]).
  { subst d'. unfold AuthorInfo.submit, Flask.login_required. rewrite M, Hn, Hu. reflexivity. }
  assert (S : AuthorInfo.summarize new = shown) by reflexivity.
  exists (map AuthorInfo.summarize (AuthorInfo.newest_first (AuthorInfo.journals d'))),
         (map AuthorInfo.summarize
              (AuthorInfo.select_rows ge (AuthorInfo.search_query query) d')).
  split; [reflexivity | split; [| split; [reflexivity |]]].
  - rewrite <- S. apply in_map. apply order_by_In. rewrite J.
    apply in_or_app. right. left. reflexivity.
  - rewrite <- S. apply in_map. unfold AuthorInfo.select_rows. apply order_by_In.
    apply filter_In. split; [rewrite J; apply in_or_app; right; left; reflexivity |].
    unfold AuthorInfo.search_query.
    cbn [AuthorInfo.name_like AuthorInfo.min_impact_factor]. rewrite Q.
    replace (match Flask.get "impact_factor" (Flask.args query) with
             | Some q =>
                 if Py.truthy (Flask.get "impact_factor" (Flask.args query))
                 then match Py.float_of_str q with
                      | Some x => if Py.ge0 x then Some x else None
                      | None => None
                      end
                 else None
             | None => None
             end) with (@None Py.float)
      by (rewrite I; destruct (Flask.get "impact_factor" (Flask.args query)); reflexivity).
    rewrite andb_true_r. destruct (Py.truthy (Some name)); [| reflexivity].
    apply like_own_name.
Qed.

(** X19 at a submission of user1 with the impact factor 5, which the
    list and the search show as the double 5.0. *)
Lemma submitted_journal_witness :
  let d' := Flask.db_after
              (AuthorInfo.submit Sample.affinity Sample.t0 (Some Sample.bob)
                 (Flask.post Sample.cell_form_5) Sample.sqlite_db) in
  exists listed found,
    AuthorInfo.journals_list_view (Some Sample.root) d'
    = Flask.reply d' [] (Flask.render_template "journals.html" (AuthorInfo.JournalList listed)) /\
    In (1, "Cell", Sql.CReal (Sql.real_of_int 5)) listed /\
    AuthorInfo.search Sample.ge (Some Sample.root)
      {| Flask.method_ := Flask.GET; Flask.form := [];
         Flask.args := [("journal_name", "Cell")] |} d'
    = Flask.reply d' [] (Flask.render_template "journals.html" (AuthorInfo.JournalList found)) /\
    In (1, "Cell", Sql.CReal (Sql.real_of_int 5)) found.
Proof.
  apply (submitted_journal_is_listed_and_found Sample.ge Sample.affinity Sample.t0
           Sample.bob Sample.root (Flask.post Sample.cell_form_5)
           {| Flask.method_ := Flask.GET; Flask.form := [];
              Flask.args := [("journal_name", "Cell")] |}
           Sample.sqlite_db "Cell" "http://x");
    try reflexivity.
  - constructor.
  - vm_compute. discriminate.
Defined.

(** ** The users the applications start with *)

Lemma seed_user_found (d : AuthorInfo.db) (n h r : string) (u : AuthorInfo.user_row) :
  AuthorInfo.user_by_name n d = Some u -> AuthorInfo.seed_user d (n, h, r) = d.
Proof. intros E. unfold AuthorInfo.seed_user. rewrite E. reflexivity. Qed.

Lemma seed_user_seeds (d : AuthorInfo.db) (n h r : string) :
  AuthorInfo.user_by_name n d = None ->
  AuthorInfo.user_by_name n (AuthorInfo.seed_user d (n, h, r))
  = Some {| AuthorInfo.id := AuthorInfo.new_user_id d; AuthorInfo.username := n;
            AuthorInfo.password_hash := h; AuthorInfo.role := r |}.
Proof.
  intros E. unfold AuthorInfo.seed_user. rewrite E.
  unfold AuthorInfo.user_by_name in *. cbn [AuthorInfo.users].
  rewrite find_app, E. cbn [find AuthorInfo.username]. rewrite String.eqb_refl. reflexivity.
Qed.

Lemma seed_user_keeps (d : AuthorInfo.db) (x : string * string * string) (m : string)
    (u : AuthorInfo.user_row) :
  AuthorInfo.user_by_name m d = Some u ->
  AuthorInfo.user_by_name m (AuthorInfo.seed_user d x) = Some u.
Proof.
  intros E. destruct x as [[n h] r]. unfold AuthorInfo.seed_user.
  destruct (AuthorInfo.user_by_name n d); [exact E |].
  unfold AuthorInfo.user_by_name in *. cbn [AuthorInfo.users]. rewrite find_app, E.
  reflexivity.
Qed.

Lemma seed_user_has (d : AuthorInfo.db) (n h r : string) :
  exists u, AuthorInfo.user_by_name n (AuthorInfo.seed_user d (n, h, r)) = Some u.
Proof.
  destruct (AuthorInfo.user_by_name n d) as [u |] eqn:E.
  - exists u. rewrite (seed_user_found d n h r u E). exact E.
  - eexists. apply seed_user_seeds. exact E.
Qed.

Lemma seed_user_frame (d : AuthorInfo.db) (x : string * string * string) :
  AuthorInfo.journals (AuthorInfo.seed_user d x) = AuthorInfo.journals d /\
  AuthorInfo.journals_seq (AuthorInfo.seed_user d x) = AuthorInfo.journals_seq d /\
  exists added, AuthorInfo.users (AuthorInfo.seed_user d x) = AuthorInfo.users d ++ added.
Proof.
  destruct x as [[n h] r]. unfold AuthorInfo.seed_user.
  destruct (AuthorInfo.user_by_name n d).
  - repeat split. exists []. symmetry. apply app_nil_r.
  - repeat split. eexists. reflexivity.
Qed.

Lemma register_of_taken_name (hash : string -> string -> string) (salt : string)
    (g : option AuthorInfo.user_row) (req : Flask.request) (d : AuthorInfo.db) (n : string)
    (u : AuthorInfo.user_row) :
  Flask.get "username" (Flask.form req) = Some n ->
  AuthorInfo.user_by_name n d = Some u ->
  Flask.db_after (AuthorInfo.register hash salt g req d) = d.
Proof.
  intros U E. unfold AuthorInfo.register. destruct g; [reflexivity |].
  destruct (Flask.method_ req); [reflexivity |]. rewrite U.
  destruct (Flask.get "password" _) as [p |]; [| reflexivity].
  destruct (Py.is_empty n); [reflexivity |].
  destruct (Py.is_empty p); [reflexivity |].
  rewrite E. reflexivity.
Qed.

(** X20: what the start-up code puts into [users].  [init_db] of the
    SQLite application touches no journal and no row of [users] that is
    there; it appends a row for each of [admin], [user1] and [user2] that
    no row is named after, so a second run changes nothing, whatever salts
    it draws; when no row was named [admin] the new one has the role
    [admin] and the hash of [admin123]; a row that was named [admin]
    is kept as it is, role included; and afterwards [register] stores
    nothing under one of the three names.  The start-up block of
    [src/app.py] does the same for [admin] alone. *)
Theorem start_up_adds_the_missing_users_only (hash : string -> string -> string) :
  (forall (s1 s2 s3 t1 t2 t3 : string) (d : AuthorInfo.db),
     let d' := AuthorInfo.init_db hash s1 s2 s3 d in
     AuthorInfo.init_db hash t1 t2 t3 d' = d' /\
     AuthorInfo.journals d' = AuthorInfo.journals d /\
     AuthorInfo.journals_seq d' = AuthorInfo.journals_seq d /\
     (exists added, AuthorInfo.users d' = AuthorInfo.users d ++ added) /\
     (forall n u, AuthorInfo.user_by_name n d = Some u ->
                  AuthorInfo.user_by_name n d' = Some u) /\
     (AuthorInfo.user_by_name "admin" d = None ->
      AuthorInfo.user_by_name "admin" d'
      = Some {| AuthorInfo.id := AuthorInfo.new_user_id d; AuthorInfo.username := "admin";
                AuthorInfo.password_hash := hash s1 "admin123";
                AuthorInfo.role := "admin" |}) /\
     (forall n salt g req,
        In n ["admin"; "user1"; "user2"] ->
        Flask.get "username" (Flask.form req) = Some n ->
        Flask.db_after (AuthorInfo.register hash salt g req d') = d')) /\
  (forall (s t : string) (d : App.db),
     let d' := App.main hash s d in
     App.main hash t d' = d' /\
     App.journals d' = App.journals d /\
     (exists added, App.users d' = App.users d ++ added) /\
     (forall n u, App.user_by_name n d = Some u -> App.user_by_name n d' = Some u) /\
     (App.user_by_name "admin" d = None ->
      App.user_by_name "admin" d'
      = Some {| App.user_id := App.new_user_id d; App.username := "admin";
                App.password_hash := hash s "admin123"; App.role := "admin" |})).
Proof.
  split.
  - intros s1 s2 s3 t1 t2 t3 d d'.
    set (a := ("admin", hash s1 "admin123", "admin")).
    set (b := ("user1", hash s2 "user123", "user")).
    set (c := ("user2", hash s3 "user123", "user")).
    set (d1 := AuthorInfo.seed_user d a).
    set (d2 := AuthorInfo.seed_user d1 b).
    assert (E : d' = AuthorInfo.seed_user d2 c) by reflexivity.
    destruct (seed_user_has d "admin" (hash s1 "admin123") "admin") as [ua Ha].
    destruct (seed_user_has d1 "user1" (hash s2 "user123") "user") as [ub Hb].
    destruct (seed_user_has d2 "user2" (hash s3 "user123") "user") as [uc Hc].
    fold a d1 in Ha. fold b d2 in Hb. fold c in Hc. rewrite <- E in Hc.
    assert (Ha' : AuthorInfo.user_by_name "admin" d' = Some ua)
      by (rewrite E; apply seed_user_keeps, seed_user_keeps; exact Ha).
    assert (Hb' : AuthorInfo.user_by_name "user1" d' = Some ub)
      by (rewrite E; apply seed_user_keeps; exact Hb).
    destruct (seed_user_frame d a) as (J1 & S1 & add1 & U1).
    destruct (seed_user_frame d1 b) as (J2 & S2 & add2 & U2).
    destruct (seed_user_frame d2 c) as (J3 & S3 & add3 & U3).
    fold d1 in J1, S1, U1. fold d2 in J2, S2, U2. rewrite <- E in J3, S3, U3.
    split; [| split; [| split; [| split; [| split; [| split]]]]].
    + unfold AuthorInfo.init_db. cbn [fold_left].
      rewrite (seed_user_found d' _ _ _ ua Ha'), (seed_user_found d' _ _ _ ub Hb').
      apply (seed_user_found d' _ _ _ uc Hc).
    + congruence.
    + congruence.
    + exists (add1 ++ add2 ++ add3). rewrite U3, U2, U1, <- !app_assoc. reflexivity.
    + intros n u F. rewrite E. apply seed_user_keeps, seed_user_keeps, seed_user_keeps.
      exact F.
    + intros F. rewrite E. apply seed_user_keeps, seed_user_keeps.
      apply seed_user_seeds. exact F.
    + intros n salt g req [<- | [<- | [<- | []]]] U.
      * exact (register_of_taken_name hash salt g req d' _ ua U Ha').
      * exact (register_of_taken_name hash salt g req d' _ ub U Hb').
      * exact (register_of_taken_name hash salt g req d' _ uc U Hc).
  - intros s t d d'. subst d'. unfold App.main.
    destruct (App.user_by_name "admin" d) as [u |] eqn:E.
    + rewrite E. repeat split.
      * exists []. symmetry. apply app_nil_r.
      * tauto.
      * discriminate.
    + assert (F : App.user_by_name "admin"
                    {| App.users :=
                         App.users d
                         ++ [{| App.user_id := App.new_user_id d; App.username := "admin";
                                App.password_hash := hash s "admin123";
                                App.role := "admin" |}];
                       App.journals := App.journals d |}
                  = Some {| App.user_id := App.new_user_id d; App.username := "admin";
                            App.password_hash := hash s "admin123";
                            App.role := "admin" |}).
      { unfold App.user_by_name in *. cbn [App.users]. rewrite find_app, E. reflexivity. }
      rewrite F. repeat split.
      * eexists. reflexivity.
      * intros n u G. unfold App.user_by_name in *. cbn [App.users].
        rewrite find_app, G. reflexivity.
Qed.

(** ** Further edges of the SQLite application *)

(** X21: a journal whose [flags_count] is NULL cannot be flagged.  In a
    table whose ids are distinct and not above the counter, such a row
    still has NULL there after any sequence of requests, flags included,
    for as long as it is in the table. *)
Theorem null_flags_count_stays_null
    (hash : string -> string -> string) (ge : Sql.cell -> Py.float -> bool)
    (affinity : Sql.column_type -> string -> Sql.cell)
    (calls : list AuthorInfo.call) (d : AuthorInfo.db) (jid : Z)
    (j : AuthorInfo.journal_row) :
  AuthorInfo.keys_ok d ->
  AuthorInfo.journal_by_id jid d = Some j ->
  AuthorInfo.flags_count j = Sql.Null ->
  match AuthorInfo.journal_by_id jid (AuthorInfo.serve hash ge affinity calls d) with
  | Some j' => AuthorInfo.flags_count j' = Sql.Null
  | None => True
  end.
Proof.
  intros [_ F] E N.
  apply (serve_keeps hash ge affinity (fun j => AuthorInfo.flags_count j = Sql.Null)).
  - apply find_some in E. destruct E as [I E]. apply Z.eqb_eq in E.
    rewrite Forall_forall in F. specialize (F j I). lia.
  - intros j' H. cbn [AuthorInfo.bump_flags AuthorInfo.flags_count]. rewrite H. reflexivity.
  - intros c text j' _ H. exact H.
  - rewrite E. exact N.
Qed.

(** X21 at two flags for a row written by another program. *)
Lemma null_flags_count_witness :
  match AuthorInfo.journal_by_id 7
          (AuthorInfo.serve Sample.hash Sample.ge Sample.affinity
             [AuthorInfo.flag_call 7 (Sample.t1, Sample.bob);
              AuthorInfo.flag_call 7 (Sample.t2, Sample.root)] Sample.sqlite_legacy) with
  | Some j' => AuthorInfo.flags_count j' = Sql.Null
  | None => True
  end.
Proof.
  apply (null_flags_count_stays_null Sample.hash Sample.ge Sample.affinity
           [AuthorInfo.flag_call 7 (Sample.t1, Sample.bob);
            AuthorInfo.flag_call 7 (Sample.t2, Sample.root)]
           Sample.sqlite_legacy 7 Sample.legacy_row).
  - split.
    + cbn. constructor; [intros [] | constructor].
    + cbn. constructor; [vm_compute; discriminate | constructor].
  - reflexivity.
  - reflexivity.
Defined.

(** X22: [submit] never changes a journal that is stored.  In both
    applications, whatever the request and whoever sends it, every id
    that found a journal before finds the same journal afterwards, the
    table still begins with the rows it had, and the users are as
    before. *)
Theorem submit_keeps_the_stored_journals :
  (forall (column_float : Py.float -> option (option Py.float))
          (column_integer : Z -> option (option Z))
          (now created updated : Datetime.datetime) (g : option App.User)
          (req : Flask.request) (d : App.db),
     let d' := Flask.db_after
                 (App.submit column_float column_integer now created updated g req d) in
     (exists added, App.journals d' = App.journals d ++ added) /\
     App.users d' = App.users d /\
     forall jid j, App.get_journal jid d = Some j -> App.get_journal jid d' = Some j) /\
  (forall (affinity : Sql.column_type -> string -> Sql.cell)
          (now : Datetime.datetime) (g : option AuthorInfo.user_row)
          (req : Flask.request) (d : AuthorInfo.db),
     let d' := Flask.db_after (AuthorInfo.submit affinity now g req d) in
     (exists added, AuthorInfo.journals d' = AuthorInfo.journals d ++ added) /\
     AuthorInfo.users d' = AuthorInfo.users d /\
     forall jid j, AuthorInfo.journal_by_id jid d = Some j ->
                   AuthorInfo.journal_by_id jid d' = Some j).
Proof.
  split.
  - intros column_float column_integer now created updated g req d d'.
    assert (K : d' = d \/ exists new,
                  d' = {| App.users := App.users d; App.journals := App.journals d ++ [new] |}).
    { subst d'. unfold App.submit, Flask.login_required. destruct g; [| left; reflexivity].
      destruct (Flask.method_ req); [left; reflexivity |].
      destruct (App.parse_if_present Py.float_of_str _); [| left; reflexivity].
      destruct (App.parse_if_present Py.int _); [| left; reflexivity].
      destruct (App.parse_if_present Py.int _); [| left; reflexivity].
      destruct (Flask.get "journal_name" _); [| left; reflexivity].
      destruct (Flask.get "official_guidelines_url" _); [| left; reflexivity].
      destruct (App.flush column_float _); [| left; reflexivity].
      destruct (App.flush column_integer _); [| left; reflexivity].
      destruct (App.flush column_integer _); [| left; reflexivity].
      right. eexists. reflexivity. }
    destruct K as [-> | [new ->]].
    + split; [exists []; symmetry; apply app_nil_r | split; [reflexivity | tauto]].
    + split; [exists [new]; reflexivity | split; [reflexivity |]].
      intros jid j E. unfold App.get_journal in *. cbn [App.journals].
      rewrite find_app, E. reflexivity.
  - intros affinity now g req d d'. subst d'.
    destruct (submit_cases affinity now g req d) as [-> | (user & name & url & _ & ->)].
    + split; [exists []; symmetry; apply app_nil_r | split; [reflexivity | tauto]].
    + split; [eexists; reflexivity | split; [reflexivity |]].
      intros jid j E. unfold AuthorInfo.journal_by_id in *. cbn [AuthorInfo.journals].
      rewrite find_app, E. reflexivity.
Qed.
